(** * Coinbase Advanced Trade access layer: token minting and request execution

    A shallow embedding of [auth/jwt_generator.py] and of the request layer of
    [core/coinbase_requests_client.py], together with the properties of the
    access layer that the design document states about them.

    Python [bytes] and [str] values are both rendered as Rocq strings, one
    [ascii] per byte; text is ASCII text (every string literal of the two
    source files that reaches a claim is ASCII, and [json.dumps] only emits
    ASCII).  Python [int] is [Z].  Python dictionaries keep insertion order,
    which [json.dumps] exposes, so they are association lists. *)

From Stdlib Require Import ZArith NArith List String Ascii Bool Lia QArith.
From Stdlib Require Import DecimalString DecimalZ.
Import ListNotations.

Set Warnings "-register-all".
Local Close Scope Q_scope.
Local Open Scope string_scope.

(** ** Strings as byte sequences *)

Module Bytes.

Fixpoint take (n : nat) (s : string) : string :=
  match n, s with
  | S n', String c s' => String c (take n' s')
  | _, _ => EmptyString
  end.

Fixpoint of_codes (l : list nat) : string :=
  match l with
  | [] => EmptyString
  | n :: l' => String (ascii_of_nat n) (of_codes l')
  end.

Fixpoint all_chars (p : ascii -> bool) (s : string) : bool :=
  match s with
  | EmptyString => true
  | String c s' => p c && all_chars p s'
  end.

Fixpoint map (f : ascii -> ascii) (s : string) : string :=
  match s with
  | EmptyString => EmptyString
  | String c s' => String (f c) (map f s')
  end.

(** [bytes.rstrip(c)] for a one-byte argument: the trailing run of [c] is
    removed. *)
Fixpoint rstrip (c : ascii) (s : string) : string :=
  match s with
  | EmptyString => EmptyString
  | String d s' =>
      match rstrip c s' with
      | EmptyString => if Ascii.eqb d c then EmptyString else String d EmptyString
      | r => String d r
      end
  end.

(** [sep.join(parts)] *)
Fixpoint join (sep : string) (parts : list string) : string :=
  match parts with
  | [] => EmptyString
  | [p] => p
  | p :: ps => p ++ sep ++ join sep ps
  end.

(** [s.split(c)] for a one-character separator. *)
Fixpoint split_on (c : ascii) (s : string) : list string :=
  match s with
  | EmptyString => [EmptyString]
  | String d s' =>
      if Ascii.eqb d c then EmptyString :: split_on c s'
      else match split_on c s' with
           | [] => [String d EmptyString]
           | p :: ps => String d p :: ps
           end
  end.

(** [needle in haystack] on strings. *)
Fixpoint contains (needle hay : string) : bool :=
  prefix needle hay ||
  match hay with
  | EmptyString => false
  | String _ hay' => contains needle hay'
  end.

(** [str.upper()] and [str.lower()].  A string stands for the text whose
    code points are its bytes; the two functions are those of Python on
    ASCII text (every code point below 128) and leave other bytes alone,
    which Python does not. *)
Definition upper_char (c : ascii) : ascii :=
  let n := nat_of_ascii c in
  if (97 <=? n)%nat && (n <=? 122)%nat then ascii_of_nat (n - 32) else c.

Definition upper (s : string) : string := map upper_char s.

Definition lower_char (c : ascii) : ascii :=
  let n := nat_of_ascii c in
  if (65 <=? n)%nat && (n <=? 90)%nat then ascii_of_nat (n + 32) else c.

Definition lower (s : string) : string := map lower_char s.

(** [str(n)] for an integer. *)
Definition of_Z (z : Z) : string := NilZero.string_of_int (Z.to_int z).

Definition hex_digit (n : N) : ascii :=
  match n with
  | 0 => "0" | 1 => "1" | 2 => "2" | 3 => "3" | 4 => "4" | 5 => "5"
  | 6 => "6" | 7 => "7" | 8 => "8" | 9 => "9" | 10 => "a" | 11 => "b"
  | 12 => "c" | 13 => "d" | 14 => "e" | _ => "f"
  end%N%char.

(** [bytes.hex()] *)
Fixpoint hex (s : string) : string :=
  match s with
  | EmptyString => EmptyString
  | String c s' =>
      let n := N_of_ascii c in
      String (hex_digit (n / 16)%N) (String (hex_digit (n mod 16)%N) (hex s'))
  end.

End Bytes.

(** ** base64 (module [base64] of the Python standard library, RFC 4648) *)

Module Base64.

Local Open Scope N_scope.

(** The value-to-character table; [urlsafe] selects [-] and [_] for the
    values 62 and 63. *)
Definition alphabet (urlsafe : bool) : string :=
  "ABCDEFGHIJKLMNOPQRSTUVWXYZabcdefghijklmnopqrstuvwxyz0123456789"
    ++ (if urlsafe then "-_" else "+/").

Definition digit (urlsafe : bool) (n : N) : ascii :=
  match String.get (N.to_nat n) (alphabet urlsafe) with
  | Some c => c
  | None => "="%char
  end.

Fixpoint index_of (c : ascii) (s : string) (i : N) : option N :=
  match s with
  | EmptyString => None
  | String d s' => if Ascii.eqb c d then Some i else index_of c s' (i + 1)
  end.

Definition value (urlsafe : bool) (c : ascii) : option N :=
  index_of c (alphabet urlsafe) 0.

(** [base64.b64encode]: three bytes make four digits, a final group of one
    or two bytes is padded with [=]. *)
Fixpoint encode_with (urlsafe : bool) (pad : bool) (s : string) : string :=
  let d := digit urlsafe in
  match s with
  | EmptyString => EmptyString
  | String a EmptyString =>
      let a := N_of_ascii a in
      String (d (a / 4)) (String (d ((a mod 4) * 16))
        (if pad then "==" else EmptyString))
  | String a (String b EmptyString) =>
      let a := N_of_ascii a in
      let b := N_of_ascii b in
      String (d (a / 4)) (String (d ((a mod 4) * 16 + b / 16))
        (String (d ((b mod 16) * 4)) (if pad then "=" else EmptyString)))
  | String a (String b (String c s')) =>
      let a := N_of_ascii a in
      let b := N_of_ascii b in
      let c := N_of_ascii c in
      String (d (a / 4)) (String (d ((a mod 4) * 16 + b / 16))
        (String (d ((b mod 16) * 4 + c / 64)) (String (d (c mod 64))
          (encode_with urlsafe pad s'))))
  end.

Definition b64encode (s : string) : string := encode_with false true s.

(** [bytes.translate] with the table of [urlsafe_b64encode]. *)
Definition urlsafe_translate (c : ascii) : ascii :=
  if Ascii.eqb c "+" then "-"%char
  else if Ascii.eqb c "/" then "_"%char else c.

Definition urlsafe_b64encode (s : string) : string :=
  Bytes.map urlsafe_translate (b64encode s).

(** [binascii.a2b_base64] in its default, non-strict mode, as
    [base64.b64decode(s)] calls it: characters outside the alphabet are
    skipped, a complete padding sequence ends the input, and left-over
    digits are an error. *)
Record a2b_state := {
  quad_pos : N;
  leftchar : N;
  pads : N;
  out_rev : list ascii
}.

Definition a2b_init : a2b_state :=
  {| quad_pos := 0; leftchar := 0; pads := 0; out_rev := [] |}.

Inductive a2b_step_result :=
| Continue (st : a2b_state)
| Done (st : a2b_state).

Definition a2b_step (st : a2b_state) (ch : ascii) : a2b_step_result :=
  if Ascii.eqb ch "=" then
    if (2 <=? quad_pos st)%N && (4 <=? quad_pos st + (pads st + 1))%N
    then Done st
    else if (2 <=? quad_pos st)%N
         then Continue {| quad_pos := quad_pos st; leftchar := leftchar st;
                          pads := pads st + 1; out_rev := out_rev st |}
         else Continue st
  else
    match value false ch with
    | None => Continue st
    | Some v =>
        match quad_pos st with
        | 0%N => Continue {| quad_pos := 1; leftchar := v; pads := 0;
                             out_rev := out_rev st |}
        | 1%N => Continue {| quad_pos := 2; leftchar := v mod 16; pads := 0;
                             out_rev := ascii_of_N (leftchar st * 4 + v / 16)
                                          :: out_rev st |}
        | 2%N => Continue {| quad_pos := 3; leftchar := v mod 4; pads := 0;
                             out_rev := ascii_of_N (leftchar st * 16 + v / 4)
                                          :: out_rev st |}
        | _ => Continue {| quad_pos := 0; leftchar := 0; pads := 0;
                           out_rev := ascii_of_N (leftchar st * 64 + v)
                                        :: out_rev st |}
        end
    end.

Fixpoint a2b_loop (st : a2b_state) (s : string) : a2b_state :=
  match s with
  | EmptyString => st
  | String ch s' =>
      match a2b_step st ch with
      | Continue st' => a2b_loop st' s'
      | Done st' => {| quad_pos := 0; leftchar := 0; pads := 0;
                       out_rev := out_rev st' |}
      end
  end.

(** [None] stands for [binascii.Error]. *)
Definition a2b_base64 (s : string) : option string :=
  let st := a2b_loop a2b_init s in
  if (quad_pos st =? 0)%N
  then Some (string_of_list_ascii (List.rev (out_rev st)))
  else None.

(** The reader's side of the token format: decoding of unpadded base64url
    text.  Not part of the program; it is what "base64url-decoded" means
    in the statements about token segments. *)
Fixpoint urlsafe_decode_nopad (s : string) : option string :=
  let v := value true in
  match s with
  | EmptyString => Some EmptyString
  | String _ EmptyString => None
  | String c0 (String c1 EmptyString) =>
      match v c0, v c1 with
      | Some x0, Some x1 =>
          Some (String (ascii_of_N (x0 * 4 + x1 / 16)) EmptyString)
      | _, _ => None
      end
  | String c0 (String c1 (String c2 EmptyString)) =>
      match v c0, v c1, v c2 with
      | Some x0, Some x1, Some x2 =>
          Some (String (ascii_of_N (x0 * 4 + x1 / 16))
                 (String (ascii_of_N ((x1 mod 16) * 16 + x2 / 4)) EmptyString))
      | _, _, _ => None
      end
  | String c0 (String c1 (String c2 (String c3 s'))) =>
      match v c0, v c1, v c2, v c3, urlsafe_decode_nopad s' with
      | Some x0, Some x1, Some x2, Some x3, Some rest =>
          Some (String (ascii_of_N (x0 * 4 + x1 / 16))
                 (String (ascii_of_N ((x1 mod 16) * 16 + x2 / 4))
                   (String (ascii_of_N ((x2 mod 4) * 64 + x3)) rest)))
      | _, _, _, _, _ => None
      end
  end.

End Base64.

(** ** Python values, exceptions and the world the program runs in *)

Module Py.

(** The values that cross the JSON boundary ([json.dumps], [Response.json]). *)
Inductive value :=
| VNone
| VBool (b : bool)
| VInt (z : Z)
| VStr (s : string)
| VList (l : list value)
| VDict (d : list (string * value)).

Definition dict := list (string * value).

(** [k in d] and [d.get(k)] on a dictionary. *)
Fixpoint dict_get (k : string) (d : dict) : option value :=
  match d with
  | [] => None
  | (k', v) :: d' => if String.eqb k k' then Some v else dict_get k d'
  end.

Definition dict_has (k : string) (d : dict) : bool :=
  match dict_get k d with Some _ => true | None => false end.

(** Truth value of an object ([if x:], [not x]). *)
Definition truthy (v : value) : bool :=
  match v with
  | VNone => false
  | VBool b => b
  | VInt z => negb (z =? 0)%Z
  | VStr s => negb (String.eqb s "")
  | VList l => match l with [] => false | _ => true end
  | VDict d => match d with [] => false | _ => true end
  end.

(** The exceptions that the modelled calls raise. *)
Inductive exn :=
| TypeError
| ValueError
| BinasciiError
| NaclValueError
| JSONDecodeError
| HTTPError (msg : string)
| ProtocolError
| MaxRetryError (reason_is_response : bool)
| InvalidSchema
| ConnectionError
| RetryError
| RecursionError
| InvalidHeader.

Inductive result (A : Type) :=
| Ok (a : A)
| Raise (e : exn).
Arguments Ok {A} a.
Arguments Raise {A} e.

(** An HTTP request as handed to the session, and what one attempt to send
    it can produce. *)
Record Request := {
  req_method : string;
  req_url : string;
  req_headers : list (string * string);
  req_params : option dict;
  req_json : option value
}.

(** The [Retry-After] header of a response as [Retry.parse_retry_after]
    reads it: a number of seconds; a date, given by the seconds from the
    moment it is read to that date (negative for a date in the past); or a
    text that is neither, [empty] when it is the empty string. *)
Inductive RetryAfter :=
| Seconds (n : N)
| HttpDate (ahead : Q)
| Unparsable (empty : bool).

(** [json_body] is the value [Response.json()] returns, [None] when the
    body is not a JSON document (the call raises [JSONDecodeError]);
    [retry_after] is the [Retry-After] header, when present. *)
Record Response := {
  status_code : Z;
  reason : string;
  url : string;
  text : string;
  json_body : option value;
  retry_after : option RetryAfter
}.

Inductive Attempt :=
| Responded (r : Response)
| ConnectFailed
| ReadFailed.

(** Everything outside the Python process state: the clock, the operating
    system's entropy, standard output, and the remote service.  [upstream n
    rq] is what the [n]-th attempt (counting from 0) yields when it sends
    [rq]; [sent] logs the attempts and [slept] the calls to [time.sleep],
    oldest first. *)
Record World := {
  clock : Z;
  urandom : nat -> ascii;
  entropy_used : nat;
  stdout : list string;
  upstream : nat -> Request -> Attempt;
  sent : list Request;
  slept : list Q
}.

Definition M (A : Type) : Type := World -> result A * World.

Definition ret {A} (a : A) : M A := fun w => (Ok a, w).

Definition bind {A B} (m : M A) (k : A -> M B) : M B :=
  fun w =>
    match m w with
    | (Ok a, w') => k a w'
    | (Raise e, w') => (Raise e, w')
    end.

Definition raise {A} (e : exn) : M A := fun w => (Raise e, w).

Definition lift {A} (r : result A) : M A := fun w => (r, w).

(** [try: body except <class> as e: handler(e)]; [catches e] returns the
    handler's argument when the [except] clause matches [e]. *)
Definition try_except {A B} (body : M A) (catches : exn -> option B)
           (handler : B -> M A) : M A :=
  fun w =>
    match body w with
    | (Ok a, w') => (Ok a, w')
    | (Raise e, w') =>
        match catches e with
        | Some b => handler b w'
        | None => (Raise e, w')
        end
    end.

(** [int(time.time())] *)
Definition time_time : M Z := fun w => (Ok (clock w), w).

Fixpoint read_entropy (src : nat -> ascii) (pos n : nat) : string :=
  match n with
  | O => EmptyString
  | S n' => String (src pos) (read_entropy src (S pos) n')
  end.

(** [os.urandom(n)] *)
Definition os_urandom (n : nat) : M string :=
  fun w =>
    (Ok (read_entropy (urandom w) (entropy_used w) n),
     {| clock := clock w; urandom := urandom w;
        entropy_used := entropy_used w + n; stdout := stdout w;
        upstream := upstream w; sent := sent w; slept := slept w |}).

(** [secrets.token_hex(n)] *)
Definition token_hex (n : nat) : M string :=
  bind (os_urandom n) (fun b => ret (Bytes.hex b)).

(** [print] with several arguments: the arguments separated by a space, then a newline. *)
Definition newline : string := String (ascii_of_nat 10) EmptyString.

Definition print (args : list string) : M unit :=
  fun w =>
    (Ok tt,
     {| clock := clock w; urandom := urandom w;
        entropy_used := entropy_used w;
        stdout := stdout w ++ [Bytes.join " " args ++ newline];
        upstream := upstream w; sent := sent w; slept := slept w |}).

(** [time.sleep(d)] *)
Definition time_sleep (d : Q) : M unit :=
  fun w =>
    (Ok tt,
     {| clock := clock w; urandom := urandom w;
        entropy_used := entropy_used w; stdout := stdout w;
        upstream := upstream w; sent := sent w; slept := slept w ++ [d] |}).

(** One attempt on the wire. *)
Definition send_once (rq : Request) : M Attempt :=
  fun w =>
    (Ok (upstream w (List.length (sent w)) rq),
     {| clock := clock w; urandom := urandom w;
        entropy_used := entropy_used w; stdout := stdout w;
        upstream := upstream w; sent := sent w ++ [rq]; slept := slept w |}).

End Py.

Import Py.

Declare Scope py_scope.
Delimit Scope py_scope with py.
Notation "x <- m ;; k" := (bind m (fun x => k))
  (at level 61, m at next level, right associativity) : py_scope.
Notation "m ;;; k" := (bind m (fun _ => k))
  (at level 61, right associativity) : py_scope.

(** ** json.dumps *)

Module Json.

Definition dquote : ascii := ascii_of_nat 34.

Definition hex4 (n : N) : string :=
  String (Bytes.hex_digit (n / 4096)%N)
    (String (Bytes.hex_digit ((n / 256) mod 16)%N)
      (String (Bytes.hex_digit ((n / 16) mod 16)%N)
        (String (Bytes.hex_digit (n mod 16)%N) EmptyString))).

(** [py_encode_basestring_ascii]: the backslash, the double quote and every
    character outside the range from space to tilde are escaped.  A byte
    is taken as the code point of the same number, so this is the escaping
    of Python for text whose code points are below 256, ASCII text in
    particular. *)
Definition escape_char (c : ascii) : string :=
  let n := N_of_ascii c in
  if (n =? 34)%N then Bytes.of_codes [92; 34]
  else if (n =? 92)%N then Bytes.of_codes [92; 92]
  else if (n =? 10)%N then Bytes.of_codes [92; 110]
  else if (n =? 13)%N then Bytes.of_codes [92; 114]
  else if (n =? 9)%N then Bytes.of_codes [92; 116]
  else if (n =? 12)%N then Bytes.of_codes [92; 102]
  else if (n =? 8)%N then Bytes.of_codes [92; 98]
  else if (32 <=? n)%N && (n <=? 126)%N then String c EmptyString
  else Bytes.of_codes [92; 117] ++ hex4 n.

Fixpoint escape (s : string) : string :=
  match s with
  | EmptyString => EmptyString
  | String c s' => escape_char c ++ escape s'
  end.

Definition quote (s : string) : string :=
  String dquote (escape s ++ String dquote EmptyString).

Fixpoint spaces (n : nat) : string :=
  match n with
  | O => EmptyString
  | S n' => String " " (spaces n')
  end.

(** The line break that precedes an item at nesting depth [level]; empty
    when [indent] is [None]. *)
Definition newline_indent (indent : option nat) (level : nat) : string :=
  match indent with
  | None => EmptyString
  | Some k => Py.newline ++ spaces (k * level)
  end.

Definition item_separator (indent : option nat) : string :=
  match indent with None => ", " | Some _ => "," end.

Fixpoint dumps_at (indent : option nat) (level : nat) (v : value) : string :=
  match v with
  | VNone => "null"
  | VBool true => "true"
  | VBool false => "false"
  | VInt z => Bytes.of_Z z
  | VStr s => quote s
  | VList [] => "[]"
  | VList l =>
      "[" ++ newline_indent indent (S level)
        ++ (fix items (l : list value) : string :=
              match l with
              | [] => EmptyString
              | [x] => dumps_at indent (S level) x
              | x :: l' =>
                  dumps_at indent (S level) x ++ item_separator indent
                    ++ newline_indent indent (S level) ++ items l'
              end) l
        ++ newline_indent indent level ++ "]"
  | VDict [] => "{}"
  | VDict d =>
      "{" ++ newline_indent indent (S level)
        ++ (fix items (d : list (string * value)) : string :=
              match d with
              | [] => EmptyString
              | [(k, x)] => quote k ++ ": " ++ dumps_at indent (S level) x
              | (k, x) :: d' =>
                  quote k ++ ": " ++ dumps_at indent (S level) x
                    ++ item_separator indent
                    ++ newline_indent indent (S level) ++ items d'
              end) d
        ++ newline_indent indent level ++ "}"
  end.

(** [json.dumps(v)] and [json.dumps(v, indent=k)] *)
Definition dumps (v : value) : string := dumps_at None 0 v.
Definition dumps_indent (k : nat) (v : value) : string := dumps_at (Some k) 0 v.

End Json.

(** ** Reading JSON objects

    The reader's side of the header and of the claim set: a parser of JSON
    objects whose members are strings, integers, [null], [true] or [false].
    Not part of the program; it is what it means for a text to be a JSON
    object with given fields, independently of [Json.dumps]. *)

Module JsonReader.

Definition is_ws (c : ascii) : bool :=
  let n := nat_of_ascii c in
  ((n =? 32) || (n =? 9) || (n =? 10) || (n =? 13))%nat.

Fixpoint skip_ws (s : string) : string :=
  match s with
  | String c s' => if is_ws c then skip_ws s' else s
  | EmptyString => EmptyString
  end.

Definition hex_value (c : ascii) : option N :=
  let n := N_of_ascii c in
  if (48 <=? n)%N && (n <=? 57)%N then Some (n - 48)%N
  else if (97 <=? n)%N && (n <=? 102)%N then Some (n - 87)%N
  else if (65 <=? n)%N && (n <=? 70)%N then Some (n - 55)%N
  else None.

(** The character that follows a backslash in a two-character escape. *)
Definition unescape (e : ascii) : option ascii :=
  let n := nat_of_ascii e in
  if (n =? 34)%nat then Some (ascii_of_nat 34)
  else if (n =? 92)%nat then Some (ascii_of_nat 92)
  else if (n =? 47)%nat then Some (ascii_of_nat 47)
  else if (n =? 110)%nat then Some (ascii_of_nat 10)
  else if (n =? 114)%nat then Some (ascii_of_nat 13)
  else if (n =? 116)%nat then Some (ascii_of_nat 9)
  else if (n =? 102)%nat then Some (ascii_of_nat 12)
  else if (n =? 98)%nat then Some (ascii_of_nat 8)
  else None.

Definition cons_char (c : ascii) (o : option (string * string))
  : option (string * string) :=
  match o with
  | Some (t, r) => Some (String c t, r)
  | None => None
  end.

Definition code_point (h1 h2 h3 h4 : ascii) : option N :=
  match hex_value h1, hex_value h2, hex_value h3, hex_value h4 with
  | Some a, Some b, Some c, Some d => Some (((a * 16 + b) * 16 + c) * 16 + d)%N
  | _, _, _, _ => None
  end.

(** The text of a string literal after its opening quote, and what
    follows the closing quote.  Code points above 255 have no rendering as
    one character and are refused. *)
Fixpoint read_string_body (s : string) : option (string * string) :=
  match s with
  | EmptyString => None
  | String c s' =>
      if (nat_of_ascii c =? 34)%nat then Some (EmptyString, s')
      else if (nat_of_ascii c =? 92)%nat then
        match s' with
        | String e s'' =>
            if (nat_of_ascii e =? 117)%nat then
              match s'' with
              | String h1 (String h2 (String h3 (String h4 rest))) =>
                  match code_point h1 h2 h3 h4 with
                  | Some n =>
                      if (n <? 256)%N
                      then cons_char (ascii_of_N n) (read_string_body rest)
                      else None
                  | None => None
                  end
              | _ => None
              end
            else
              match unescape e with
              | Some ch => cons_char ch (read_string_body s'')
              | None => None
              end
        | EmptyString => None
        end
      else if (nat_of_ascii c <? 32)%nat then None
      else cons_char c (read_string_body s')
  end.

Definition is_digit_char (c : ascii) : bool :=
  let n := nat_of_ascii c in ((48 <=? n) && (n <=? 57))%nat.

Fixpoint span_digits (s : string) : string * string :=
  match s with
  | String c s' =>
      if is_digit_char c
      then let (a, b) := span_digits s' in (String c a, b)
      else (EmptyString, s)
  | EmptyString => (EmptyString, EmptyString)
  end.

(** An optional minus sign and the digits that follow it. *)
Definition span_number (s : string) : string * string :=
  match s with
  | String c s' =>
      if (nat_of_ascii c =? 45)%nat
      then let (a, b) := span_digits s' in (String c a, b)
      else span_digits s
  | EmptyString => (EmptyString, EmptyString)
  end.

Definition read_number (s : string) : option (value * string) :=
  let (text, rest) := span_number s in
  match NilZero.int_of_string text with
  | Some d => Some (VInt (Z.of_int d), rest)
  | None => None
  end.

Fixpoint strip_prefix (p s : string) : option string :=
  match p with
  | EmptyString => Some s
  | String a p' =>
      match s with
      | String b s' => if Ascii.eqb a b then strip_prefix p' s' else None
      | EmptyString => None
      end
  end.

Definition read_literal (s : string) : option (value * string) :=
  match strip_prefix "null" s with
  | Some r => Some (VNone, r)
  | None =>
      match strip_prefix "true" s with
      | Some r => Some (VBool true, r)
      | None =>
          match strip_prefix "false" s with
          | Some r => Some (VBool false, r)
          | None => read_number s
          end
      end
  end.

Definition read_value (s : string) : option (value * string) :=
  match s with
  | String c s' =>
      if (nat_of_ascii c =? 34)%nat then
        match read_string_body s' with
        | Some (t, r) => Some (VStr t, r)
        | None => None
        end
      else read_literal s
  | EmptyString => None
  end.

(** The members of an object up to and including its closing brace;
    [fuel] bounds their number. *)
Fixpoint read_members (fuel : nat) (s : string)
  : option (list (string * value) * string) :=
  match fuel with
  | O => None
  | S fuel' =>
      match skip_ws s with
      | String q s1 =>
          if (nat_of_ascii q =? 34)%nat then
            match read_string_body s1 with
            | Some (k, s2) =>
                match skip_ws s2 with
                | String colon s3 =>
                    if (nat_of_ascii colon =? 58)%nat then
                      match read_value (skip_ws s3) with
                      | Some (v, s4) =>
                          match skip_ws s4 with
                          | String sep s5 =>
                              if (nat_of_ascii sep =? 44)%nat then
                                match read_members fuel' s5 with
                                | Some (ms, s6) => Some ((k, v) :: ms, s6)
                                | None => None
                                end
                              else if (nat_of_ascii sep =? 125)%nat
                                   then Some ([(k, v)], s5)
                              else None
                          | EmptyString => None
                          end
                      | None => None
                      end
                    else None
                | EmptyString => None
                end
            | None => None
            end
          else None
      | EmptyString => None
      end
  end.

(** A whole text as one JSON object: its members, or nothing between
    the braces. *)
Definition read_object (s : string) : option (list (string * value)) :=
  match skip_ws s with
  | String brace s1 =>
      if (nat_of_ascii brace =? 123)%nat then
        match read_members (String.length s1) s1 with
        | Some (ms, rest) =>
            match skip_ws rest with
            | EmptyString => Some ms
            | _ => None
            end
        | None =>
            match skip_ws s1 with
            | String c s2 =>
                if (nat_of_ascii c =? 125)%nat then
                  match skip_ws s2 with
                  | EmptyString => Some []
                  | _ => None
                  end
                else None
            | EmptyString => None
            end
        end
      else None
  | EmptyString => None
  end.

End JsonReader.

(** ** auth/jwt_generator.py *)

Module JwtGenerator.

Local Open Scope py_scope.

Definition is_ascii (c : ascii) : bool := (N_of_ascii c <? 128)%N.

(** [base64.b64decode(s)] on an optional text: [None] is not bytes-like,
    text must be ASCII, and the digits must make whole groups. *)
Definition b64decode (s : option string) : result string :=
  match s with
  | None => Raise TypeError
  | Some t =>
      if Bytes.all_chars is_ascii t then
        match Base64.a2b_base64 t with
        | Some b => Ok b
        | None => Raise BinasciiError
        end
      else Raise ValueError
  end.

(** [nacl.signing.SigningKey(seed)]: the seed must be exactly 32 bytes. *)
Definition SigningKey (seed : string) : result string :=
  if (String.length seed =? 32)%nat then Ok seed else Raise NaclValueError.

Definition base64url_encode (data : string) : string :=
  Bytes.rstrip "=" (Base64.urlsafe_b64encode data).

Definition opt_str (s : option string) : value :=
  match s with Some t => VStr t | None => VNone end.

(** The first line that [build_jwt] prints; the text between the bracket
    and [JWT] is U+1F510 and the one between [Compatible] and [Raw] is
    U+2014, both in UTF-8. *)
Definition banner : string :=
  "[" ++ Bytes.of_codes [240; 159; 148; 144]
    ++ " JWT Created: Coinbase Compatible "
    ++ Bytes.of_codes [226; 128; 148] ++ " Raw Key ID Mode]".

Section Mint.

(** Loaded from the environment when the module is imported;
    [os.getenv] gives [None] for a variable that is not set. *)
Variables KEY_ID PRIVATE_KEY_BASE64 : option string.

(** [SigningKey.sign(message).signature]: Ed25519 under the seed. *)
Variable ed25519_sign : string -> string -> string.

Definition header_of (nonce : string) : value :=
  VDict [("alg", VStr "EdDSA"); ("kid", opt_str KEY_ID);
         ("nonce", VStr nonce); ("typ", VStr "JWT")].

Definition payload_of (now : Z) (uri : string) : value :=
  VDict [("iss", VStr "cdp"); ("sub", opt_str KEY_ID);
         ("nbf", VInt now); ("exp", VInt (now + 120)); ("uri", VStr uri)].

Definition build_jwt (method path host : string) : M string :=
  now <- time_time ;;
  nonce <- token_hex 16 ;;
  let uri := Bytes.upper method ++ " " ++ host ++ path in
  let header := header_of nonce in
  let payload := payload_of now uri in
  let header_b64 := base64url_encode (Json.dumps header) in
  let payload_b64 := base64url_encode (Json.dumps payload) in
  let signing_input := header_b64 ++ "." ++ payload_b64 in
  decoded <- lift (b64decode PRIVATE_KEY_BASE64) ;;
  let key_bytes := Bytes.take 32 decoded in
  signing_key <- lift (SigningKey key_bytes) ;;
  let signature := ed25519_sign signing_key signing_input in
  let signature_b64 := base64url_encode signature in
  let jwt_token := header_b64 ++ "." ++ payload_b64 ++ "." ++ signature_b64 in
  print [banner] ;;;
  print ["Header:"; Json.dumps_indent 2 header] ;;;
  print ["Payload:"; Json.dumps_indent 2 payload] ;;;
  ret jwt_token.

End Mint.

Definition default_host : string := "api.coinbase.com".

End JwtGenerator.

(** ** urllib3: the retry policy object and the connection pool's send loop

    The definitions follow [urllib3.util.retry.Retry] and
    [HTTPConnectionPool.urlopen].  The counters [connect], [status], [other]
    and [redirect], which the program leaves unset, the jitter, which it
    leaves at zero, and redirects are not represented. *)

Module Urllib3.

Local Open Scope py_scope.
Local Open Scope Z_scope.

(** [history] holds one entry per failed attempt, newest last: the status
    of the response, or [None] for a connection-level error. *)
Record Retry := {
  total : Z;
  read_is_False : bool;
  backoff_factor : Q;
  backoff_max : Q;
  status_forcelist : list Z;
  allowed_methods : list string;
  raise_on_status : bool;
  respect_retry_after_header : bool;
  history : list (option Z)
}.

Definition DEFAULT_ALLOWED_METHODS : list string :=
  ["DELETE"; "GET"; "HEAD"; "OPTIONS"; "PUT"; "TRACE"].

Definition RETRY_AFTER_STATUS_CODES : list Z := [413; 429; 503].

Definition DEFAULT_BACKOFF_MAX : Q := 120%Q.

(** The policy's [retry_after_max], which the client leaves at its
    default of six hours. *)
Definition DEFAULT_RETRY_AFTER_MAX : Q := 21600%Q.

(** [Retry(total=t, backoff_factor=b, status_forcelist=l)] *)
Definition Retry_new (t : Z) (b : Q) (l : list Z) : Retry :=
  {| total := t; read_is_False := false; backoff_factor := b;
     backoff_max := DEFAULT_BACKOFF_MAX; status_forcelist := l;
     allowed_methods := DEFAULT_ALLOWED_METHODS; raise_on_status := true;
     respect_retry_after_header := true; history := [] |}.

(** [Retry(0, read=False)], the policy of an adapter built without one. *)
Definition Retry_default : Retry :=
  {| total := 0; read_is_False := true; backoff_factor := 0%Q;
     backoff_max := DEFAULT_BACKOFF_MAX; status_forcelist := [];
     allowed_methods := DEFAULT_ALLOWED_METHODS; raise_on_status := true;
     respect_retry_after_header := true; history := [] |}.

Definition mem_str (x : string) (l : list string) : bool :=
  existsb (String.eqb x) l.

Definition mem_Z (x : Z) (l : list Z) : bool := existsb (Z.eqb x) l.

Definition _is_method_retryable (r : Retry) (method : string) : bool :=
  match allowed_methods r with
  | [] => true
  | l => mem_str (Bytes.upper method) l
  end.

Definition is_retry (r : Retry) (method : string) (status : Z)
           (has_retry_after : bool) : bool :=
  if negb (_is_method_retryable r method) then false
  else if (match status_forcelist r with [] => false | _ => true end)
            && mem_Z status (status_forcelist r) then true
  else negb (total r =? 0) && respect_retry_after_header r
       && has_retry_after && mem_Z status RETRY_AFTER_STATUS_CODES.

(** Only [total] is set, so the policy is exhausted when [total], if not
    zero, is negative. *)
Definition is_exhausted (r : Retry) : bool :=
  if total r =? 0 then false else total r <? 0.

Inductive failure :=
| ConnectError
| ReadError
| BadStatus (status : Z).

Definition with_attempt (r : Retry) (entry : option Z) : Retry :=
  {| total := total r - 1; read_is_False := read_is_False r;
     backoff_factor := backoff_factor r; backoff_max := backoff_max r;
     status_forcelist := status_forcelist r;
     allowed_methods := allowed_methods r;
     raise_on_status := raise_on_status r;
     respect_retry_after_header := respect_retry_after_header r;
     history := history r ++ [entry] |}.

(** [Retry.increment]: a new policy with one attempt less, or the error
    when the failure may not be retried or none is left. *)
Definition increment (r : Retry) (method : string) (f : failure)
  : result Retry :=
  match f with
  | ReadError =>
      if read_is_False r || negb (_is_method_retryable r method)
      then Raise ProtocolError
      else
        let r' := with_attempt r None in
        if is_exhausted r' then Raise (MaxRetryError false) else Ok r'
  | ConnectError =>
      let r' := with_attempt r None in
      if is_exhausted r' then Raise (MaxRetryError false) else Ok r'
  | BadStatus st =>
      let r' := with_attempt r (Some st) in
      if is_exhausted r' then Raise (MaxRetryError true) else Ok r'
  end.

Fixpoint pow2 (n : nat) : Q :=
  match n with
  | O => 1%Q
  | S n' => (2 * pow2 n')%Q
  end.

Definition Qmin (a b : Q) : Q := if Qle_bool a b then a else b.
Definition Qmax (a b : Q) : Q := if Qle_bool a b then b else a.

Definition get_backoff_time (r : Retry) : Q :=
  let consecutive_errors_len := List.length (history r) in
  if (consecutive_errors_len <=? 1)%nat then 0%Q
  else
    let backoff_value :=
      (backoff_factor r * pow2 (consecutive_errors_len - 1))%Q in
    Qmax 0%Q (Qmin (backoff_max r) backoff_value).

Definition _sleep_backoff (r : Retry) : M unit :=
  let backoff := get_backoff_time r in
  if Qle_bool backoff 0%Q then ret tt else time_sleep backoff.

(** [Retry.parse_retry_after]: the seconds to wait, not negative and at
    most [retry_after_max]; a header that is neither a number nor a date
    raises. *)
Definition parse_retry_after (h : RetryAfter) : result Q :=
  match h with
  | Seconds n =>
      Ok (Qmin (Qmax 0%Q (inject_Z (Z.of_N n))) DEFAULT_RETRY_AFTER_MAX)
  | HttpDate ahead => Ok (Qmin (Qmax 0%Q ahead) DEFAULT_RETRY_AFTER_MAX)
  | Unparsable _ => Raise InvalidHeader
  end.

(** [Retry.get_retry_after] *)
Definition get_retry_after (resp : Response) : result (option Q) :=
  match retry_after resp with
  | None => Ok None
  | Some h =>
      match parse_retry_after h with
      | Ok seconds => Ok (Some seconds)
      | Raise e => Raise e
      end
  end.

(** [Retry.sleep]: the server's [Retry-After] wins when it is positive. *)
Definition sleep (r : Retry) (response : option Response) : M unit :=
  match response with
  | Some resp =>
      if respect_retry_after_header r then
        seconds <- lift (get_retry_after resp) ;;
        match seconds with
        | Some q => if Qle_bool q 0%Q then _sleep_backoff r else time_sleep q
        | None => _sleep_backoff r
        end
      else _sleep_backoff r
  | None => _sleep_backoff r
  end.

(** The truth value of the header in [is_retry]: an empty header counts
    as none. *)
Definition has_retry_after (resp : Response) : bool :=
  match retry_after resp with
  | None => false
  | Some (Unparsable true) => false
  | Some _ => true
  end.

(** [urlopen] calls itself once per retry; [depth] bounds the nesting of
    these calls. *)
Fixpoint urlopen (depth : nat) (retries : Retry) (rq : Request)
  : M Response :=
  match depth with
  | O => raise RecursionError
  | S depth' =>
      a <- send_once rq ;;
      match a with
      | ConnectFailed =>
          retries' <- lift (increment retries (req_method rq) ConnectError) ;;
          sleep retries' None ;;;
          urlopen depth' retries' rq
      | ReadFailed =>
          retries' <- lift (increment retries (req_method rq) ReadError) ;;
          sleep retries' None ;;;
          urlopen depth' retries' rq
      | Responded response =>
          if is_retry retries (req_method rq) (status_code response)
               (has_retry_after response)
          then
            match increment retries (req_method rq)
                    (BadStatus (status_code response)) with
            | Raise e =>
                if raise_on_status retries then raise e else ret response
            | Ok retries' =>
                sleep retries' (Some response) ;;;
                urlopen depth' retries' rq
            end
          else ret response
      end
  end.

End Urllib3.

(** ** requests: the session, its transport adapters and the response *)

Module Requests.

Local Open Scope py_scope.
Local Open Scope Z_scope.

(** The interpreter's recursion limit; [urlopen] nests once per retry. *)
Definition recursion_limit : nat := 1000.

(** [HTTPAdapter.send]: runs the pool's send loop under the adapter's
    policy and renames the pool's errors. *)
Definition HTTPAdapter_send (max_retries : Urllib3.Retry) (rq : Request)
  : M Response :=
  try_except (Urllib3.urlopen recursion_limit max_retries rq)
    (fun e =>
       match e with
       | ProtocolError => Some ConnectionError
       | MaxRetryError true => Some RetryError
       | MaxRetryError false => Some ConnectionError
       | InvalidHeader => Some InvalidHeader
       | _ => None
       end)
    raise.

(** A session is its table of mounted adapters, each given by its policy;
    [Session.get_adapter] takes the first prefix that matches, letter case
    apart. *)
Definition Session := list (string * Urllib3.Retry).

Fixpoint get_adapter (s : Session) (url : string) : result Urllib3.Retry :=
  match s with
  | [] => Raise InvalidSchema
  | (pre, r) :: s' =>
      if prefix (Bytes.lower pre) (Bytes.lower url) then Ok r
      else get_adapter s' url
  end.

(** [requests.Session()] *)
Definition Session_new : Session :=
  [("https://", Urllib3.Retry_default); ("http://", Urllib3.Retry_default)].

(** [session.mount(prefix, HTTPAdapter(max_retries=r))]: the new adapter
    replaces one mounted at the same prefix; longer prefixes come first. *)
Fixpoint mount (s : Session) (pre : string) (r : Urllib3.Retry) : Session :=
  match s with
  | [] => [(pre, r)]
  | (p, r0) :: s' =>
      if String.eqb p pre then (pre, r) :: s'
      else if (String.length p <? String.length pre)%nat
           then (pre, r) :: (p, r0) :: s'
           else (p, r0) :: mount s' pre r
  end.

(** The statuses with which a response redirects (301, 302, 303, 307 and
    308). *)
Definition REDIRECT_STATI : list Z := [301; 302; 303; 307; 308].

(** [Session.request(method, url, headers=, params=, json=)], for a URL
    as the client builds it, from [BASE_URL], and a response that does not
    redirect.  The preparation of the URL, which refuses one without a
    scheme, is not part of the model; nor is the following of a redirect,
    which the session does with a new request under a fresh retry policy:
    the model hands any response back as the final one. *)
Definition Session_request (s : Session) (method url : string)
           (headers : list (string * string)) (params : option dict)
           (json : option value) : M Response :=
  r <- lift (get_adapter s url) ;;
  HTTPAdapter_send r
    {| req_method := method; req_url := url; req_headers := headers;
       req_params := params; req_json := json |}.

(** [Response.raise_for_status] *)
Definition raise_for_status (resp : Response) : M unit :=
  let st := status_code resp in
  if (400 <=? st) && (st <? 500) then
    raise (HTTPError (Bytes.of_Z st ++ " Client Error: " ++ reason resp
                        ++ " for url: " ++ url resp))
  else if (500 <=? st) && (st <? 600) then
    raise (HTTPError (Bytes.of_Z st ++ " Server Error: " ++ reason resp
                        ++ " for url: " ++ url resp))
  else ret tt.

(** [Response.json] *)
Definition Response_json (resp : Response) : M value :=
  match json_body resp with
  | Some v => ret v
  | None => raise JSONDecodeError
  end.

End Requests.

(** ** core/coinbase_requests_client.py *)

Module Client.

Local Open Scope py_scope.

Definition BASE_URL : string := "https://api.coinbase.com/api/v3/brokerage".
Definition PUBLIC_BASE_URL : string :=
  "https://api.coinbase.com/api/v3/brokerage/market".

Definition retries : Urllib3.Retry :=
  Urllib3.Retry_new 3 (3 # 10) [429; 500; 502; 503; 504]%Z.

Definition session : Requests.Session :=
  Requests.mount Requests.Session_new "https://" retries.

(** [except requests.exceptions.HTTPError as e]; [str(e)] is the message. *)
Definition as_HTTPError (e : exn) : option string :=
  match e with
  | HTTPError msg => Some msg
  | _ => None
  end.

Definition error_record (msg : string) (response : Response) : value :=
  VDict [("error", VStr msg); ("status_code", VInt (status_code response));
         ("body", VStr (text response))].

Definition _public_headers : list (string * string) :=
  [("Content-Type", "application/json"); ("Cache-Control", "no-cache")].

Section WithKey.

Variables KEY_ID PRIVATE_KEY_BASE64 : option string.
Variable ed25519_sign : string -> string -> string.

Definition _headers (method path : string) : M (list (string * string)) :=
  jwt <- JwtGenerator.build_jwt KEY_ID PRIVATE_KEY_BASE64 ed25519_sign
           method path JwtGenerator.default_host ;;
  ret [("Authorization", "Bearer " ++ jwt);
       ("Content-Type", "application/json")].

Definition _get (url path : string) (params : option dict)
           (is_public : bool) : M value :=
  headers <- (if is_public then ret _public_headers
              else _headers "GET" path) ;;
  response <- Requests.Session_request session "GET" url headers params None ;;
  try_except
    (Requests.raise_for_status response ;;;
     Requests.Response_json response)
    as_HTTPError (fun e => ret (error_record e response)).

Definition _post (url path : string) (data : option value) : M value :=
  headers <- _headers "POST" path ;;
  response <- Requests.Session_request session "POST" url headers None data ;;
  try_except
    (Requests.raise_for_status response ;;;
     Requests.Response_json response)
    as_HTTPError (fun e => ret (error_record e response)).

Definition _put (url path : string) (data : option value) : M value :=
  headers <- _headers "PUT" path ;;
  response <- Requests.Session_request session "PUT" url headers None data ;;
  try_except
    (Requests.raise_for_status response ;;;
     Requests.Response_json response)
    as_HTTPError (fun e => ret (error_record e response)).

Definition _delete (url path : string) (data : option value) : M value :=
  headers <- _headers "DELETE" path ;;
  response <- Requests.Session_request session "DELETE" url headers None data ;;
  try_except
    (Requests.raise_for_status response ;;;
     Requests.Response_json response)
    as_HTTPError (fun e => ret (error_record e response)).

(** [k in x] for a string [k]: key of a dictionary, element of a list,
    substring of a string; other objects are not containers. *)
Definition py_in (k : string) (x : value) : result bool :=
  match x with
  | VDict d => Ok (dict_has k d)
  | VList l =>
      Ok (existsb (fun v => match v with
                            | VStr s => String.eqb s k
                            | _ => false
                            end) l)
  | VStr s => Ok (Bytes.contains k s)
  | _ => Raise TypeError
  end.

(** [x[k]] for a string [k] known to satisfy [k in x]. *)
Definition py_getitem (x : value) (k : string) : result value :=
  match x with
  | VDict d => match dict_get k d with
               | Some v => Ok v
               | None => Raise TypeError
               end
  | _ => Raise TypeError
  end.

(** [x.get(k)] *)
Definition py_get (x : value) (k : string) : result value :=
  match x with
  | VDict d => match dict_get k d with
               | Some v => Ok v
               | None => Ok VNone
               end
  | _ => Raise TypeError
  end.

Fixpoint chars_of (s : string) : list value :=
  match s with
  | EmptyString => []
  | String c s' => VStr (String c EmptyString) :: chars_of s'
  end.

(** The elements that [list.extend(x)] appends. *)
Definition py_iter (x : value) : result (list value) :=
  match x with
  | VList l => Ok l
  | VStr s => Ok (chars_of s)
  | VDict d => Ok (List.map (fun kv => VStr (fst kv)) d)
  | _ => Raise TypeError
  end.

(** The [while True] loop of [list_accounts]; [fuel] bounds the number
    of iterations that are followed, and [Ok None] means that the loop
    is still running when the bound is reached. *)
Fixpoint list_accounts_loop (fuel : nat) (limit : Z) (url path : string)
         (all_accounts : list value) (cursor : value) : M (option value) :=
  match fuel with
  | O => ret None
  | S fuel' =>
      let params :=
        ("limit", VInt limit)
          :: (if truthy cursor then [("cursor", cursor)] else []) in
      result <- _get url path (Some params) false ;;
      has_accounts <- lift (py_in "accounts" result) ;;
      if has_accounts then
        accounts <- lift (py_getitem result "accounts") ;;
        items <- lift (py_iter accounts) ;;
        let all_accounts := (all_accounts ++ items)%list in
        cursor <- lift (py_get result "cursor") ;;
        has_next <- lift (py_get result "has_next") ;;
        if negb (truthy has_next)
        then ret (Some (VDict [("accounts", VList all_accounts)]))
        else list_accounts_loop fuel' limit url path all_accounts cursor
      else ret (Some (VDict [("accounts", VList all_accounts)]))
  end.

Definition list_accounts (fuel : nat) (limit : Z) : M (option value) :=
  let path := "/api/v3/brokerage/accounts" in
  let url := BASE_URL ++ "/accounts" in
  list_accounts_loop fuel limit url path [] VNone.

End WithKey.

End Client.

(** * Test fixtures

    Concrete worlds, keys and upstream behaviours on which the statements
    below are exercised. *)

Module Fixtures.

(** A stand-in for the signature primitive with the right shape: 64 bytes
    that depend on the seed and on the message. *)
Definition demo_sign (seed msg : string) : string :=
  (Bytes.take 32 (msg ++ seed) ++ seed)%string.

(** A 42-byte blob, in base64: ten bytes follow the 32 of the seed. *)
Definition demo_key : string :=
  Base64.b64encode "0123456789abcdef0123456789abcdefEXTRAEXTRA".

(** The same seed followed by other bytes. *)
Definition demo_key' : string :=
  Base64.b64encode "0123456789abcdef0123456789abcdef-other-tail-".

(** A blob of sixteen bytes. *)
Definition short_key : string := Base64.b64encode "0123456789abcdef".

Definition world_with (up : nat -> Request -> Attempt) : World :=
  {| clock := 1700000000%Z;
     urandom := fun n => ascii_of_nat (n * 17 + 3);
     entropy_used := 0; stdout := [];
     upstream := up; sent := []; slept := [] |}.

Definition respond (st : Z) (body : string) (v : option value) : Attempt :=
  Responded {| status_code := st; reason := "";
               url := "https://api.coinbase.com/api/v3/brokerage/time";
               text := body; json_body := v; retry_after := None |}.

Definition offline : nat -> Request -> Attempt := fun _ _ => ConnectFailed.

Definition demo_world : World := world_with offline.

(** The service answers every attempt with the same status and body. *)
Definition always (st : Z) (body : string) (v : option value)
  : nat -> Request -> Attempt :=
  fun _ _ => respond st body v.

(** The service answers 503 twice and then 200 with a JSON body. *)
Definition flaky_then_ok : nat -> Request -> Attempt :=
  fun n _ =>
    if (n <? 2)%nat then respond 503 "unavailable" None
    else respond 200 "{}" (Some (VDict [])).

(** The service answers 413 and asks to retry after one second. *)
Definition too_large_retry_after : nat -> Request -> Attempt :=
  fun _ _ =>
    Responded {| status_code := 413; reason := "Payload Too Large";
                 url := "https://api.coinbase.com/api/v3/brokerage/time";
                 text := ""; json_body := None;
                 retry_after := Some (Seconds 1) |}.

Definition time_url : string := "https://api.coinbase.com/api/v3/brokerage/time".

(** Two pages of accounts: [1, 2] with more to come, then [3]. *)
Definition page1 : dict :=
  [("accounts", VList [VInt 1; VInt 2]); ("cursor", VStr "a");
   ("has_next", VBool true)].

Definition page2 : dict :=
  [("accounts", VList [VInt 3]); ("cursor", VNone);
   ("has_next", VBool false)].

Definition two_pages : nat -> Request -> Attempt :=
  fun n _ =>
    match n with
    | O => respond 200 "" (Some (VDict page1))
    | _ => respond 200 "" (Some (VDict page2))
    end.

(** The two pages under the keys items and next_cursor. *)
Definition items_page1 : dict :=
  [("items", VList [VInt 1; VInt 2]); ("next_cursor", VStr "a");
   ("has_next", VBool true)].

Definition items_page2 : dict :=
  [("items", VList [VInt 3]); ("next_cursor", VNone);
   ("has_next", VBool false)].

Definition two_items_pages : nat -> Request -> Attempt :=
  fun n _ =>
    match n with
    | O => respond 200 "" (Some (VDict items_page1))
    | _ => respond 200 "" (Some (VDict items_page2))
    end.

(** A result without accounts that announces a next page, between the
    two pages. *)
Definition bare_page : dict := [("cursor", VStr "b"); ("has_next", VBool true)].

Definition interrupted_pages : nat -> Request -> Attempt :=
  fun n _ =>
    match n with
    | O => respond 200 "" (Some (VDict page1))
    | S O => respond 200 "" (Some (VDict bare_page))
    | _ => respond 200 "" (Some (VDict page2))
    end.

(** A service whose every page announces a next one. *)
Definition endless_page (n : nat) : dict :=
  [("accounts", VList [VInt (Z.of_nat n)]); ("cursor", VStr "next");
   ("has_next", VBool true)].

Definition endless : nat -> Request -> Attempt :=
  fun n _ => respond 200 "" (Some (VDict (endless_page n))).

End Fixtures.

(** * Properties *)

(** ** Base64 facts *)

Module Base64Facts.

Import Base64.
Local Open Scope N_scope.

Ltac Zify.zify_post_hook ::= Z.to_euclidean_division_equations.

Definition sextets : list N := List.map N.of_nat (seq 0 64).

Lemma sextet_in (n : N) : n < 64 -> In n sextets.
Proof.
  intros H. unfold sextets. apply in_map_iff.
  exists (N.to_nat n). split; [apply N2Nat.id |].
  apply in_seq. lia.
Qed.

Lemma forall_sextets (P : N -> bool) :
  forallb P sextets = true -> forall n, n < 64 -> P n = true.
Proof.
  intros H n Hn. rewrite forallb_forall in H. apply H, sextet_in, Hn.
Qed.

Lemma value_digit (n : N) : n < 64 -> value true (digit true n) = Some n.
Proof.
  intros Hn.
  pose proof (forall_sextets
    (fun n => match value true (digit true n) with
              | Some m => m =? n
              | None => false
              end) eq_refl n Hn) as H.
  cbv beta in H.
  destruct (value true (digit true n)) as [m|]; [| discriminate].
  apply N.eqb_eq in H. now subst.
Qed.

Lemma translate_digit (n : N) :
  n < 64 -> urlsafe_translate (digit false n) = digit true n.
Proof.
  intros Hn.
  pose proof (forall_sextets
    (fun n => Ascii.eqb (urlsafe_translate (digit false n)) (digit true n))
    eq_refl n Hn) as H.
  now apply Ascii.eqb_eq in H.
Qed.

Lemma digit_not_pad (n : N) : n < 64 -> Ascii.eqb (digit true n) "=" = false.
Proof.
  intros Hn.
  pose proof (forall_sextets
    (fun n => negb (Ascii.eqb (digit true n) "=")) eq_refl n Hn) as H.
  now apply negb_true_iff in H.
Qed.

Lemma byte_bound (c : ascii) : N_of_ascii c < 256.
Proof. apply N_ascii_bounded. Qed.

(** Induction on strings three characters at a time. *)
Lemma string_ind3 (P : string -> Prop) :
  P EmptyString ->
  (forall a, P (String a EmptyString)) ->
  (forall a b, P (String a (String b EmptyString))) ->
  (forall a b c s, P s -> P (String a (String b (String c s)))) ->
  forall s, P s.
Proof.
  intros H0 H1 H2 H3.
  assert (H : forall s, P s /\ (forall a, P (String a s))
                        /\ (forall a b, P (String a (String b s)))).
  { induction s as [|c s [IH0 [IH1 IH2]]].
    - repeat split; auto.
    - repeat split; auto. }
  intros s. apply H.
Qed.

(** A string is a digit string when all its characters are digits of the
    URL-safe alphabet. *)
Definition is_digit (c : ascii) : bool :=
  match value true c with Some _ => true | None => false end.

Lemma digit_is_digit (n : N) : n < 64 -> is_digit (digit true n) = true.
Proof. intros Hn. unfold is_digit. now rewrite value_digit. Qed.

Ltac byte_bounds :=
  repeat match goal with
         | |- context [N_of_ascii ?c] =>
             lazymatch goal with
             | _ : N_of_ascii c < 256 |- _ => fail
             | _ => pose proof (byte_bound c)
             end
         end.

Lemma encode_digits (s : string) :
  Bytes.all_chars is_digit (encode_with true false s) = true.
Proof.
  induction s as [| a | a b | a b c s IH] using string_ind3;
    cbn [encode_with Bytes.all_chars]; byte_bounds;
    rewrite ?digit_is_digit by lia; auto.
Qed.

Lemma encode_translate (pad : bool) (s : string) :
  Bytes.map urlsafe_translate (encode_with false pad s)
  = encode_with true pad s.
Proof.
  induction s as [| a | a b | a b c s IH] using string_ind3;
    cbn [encode_with Bytes.map]; byte_bounds;
    rewrite ?translate_digit by lia.
  - reflexivity.
  - now destruct pad.
  - now destruct pad.
  - now rewrite IH.
Qed.

(** The padded encoding is the unpadded one followed by [=] signs. *)
Definition padding (s : string) : string :=
  match (String.length s mod 3)%nat with
  | 1%nat => "=="
  | 2%nat => "="
  | _ => EmptyString
  end%string.

Lemma encode_padded (s : string) :
  encode_with true true s
  = (encode_with true false s ++ padding s)%string.
Proof.
  induction s as [| a | a b | a b c s IH] using string_ind3;
    try reflexivity.
  cbn [encode_with append]. rewrite IH. unfold padding.
  replace (String.length (String a (String b (String c s))))
    with (3 + String.length s)%nat by reflexivity.
  replace ((3 + String.length s) mod 3)%nat with (String.length s mod 3)%nat.
  - reflexivity.
  - rewrite <- (Nat.Div0.add_mod_idemp_l 3). reflexivity.
Qed.

Lemma rstrip_digits (x pad : string) :
  Bytes.all_chars is_digit x = true ->
  Bytes.all_chars (fun c => Ascii.eqb c "=") pad = true ->
  Bytes.rstrip "=" (x ++ pad) = x.
Proof.
  intros Hx Hpad. induction x as [| d x IH].
  - cbn [append]. induction pad as [| p pad IHp]; [reflexivity |].
    cbn [Bytes.all_chars] in Hpad. apply andb_true_iff in Hpad as [Hp Hpad].
    cbn [Bytes.rstrip]. rewrite (IHp Hpad), Hp. reflexivity.
  - cbn [Bytes.all_chars] in Hx. apply andb_true_iff in Hx as [Hd Hx].
    cbn [append Bytes.rstrip]. rewrite (IH Hx).
    destruct x; [| reflexivity].
    destruct (Ascii.eqb d "=") eqn:E; [| reflexivity].
    apply Ascii.eqb_eq in E. subst d. discriminate Hd.
Qed.

Lemma padding_is_pad (s : string) :
  Bytes.all_chars (fun c => Ascii.eqb c "=") (padding s) = true.
Proof.
  unfold padding. destruct (String.length s mod 3)%nat as [| [| [| n]]];
    reflexivity.
Qed.

(** [base64url_encode] is the unpadded URL-safe encoding. *)
Lemma base64url_encode_eq (s : string) :
  JwtGenerator.base64url_encode s = encode_with true false s.
Proof.
  unfold JwtGenerator.base64url_encode, urlsafe_b64encode, b64encode.
  rewrite encode_translate, encode_padded.
  apply rstrip_digits; [apply encode_digits | apply padding_is_pad].
Qed.

Lemma decode_encode (s : string) :
  urlsafe_decode_nopad (encode_with true false s) = Some s.
Proof.
  induction s as [| a | a b | a b c s IH] using string_ind3.
  - reflexivity.
  - cbn [encode_with urlsafe_decode_nopad]. byte_bounds.
    rewrite !value_digit by lia. f_equal.
    rewrite <- (ascii_N_embedding a) at 3. do 2 f_equal. lia.
  - cbn [encode_with urlsafe_decode_nopad]. byte_bounds.
    rewrite !value_digit by lia. f_equal.
    rewrite <- (ascii_N_embedding a) at 4.
    rewrite <- (ascii_N_embedding b) at 4.
    repeat (f_equal; try lia).
  - cbn [encode_with urlsafe_decode_nopad]. byte_bounds.
    rewrite !value_digit by lia. rewrite IH. f_equal.
    rewrite <- (ascii_N_embedding a) at 4.
    rewrite <- (ascii_N_embedding b) at 5.
    rewrite <- (ascii_N_embedding c) at 4.
    repeat (f_equal; try lia).
Qed.

(** Round trip of a token segment. *)
Lemma base64url_roundtrip (s : string) :
  urlsafe_decode_nopad (JwtGenerator.base64url_encode s) = Some s.
Proof. rewrite base64url_encode_eq. apply decode_encode. Qed.

Lemma base64url_digits (s : string) :
  Bytes.all_chars is_digit (JwtGenerator.base64url_encode s) = true.
Proof. rewrite base64url_encode_eq. apply encode_digits. Qed.

(** *** Further facts about the encoders *)

(** [base64url_encode] never emits padding, the two characters that the
    URL-safe alphabet replaces, or the period that separates the segments
    of a token. *)
Theorem base64url_encode_safe_chars (data : string) :
  Bytes.all_chars
    (fun c => negb (Ascii.eqb c "=") && negb (Ascii.eqb c "+")
              && negb (Ascii.eqb c "/") && negb (Ascii.eqb c "."))
    (JwtGenerator.base64url_encode data) = true.
Proof.
  assert (D : forall c, is_digit c = true ->
                negb (Ascii.eqb c "=") && negb (Ascii.eqb c "+")
                && negb (Ascii.eqb c "/") && negb (Ascii.eqb c ".") = true).
  { intros c Hc.
    destruct (Ascii.eqb_spec c "=") as [-> |]; [discriminate Hc |].
    destruct (Ascii.eqb_spec c "+") as [-> |]; [discriminate Hc |].
    destruct (Ascii.eqb_spec c "/") as [-> |]; [discriminate Hc |].
    destruct (Ascii.eqb_spec c ".") as [-> |]; [discriminate Hc |].
    reflexivity. }
  pose proof (base64url_digits data) as H.
  induction (JwtGenerator.base64url_encode data) as [| c s IH];
    [reflexivity |].
  cbn [Bytes.all_chars] in *. apply andb_true_iff in H as [Hc Hs].
  now rewrite (D c Hc), (IH Hs).
Qed.

Lemma encode_length (s : string) :
  String.length (encode_with true false s)
  = ((4 * String.length s + 2) / 3)%nat.
Proof.
  induction s as [| a | a b | a b c s IH] using string_ind3;
    try reflexivity.
  cbn [encode_with String.length]. rewrite IH.
  replace (4 * S (S (S (String.length s))) + 2)%nat
    with ((4 * String.length s + 2) + 4 * 3)%nat by lia.
  rewrite Nat.div_add by lia. lia.
Qed.

(** A segment of [n] bytes is [ceil(4n/3)] characters long. *)
Theorem base64url_encode_length (data : string) :
  String.length (JwtGenerator.base64url_encode data)
  = ((4 * String.length data + 2) / 3)%nat.
Proof. rewrite base64url_encode_eq. apply encode_length. Qed.

(** *** The standard alphabet and [a2b_base64] *)

Lemma value_digit_std (n : N) : n < 64 -> value false (digit false n) = Some n.
Proof.
  intros Hn.
  pose proof (forall_sextets
    (fun n => match value false (digit false n) with
              | Some m => m =? n
              | None => false
              end) eq_refl n Hn) as H.
  cbv beta in H.
  destruct (value false (digit false n)) as [m|]; [| discriminate].
  apply N.eqb_eq in H. now subst.
Qed.

Lemma digit_std_not_pad (n : N) :
  n < 64 -> Ascii.eqb (digit false n) "=" = false.
Proof.
  intros Hn.
  pose proof (forall_sextets
    (fun n => negb (Ascii.eqb (digit false n) "=")) eq_refl n Hn) as H.
  now apply negb_true_iff in H.
Qed.

Lemma digit_std_ascii (n : N) :
  n < 64 -> JwtGenerator.is_ascii (digit false n) = true.
Proof.
  intros Hn.
  exact (forall_sextets
    (fun n => JwtGenerator.is_ascii (digit false n)) eq_refl n Hn).
Qed.

Definition a2b_at (q l p : N) (o : list ascii) : a2b_state :=
  {| quad_pos := q; leftchar := l; pads := p; out_rev := o |}.

Lemma a2b_step_digit (q l p : N) (o : list ascii) (n : N) :
  n < 64 ->
  a2b_step (a2b_at q l p o) (digit false n)
  = Continue
      match q with
      | 0 => a2b_at 1 n 0 o
      | 1 => a2b_at 2 (n mod 16) 0 (ascii_of_N (l * 4 + n / 16) :: o)
      | 2 => a2b_at 3 (n mod 4) 0 (ascii_of_N (l * 16 + n / 4) :: o)
      | _ => a2b_at 0 0 0 (ascii_of_N (l * 64 + n) :: o)
      end.
Proof.
  intros Hn. unfold a2b_step.
  rewrite digit_std_not_pad, value_digit_std by exact Hn.
  cbn [quad_pos leftchar pads out_rev a2b_at].
  destruct q as [| [[| |] | [| |] |]]; reflexivity.
Qed.

Lemma ascii_of_byte (c : ascii) (n : N) : n = N_of_ascii c -> ascii_of_N n = c.
Proof. intros ->. apply ascii_N_embedding. Qed.

(** Decoding what [b64encode] produced, from a state between two groups. *)
Ltac a2b_digit :=
  cbn [a2b_loop]; rewrite a2b_step_digit by lia; cbv iota.

Lemma a2b_loop_encode (s : string) :
  forall (l p : N) (o : list ascii),
  exists l' p',
    a2b_loop (a2b_at 0 l p o) (encode_with false true s)
    = a2b_at 0 l' p' (List.rev (list_ascii_of_string s) ++ o).
Proof.
  induction s as [| a | a b | a b c s IH] using string_ind3; intros l p o.
  - exists l, p. reflexivity.
  - cbn [encode_with]. byte_bounds. do 2 a2b_digit. cbn.
    exists 0, 0. unfold a2b_at. do 2 f_equal.
    apply ascii_of_byte. lia.
  - cbn [encode_with]. byte_bounds. do 3 a2b_digit. cbn.
    exists 0, 0. unfold a2b_at. f_equal.
    f_equal; [apply ascii_of_byte; lia |].
    f_equal. apply ascii_of_byte. lia.
  - cbn [encode_with]. byte_bounds. do 4 a2b_digit.
    match goal with
    | |- context [a2b_loop (a2b_at 0 0 0 ?o') _] =>
        destruct (IH 0 0 o') as (l' & p' & E)
    end.
    exists l', p'. rewrite E.
    cbn [list_ascii_of_string List.rev]. rewrite <- !app_assoc. cbn [app].
    do 2 f_equal.
    f_equal; [apply ascii_of_byte; lia |].
    f_equal; [apply ascii_of_byte; lia |].
    f_equal. apply ascii_of_byte. lia.
Qed.

Lemma string_of_rev_rev (s : string) :
  string_of_list_ascii (List.rev (List.rev (list_ascii_of_string s) ++ [])) = s.
Proof.
  rewrite app_nil_r, rev_involutive. apply string_of_list_ascii_of_string.
Qed.

Lemma b64encode_ascii (s : string) :
  Bytes.all_chars JwtGenerator.is_ascii (b64encode s) = true.
Proof.
  unfold b64encode.
  induction s as [| a | a b | a b c s IH] using string_ind3;
    cbn [encode_with Bytes.all_chars]; byte_bounds;
    rewrite ?digit_std_ascii by lia; auto.
Qed.

(** [base64.b64decode] undoes [base64.b64encode]: a key blob provisioned
    as standard base64 text is read back byte for byte. *)
Theorem b64decode_b64encode (blob : string) :
  JwtGenerator.b64decode (Some (b64encode blob)) = Ok blob.
Proof.
  unfold JwtGenerator.b64decode. rewrite b64encode_ascii.
  unfold a2b_base64, a2b_init.
  destruct (a2b_loop_encode blob 0 0 []) as (l' & p' & E).
  unfold b64encode. fold (a2b_at 0 0 0 []). rewrite E.
  cbn [a2b_at quad_pos out_rev N.eqb]. now rewrite string_of_rev_rev.
Qed.

End Base64Facts.

(** ** Serialised objects read back *)

Module JsonFacts.

Import JsonReader.

Lemma append_assoc (a b c : string) : (a ++ b) ++ c = a ++ (b ++ c).
Proof.
  induction a as [| x a IH]; [reflexivity |].
  cbn [append]. now rewrite IH.
Qed.

Lemma length_app (a b : string) :
  String.length (a ++ b) = (String.length a + String.length b)%nat.
Proof.
  induction a as [| x a IH]; [reflexivity |].
  cbn [append String.length]. now rewrite IH.
Qed.

(** Each character is read back from its escaped form. *)
Lemma read_escape_char (c : ascii) (rest : string) :
  read_string_body (Json.escape_char c ++ rest)
    = cons_char c (read_string_body rest).
Proof.
  destruct c as [[] [] [] [] [] [] [] []]; reflexivity.
Qed.

Lemma read_string_escape (s rest : string) :
  read_string_body (Json.escape s ++ String Json.dquote rest)
    = Some (s, rest).
Proof.
  induction s as [| c s IH]; [reflexivity |].
  cbn [Json.escape].
  rewrite append_assoc, read_escape_char, IH. reflexivity.
Qed.

Lemma quote_app (s rest : string) :
  Json.quote s ++ rest
    = String Json.dquote (Json.escape s ++ String Json.dquote rest).
Proof.
  unfold Json.quote. cbn [append]. now rewrite append_assoc.
Qed.

(** *** Integers *)

Definition no_digit_head (s : string) : Prop :=
  match s with
  | String c _ => is_digit_char c = false
  | EmptyString => True
  end.

Lemma span_digits_stop (rest : string) :
  no_digit_head rest -> span_digits rest = (EmptyString, rest).
Proof.
  destruct rest as [| c rest]; [reflexivity |].
  cbn [no_digit_head span_digits]. now intros ->.
Qed.

Lemma span_digits_uint (d : Decimal.uint) (rest : string) :
  no_digit_head rest ->
  span_digits (NilEmpty.string_of_uint d ++ rest)
    = (NilEmpty.string_of_uint d, rest).
Proof.
  intros H.
  induction d; cbn [NilEmpty.string_of_uint append];
    [now apply span_digits_stop | ..];
    cbn [span_digits]; rewrite IHd; reflexivity.
Qed.

Lemma span_digits_nz (d : Decimal.uint) (rest : string) :
  no_digit_head rest ->
  span_digits (NilZero.string_of_uint d ++ rest)
    = (NilZero.string_of_uint d, rest).
Proof.
  intros H. destruct d;
    [ apply (span_digits_uint (Decimal.D0 Decimal.Nil)); exact H
    | apply (span_digits_uint (Decimal.D0 d)); exact H
    | apply (span_digits_uint (Decimal.D1 d)); exact H
    | apply (span_digits_uint (Decimal.D2 d)); exact H
    | apply (span_digits_uint (Decimal.D3 d)); exact H
    | apply (span_digits_uint (Decimal.D4 d)); exact H
    | apply (span_digits_uint (Decimal.D5 d)); exact H
    | apply (span_digits_uint (Decimal.D6 d)); exact H
    | apply (span_digits_uint (Decimal.D7 d)); exact H
    | apply (span_digits_uint (Decimal.D8 d)); exact H
    | apply (span_digits_uint (Decimal.D9 d)); exact H ].
Qed.

Lemma span_number_digits (d : Decimal.uint) (rest : string) :
  span_number (NilZero.string_of_uint d ++ rest)
    = span_digits (NilZero.string_of_uint d ++ rest).
Proof.
  destruct d; reflexivity.
Qed.

Lemma span_number_of_Z (z : Z) (rest : string) :
  no_digit_head rest ->
  span_number (Bytes.of_Z z ++ rest) = (Bytes.of_Z z, rest).
Proof.
  intros H. unfold Bytes.of_Z, NilZero.string_of_int.
  destruct (Z.to_int z) as [d | d].
  - rewrite span_number_digits. now apply span_digits_nz.
  - cbn [append]. unfold span_number.
    change (nat_of_ascii "-" =? 45)%nat with true. cbv iota.
    rewrite span_digits_nz by exact H. reflexivity.
Qed.

Lemma int_of_string_of_int (d : Decimal.int) :
  exists d', NilZero.int_of_string (NilZero.string_of_int d) = Some d'
             /\ Z.of_int d' = Z.of_int d.
Proof.
  destruct d as [u | u]; destruct u;
    try (eexists; split; [reflexivity | reflexivity]);
    (eexists; split; [apply NilZero.isi; discriminate | reflexivity]).
Qed.

Lemma read_number_of_Z (z : Z) (rest : string) :
  no_digit_head rest ->
  read_number (Bytes.of_Z z ++ rest) = Some (VInt z, rest).
Proof.
  intros H. unfold read_number. rewrite span_number_of_Z by exact H.
  unfold Bytes.of_Z.
  destruct (int_of_string_of_int (Z.to_int z)) as (d' & -> & Hd).
  rewrite Hd, DecimalZ.of_to. reflexivity.
Qed.

Lemma read_value_of_Z (z : Z) (rest : string) :
  read_value (Bytes.of_Z z ++ rest) = read_number (Bytes.of_Z z ++ rest).
Proof.
  unfold Bytes.of_Z, NilZero.string_of_int.
  destruct (Z.to_int z) as [d | d]; destruct d; reflexivity.
Qed.

(** *** Members *)

Definition scalar (v : value) : bool :=
  match v with
  | VList _ | VDict _ => false
  | _ => true
  end.

Definition scalars (d : list (string * value)) : Prop :=
  Forall (fun kv => scalar (snd kv) = true) d.

(** What may follow a member: a comma or the closing brace. *)
Definition closes (s : string) : Prop :=
  exists t, s = String "," t \/ s = String "}" t.

Lemma closes_no_digit (s : string) : closes s -> no_digit_head s.
Proof.
  intros (t & [-> | ->]); reflexivity.
Qed.

Lemma read_value_dumps (lvl : nat) (v : value) (rest : string) :
  scalar v = true -> closes rest ->
  read_value (Json.dumps_at None lvl v ++ rest) = Some (v, rest).
Proof.
  intros Hv Hr. destruct v as [| [] | z | s | l | d]; try discriminate;
    try reflexivity.
  - cbn [Json.dumps_at]. rewrite read_value_of_Z.
    apply read_number_of_Z. now apply closes_no_digit.
  - cbn [Json.dumps_at]. rewrite quote_app.
    unfold read_value.
    change (nat_of_ascii Json.dquote =? 34)%nat with true. cbv iota.
    rewrite read_string_escape. reflexivity.
Qed.

Lemma skip_ws_dumps (lvl : nat) (v : value) (rest : string) :
  scalar v = true ->
  skip_ws (Json.dumps_at None lvl v ++ rest)
    = Json.dumps_at None lvl v ++ rest.
Proof.
  intros Hv. destruct v as [| [] | z | s | l | d]; try discriminate;
    try reflexivity.
  cbn [Json.dumps_at]. unfold Bytes.of_Z, NilZero.string_of_int.
  destruct (Z.to_int z) as [u | u]; destruct u; reflexivity.
Qed.

(** The members of a serialised object, between its braces. *)
Fixpoint items_text (d : list (string * value)) : string :=
  match d with
  | [] => EmptyString
  | [(k, x)] => Json.quote k ++ ": " ++ Json.dumps_at None 1 x
  | (k, x) :: d' =>
      Json.quote k ++ ": " ++ Json.dumps_at None 1 x ++ ", " ++ items_text d'
  end.

Lemma items_text_eq (d : list (string * value)) :
  (fix items (d : list (string * value)) : string :=
     match d with
     | [] => EmptyString
     | [(k, x)] => Json.quote k ++ ": " ++ Json.dumps_at None 1 x
     | (k, x) :: d' =>
         Json.quote k ++ ": " ++ Json.dumps_at None 1 x
           ++ Json.item_separator None
           ++ Json.newline_indent None 1 ++ items d'
     end) d = items_text d.
Proof.
  induction d as [| [k x] d IH]; [reflexivity |].
  destruct d as [| kv d]; [reflexivity |].
  change (items_text ((k, x) :: kv :: d))
    with (Json.quote k ++ ": " ++ Json.dumps_at None 1 x ++ ", "
            ++ items_text (kv :: d)).
  rewrite <- IH. reflexivity.
Qed.

Lemma dumps_dict (kv : string * value) (d : list (string * value)) :
  Json.dumps (VDict (kv :: d)) = "{" ++ items_text (kv :: d) ++ "}".
Proof.
  rewrite <- items_text_eq. reflexivity.
Qed.

Lemma items_text_one (k : string) (x : value) :
  items_text [(k, x)] = Json.quote k ++ ": " ++ Json.dumps_at None 1 x.
Proof. reflexivity. Qed.

Lemma items_text_cons (k : string) (x : value) (kv : string * value)
  (d : list (string * value)) :
  items_text ((k, x) :: kv :: d)
    = Json.quote k ++ ": " ++ Json.dumps_at None 1 x ++ ", "
        ++ items_text (kv :: d).
Proof. reflexivity. Qed.

Lemma read_members_space (f : nat) (t : string) :
  read_members f (String " " t) = read_members f t.
Proof.
  destruct f; reflexivity.
Qed.

Lemma read_members_key (f : nat) (k : string) (x : value) (rest : string) :
  scalar x = true -> closes rest ->
  read_members (S f) (Json.quote k ++ ": " ++ Json.dumps_at None 1 x ++ rest)
    = match skip_ws rest with
      | String sep s5 =>
          if (nat_of_ascii sep =? 44)%nat then
            match read_members f s5 with
            | Some (ms, s6) => Some ((k, x) :: ms, s6)
            | None => None
            end
          else if (nat_of_ascii sep =? 125)%nat then Some ([(k, x)], s5)
          else None
      | EmptyString => None
      end.
Proof.
  intros Hx Hr. rewrite quote_app.
  remember (Json.dumps_at None 1 x ++ rest) as Y eqn:HY.
  remember (Json.escape k ++ String Json.dquote (": " ++ Y)) as B eqn:HB.
  cbn [read_members].
  change (skip_ws (String Json.dquote B)) with (String Json.dquote B).
  cbv iota.
  change (nat_of_ascii Json.dquote =? 34)%nat with true. cbv iota.
  subst B. rewrite read_string_escape.
  change (skip_ws (": " ++ Y)) with (String ":" (String " " Y)). cbv iota.
  change (nat_of_ascii ":" =? 58)%nat with true. cbv iota.
  change (skip_ws (String " " Y)) with (skip_ws Y).
  subst Y. rewrite skip_ws_dumps, read_value_dumps by assumption.
  reflexivity.
Qed.

Lemma read_members_last (f : nat) (k : string) (x : value) (rest : string) :
  scalar x = true ->
  read_members (S f)
    (Json.quote k ++ ": " ++ Json.dumps_at None 1 x ++ String "}" rest)
    = Some ([(k, x)], rest).
Proof.
  intros Hx. rewrite read_members_key; [reflexivity | exact Hx |].
  exists rest. now right.
Qed.

Lemma read_members_more (f : nat) (k : string) (x : value) (tail : string) :
  scalar x = true ->
  read_members (S f)
    (Json.quote k ++ ": " ++ Json.dumps_at None 1 x ++ ", " ++ tail)
    = match read_members f tail with
      | Some (ms, s6) => Some ((k, x) :: ms, s6)
      | None => None
      end.
Proof.
  intros Hx. rewrite read_members_key;
    [| exact Hx | exists (String " " tail); now left].
  change (skip_ws (", " ++ tail)) with (String "," (String " " tail)).
  cbv iota.
  change (nat_of_ascii "," =? 44)%nat with true. cbv iota.
  now rewrite read_members_space.
Qed.

Lemma read_members_items (d : list (string * value)) :
  scalars d -> d <> [] ->
  forall (fuel : nat) (rest : string),
    (List.length d <= fuel)%nat ->
    read_members fuel (items_text d ++ String "}" rest) = Some (d, rest).
Proof.
  induction d as [| [k x] d IH]; [congruence |].
  intros Hs _ fuel rest Hf.
  inversion Hs as [| ? ? Hx Hd]; subst. cbn [snd] in Hx.
  destruct fuel as [| f]; [cbn [List.length] in Hf; lia |].
  destruct d as [| kv d].
  - rewrite items_text_one, !append_assoc.
    now apply read_members_last.
  - rewrite items_text_cons, !append_assoc.
    rewrite read_members_more by exact Hx.
    rewrite IH; [reflexivity | exact Hd | discriminate |].
    cbn [List.length] in *. lia.
Qed.

Lemma items_length (d : list (string * value)) :
  (List.length d <= String.length (items_text d))%nat.
Proof.
  induction d as [| [k x] d IH]; [apply Nat.le_refl |].
  destruct d as [| kv d].
  - rewrite items_text_one, quote_app. cbn [List.length String.length]. lia.
  - rewrite items_text_cons, quote_app.
    cbn [String.length]. rewrite length_app.
    cbn [String.length append]. rewrite length_app.
    cbn [String.length append List.length] in *. lia.
Qed.

(** An object of strings, integers, booleans and nulls that [Json.dumps]
    serialises is read back with the same members in the same order. *)
Lemma read_object_dumps (d : list (string * value)) :
  scalars d -> read_object (Json.dumps (VDict d)) = Some d.
Proof.
  intros Hs. destruct d as [| kv d]; [reflexivity |].
  rewrite dumps_dict. unfold read_object.
  change (skip_ws ("{" ++ items_text (kv :: d) ++ "}"))
    with (String "{" (items_text (kv :: d) ++ "}")).
  cbv iota.
  change (nat_of_ascii "{" =? 123)%nat with true. cbv iota.
  rewrite read_members_items; [reflexivity | exact Hs | discriminate |].
  rewrite length_app. pose proof (items_length (kv :: d)). lia.
Qed.

End JsonFacts.

(** ** The token minter *)

Module JwtFacts.

Import JwtGenerator Base64Facts.

Definition consume_entropy (n : nat) (w : World) : World :=
  {| clock := clock w; urandom := urandom w;
     entropy_used := entropy_used w + n; stdout := stdout w;
     upstream := upstream w; sent := sent w; slept := slept w |}.

Definition write_stdout (lines : list string) (w : World) : World :=
  {| clock := clock w; urandom := urandom w;
     entropy_used := entropy_used w; stdout := stdout w ++ lines;
     upstream := upstream w; sent := sent w; slept := slept w |}.

Section Mint.

Variables KEY_ID PRIVATE_KEY_BASE64 : option string.
Variable ed25519_sign : string -> string -> string.
Variables method path host : string.
Variable w : World.

Let nonce : string :=
  Bytes.hex (read_entropy (urandom w) (entropy_used w) 16).
Let header : value := header_of KEY_ID nonce.
Let payload : value :=
  payload_of KEY_ID (clock w)
    (Bytes.upper method ++ " " ++ host ++ path).
Let header_b64 : string := base64url_encode (Json.dumps header).
Let payload_b64 : string := base64url_encode (Json.dumps payload).
Let signing_input : string := header_b64 ++ "." ++ payload_b64.

(** What one call of [build_jwt] does, by cases on the key material. *)
Lemma build_jwt_run :
  build_jwt KEY_ID PRIVATE_KEY_BASE64 ed25519_sign method path host w
  = match b64decode PRIVATE_KEY_BASE64 with
    | Raise e => (Raise e, consume_entropy 16 w)
    | Ok decoded =>
        match SigningKey (Bytes.take 32 decoded) with
        | Raise e => (Raise e, consume_entropy 16 w)
        | Ok seed =>
            (Ok (header_b64 ++ "." ++ payload_b64 ++ "."
                   ++ base64url_encode (ed25519_sign seed signing_input)),
             write_stdout
               [banner ++ Py.newline;
                "Header: " ++ Json.dumps_indent 2 header ++ Py.newline;
                "Payload: " ++ Json.dumps_indent 2 payload ++ Py.newline]
               (consume_entropy 16 w))
        end
    end.
Proof.
  unfold build_jwt, bind, time_time, token_hex, os_urandom, lift, ret, bind.
  cbn [fst snd].
  destruct (b64decode PRIVATE_KEY_BASE64) as [decoded | e]; [| reflexivity].
  destruct (SigningKey (Bytes.take 32 decoded)) as [seed | e];
    [| reflexivity].
  unfold print, write_stdout, consume_entropy.
  cbn [clock urandom entropy_used stdout upstream sent slept].
  rewrite <- !app_assoc.
  reflexivity.
Qed.

End Mint.

(** *** Splitting a token at the periods *)

Definition not_dot (c : ascii) : bool := negb (Ascii.eqb c ".").

Lemma digits_no_dot (s : string) :
  Bytes.all_chars is_digit s = true -> Bytes.all_chars not_dot s = true.
Proof.
  induction s as [| c s IH]; cbn [Bytes.all_chars]; [reflexivity |].
  intros H. apply andb_true_iff in H as [Hc Hs].
  rewrite (IH Hs), andb_true_r. unfold not_dot.
  destruct (Ascii.eqb c ".") eqn:E; [| reflexivity].
  apply Ascii.eqb_eq in E. subst c. discriminate Hc.
Qed.

Lemma split_on_plain (s : string) :
  Bytes.all_chars not_dot s = true -> Bytes.split_on "." s = [s].
Proof.
  induction s as [| c s IH]; cbn [Bytes.all_chars Bytes.split_on];
    [reflexivity |].
  intros H. apply andb_true_iff in H as [Hc Hs].
  unfold not_dot in Hc. apply negb_true_iff in Hc.
  now rewrite Hc, (IH Hs).
Qed.

Lemma split_on_app (x y : string) :
  Bytes.all_chars not_dot x = true ->
  Bytes.split_on "." (x ++ "." ++ y) = x :: Bytes.split_on "." y.
Proof.
  induction x as [| c x IH]; cbn [Bytes.all_chars append].
  - intros _. reflexivity.
  - intros H. apply andb_true_iff in H as [Hc Hx].
    unfold not_dot in Hc. apply negb_true_iff in Hc.
    cbn [Bytes.split_on]. rewrite Hc.
    change (x ++ String "." y) with (x ++ "." ++ y).
    now rewrite (IH Hx).
Qed.

Lemma split_token (h p s : string) :
  Bytes.all_chars is_digit h = true ->
  Bytes.all_chars is_digit p = true ->
  Bytes.all_chars is_digit s = true ->
  Bytes.split_on "." (h ++ "." ++ p ++ "." ++ s) = [h; p; s].
Proof.
  intros Hh Hp Hs.
  rewrite split_on_app by now apply digits_no_dot.
  rewrite split_on_app by now apply digits_no_dot.
  now rewrite split_on_plain by now apply digits_no_dot.
Qed.

Lemma read_entropy_length (src : nat -> ascii) (pos n : nat) :
  String.length (read_entropy src pos n) = n.
Proof.
  revert pos. induction n as [| n IH]; intros pos; cbn; [reflexivity |].
  now rewrite IH.
Qed.

Lemma take_length (n : nat) (s : string) :
  (n <= String.length s)%nat -> String.length (Bytes.take n s) = n.
Proof.
  revert s. induction n as [| n IH]; intros s H; [reflexivity |].
  destruct s as [| c s]; cbn in *; [lia |]. rewrite IH; lia.
Qed.

Lemma take_short (n : nat) (s : string) :
  (String.length s < n)%nat -> String.length (Bytes.take n s) <> n.
Proof.
  revert s. induction n as [| n IH]; intros s H; [lia |].
  destruct s as [| c s]; cbn in *; [lia |].
  specialize (IH s). lia.
Qed.

(** A minted token splits at its periods into three runs of digits. *)
Lemma build_jwt_segments
  (KEY_ID PRIVATE_KEY_BASE64 : option string)
  (ed25519_sign : string -> string -> string)
  (method path host : string) (w w' : World) (token : string) :
  build_jwt KEY_ID PRIVATE_KEY_BASE64 ed25519_sign method path host w
    = (Ok token, w') ->
  exists h p s,
    Bytes.split_on "." token = [h; p; s]
    /\ Bytes.all_chars is_digit h = true
    /\ Bytes.all_chars is_digit p = true
    /\ Bytes.all_chars is_digit s = true.
Proof.
  rewrite build_jwt_run.
  destruct (b64decode PRIVATE_KEY_BASE64) as [decoded | e]; [| discriminate].
  destruct (SigningKey (Bytes.take 32 decoded)) as [seed | e];
    [| discriminate].
  intros H. injection H as <- _.
  eexists _, _, _.
  split; [apply split_token; apply base64url_digits |].
  repeat split; apply base64url_digits.
Qed.

(** *** What a well-formed token is *)

(** Text whose characters are all ASCII: on it a byte is a code point,
    so [Bytes.upper] is [str.upper] and [Json.escape] is the escaping of
    [json.dumps]. *)
Definition ascii_text (s : string) : Prop :=
  Bytes.all_chars is_ascii s = true.

(** The token is three period-separated runs of base64url digits (so
    nothing is padded).  The first two decode to texts that a JSON reader
    reads as objects with exactly the members [header] and [claims], in
    this order (they are the compact serialisations that [json.dumps]
    gives); the third decodes to a signature. *)
Definition token_shape (header claims : list (string * value))
  (token : string) : Prop :=
  exists h p s header_text claims_text signature,
    token = h ++ "." ++ p ++ "." ++ s
    /\ Bytes.split_on "." token = [h; p; s]
    /\ Bytes.all_chars is_digit h = true
    /\ Bytes.all_chars is_digit p = true
    /\ Bytes.all_chars is_digit s = true
    /\ Base64.urlsafe_decode_nopad h = Some header_text
    /\ JsonReader.read_object header_text = Some header
    /\ header_text = Json.dumps (VDict header)
    /\ Base64.urlsafe_decode_nopad p = Some claims_text
    /\ JsonReader.read_object claims_text = Some claims
    /\ claims_text = Json.dumps (VDict claims)
    /\ Base64.urlsafe_decode_nopad s = Some signature.

(** C5: for ASCII method, path, host and key id, a token that [build_jwt]
    returns at time [clock w] is three unpadded base64url segments joined
    by periods; the first decodes to a JSON object with exactly the fields
    alg, kid, nonce, typ, the second to a JSON object with exactly the
    fields iss, sub, nbf, exp, uri, where nbf is the time of the call, exp
    is 120 seconds later, and uri is the upper-cased method, a space, the
    host and the path. *)
Theorem C5_token_shape
  (KEY_ID PRIVATE_KEY_BASE64 : option string)
  (ed25519_sign : string -> string -> string)
  (method path host : string) (w w' : World) (token : string) :
  ascii_text method -> ascii_text path -> ascii_text host ->
  (forall k, KEY_ID = Some k -> ascii_text k) ->
  build_jwt KEY_ID PRIVATE_KEY_BASE64 ed25519_sign method path host w
    = (Ok token, w') ->
  exists nonce_bytes nbf exp,
    String.length nonce_bytes = 16%nat
    /\ nbf = clock w
    /\ (exp - nbf = 120)%Z
    /\ token_shape
         [("alg", VStr "EdDSA"); ("kid", opt_str KEY_ID);
          ("nonce", VStr (Bytes.hex nonce_bytes));
          ("typ", VStr "JWT")]
         [("iss", VStr "cdp"); ("sub", opt_str KEY_ID);
          ("nbf", VInt nbf); ("exp", VInt exp);
          ("uri", VStr (Bytes.upper method ++ " " ++ host ++ path))]
         token.
Proof.
  intros _ _ _ _.
  rewrite build_jwt_run.
  destruct (b64decode PRIVATE_KEY_BASE64) as [decoded | e]; [| discriminate].
  destruct (SigningKey (Bytes.take 32 decoded)) as [seed | e];
    [| discriminate].
  intros H. injection H as Htok _.
  exists (read_entropy (urandom w) (entropy_used w) 16), (clock w),
    (clock w + 120)%Z.
  split; [apply read_entropy_length |].
  split; [reflexivity |].
  split; [lia |].
  assert (Hopt : JsonFacts.scalar (opt_str KEY_ID) = true)
    by (destruct KEY_ID; reflexivity).
  unfold token_shape. subst token.
  eexists _, _, _, _, _, _.
  split; [reflexivity |].
  split; [apply split_token; apply base64url_digits |].
  do 3 (split; [apply base64url_digits |]).
  split; [apply base64url_roundtrip |].
  split; [apply JsonFacts.read_object_dumps;
          repeat (constructor; [solve [reflexivity | exact Hopt] |]);
          constructor |].
  split; [reflexivity |].
  split; [apply base64url_roundtrip |].
  split; [apply JsonFacts.read_object_dumps;
          repeat (constructor; [solve [reflexivity | exact Hopt] |]);
          constructor |].
  split; [reflexivity |].
  apply base64url_roundtrip.
Qed.

Lemma C5_witness :
  exists token w',
    build_jwt (Some "abc") (Some Fixtures.demo_key) Fixtures.demo_sign
      "get" "/x" "api.coinbase.com" Fixtures.demo_world = (Ok token, w')
    /\ exists nonce_bytes nbf exp,
         String.length nonce_bytes = 16%nat
         /\ nbf = 1700000000%Z
         /\ (exp - nbf = 120)%Z
         /\ token_shape
              [("alg", VStr "EdDSA"); ("kid", VStr "abc");
               ("nonce", VStr (Bytes.hex nonce_bytes));
               ("typ", VStr "JWT")]
              [("iss", VStr "cdp"); ("sub", VStr "abc");
               ("nbf", VInt nbf); ("exp", VInt exp);
               ("uri", VStr "GET api.coinbase.com/x")]
              token.
Proof.
  eexists _, _. split.
  - vm_compute. reflexivity.
  - eapply (C5_token_shape (Some "abc") (Some Fixtures.demo_key)
             Fixtures.demo_sign "get" "/x" "api.coinbase.com"
             Fixtures.demo_world);
      [reflexivity | reflexivity | reflexivity
      | intros k [= <-]; reflexivity |].
    vm_compute. reflexivity.
Defined.

(** *** Failure of minting *)

(** C4, as the code has it: the private key is checked when a token is
    minted, the key-id is not.  A missing key raises [TypeError], text that
    is not whole base64 groups raises [binascii.Error], and a decoded blob of
    fewer than 32 bytes raises the [ValueError] of [SigningKey]; nothing is
    printed in these cases.  With 32 bytes or more the call returns a token,
    whether or not the key-id is set. *)
Theorem C4_mint_failure
  (KEY_ID PRIVATE_KEY_BASE64 : option string)
  (ed25519_sign : string -> string -> string)
  (method path host : string) (w : World) :
  let run :=
    build_jwt KEY_ID PRIVATE_KEY_BASE64 ed25519_sign method path host w in
  (PRIVATE_KEY_BASE64 = None -> fst run = Raise TypeError)
  /\ (forall t, PRIVATE_KEY_BASE64 = Some t ->
        Bytes.all_chars is_ascii t = true -> Base64.a2b_base64 t = None ->
        fst run = Raise BinasciiError)
  /\ (forall decoded, b64decode PRIVATE_KEY_BASE64 = Ok decoded ->
        (String.length decoded < 32)%nat -> fst run = Raise NaclValueError)
  /\ (forall decoded, b64decode PRIVATE_KEY_BASE64 = Ok decoded ->
        (32 <= String.length decoded)%nat -> exists token, fst run = Ok token)
  /\ (forall e, fst run = Raise e -> stdout (snd run) = stdout w).
Proof.
  cbv zeta. rewrite build_jwt_run. repeat split.
  - intros ->. reflexivity.
  - intros t -> Hascii Hbad. unfold b64decode. now rewrite Hascii, Hbad.
  - intros decoded -> Hlen. unfold SigningKey.
    apply take_short in Hlen. apply Nat.eqb_neq in Hlen. now rewrite Hlen.
  - intros decoded -> Hlen. unfold SigningKey.
    rewrite take_length by exact Hlen. rewrite Nat.eqb_refl.
    eexists. reflexivity.
  - intros e.
    destruct (b64decode PRIVATE_KEY_BASE64) as [decoded | e0];
      [| reflexivity].
    destruct (SigningKey (Bytes.take 32 decoded)) as [seed | e0];
      [discriminate | reflexivity].
Qed.

Lemma C4_witness :
  fst (build_jwt (Some "abc") (Some Fixtures.short_key) Fixtures.demo_sign
         "GET" "/x" default_host Fixtures.demo_world) = Raise NaclValueError.
Proof.
  refine (proj1 (proj2 (proj2
    (C4_mint_failure (Some "abc") (Some Fixtures.short_key)
       Fixtures.demo_sign "GET" "/x" default_host Fixtures.demo_world)))
    "0123456789abcdef" _ _).
  - vm_compute. reflexivity.
  - vm_compute. lia.
Defined.

(** With the key-id unset and a usable private key, [build_jwt] returns a
    token instead of failing. *)
Lemma C4_counterexample :
  exists token,
    fst (build_jwt None (Some Fixtures.demo_key) Fixtures.demo_sign
           "GET" "/api/v3/brokerage/accounts" default_host
           Fixtures.demo_world) = Ok token
    /\ Base64.urlsafe_decode_nopad
         (hd EmptyString (Bytes.split_on "." token))
       = Some (Json.dumps
                 (VDict [("alg", VStr "EdDSA"); ("kid", VNone);
                         ("nonce", VStr "031425364758697a8b9cadbecfe0f102");
                         ("typ", VStr "JWT")])).
Proof. eexists. split; vm_compute; reflexivity. Qed.

(** *** The seed *)

(** C9: the token is a function of the first 32 bytes of the decoded key
    blob only.  Two blobs that agree on these bytes give the same result in
    every world, and the third segment of a token is the encoded signature
    of the first two under exactly these 32 bytes. *)
Theorem C9_seed_is_first_32_bytes
  (KEY_ID : option string) (blob1 blob2 decoded1 decoded2 : string)
  (ed25519_sign : string -> string -> string)
  (method path host : string) (w : World) :
  b64decode (Some blob1) = Ok decoded1 ->
  b64decode (Some blob2) = Ok decoded2 ->
  Bytes.take 32 decoded1 = Bytes.take 32 decoded2 ->
  build_jwt KEY_ID (Some blob1) ed25519_sign method path host w
  = build_jwt KEY_ID (Some blob2) ed25519_sign method path host w
  /\ forall token w',
       build_jwt KEY_ID (Some blob1) ed25519_sign method path host w
         = (Ok token, w') ->
       exists h p,
         token = h ++ "." ++ p ++ "."
                   ++ base64url_encode
                        (ed25519_sign (Bytes.take 32 decoded1) (h ++ "." ++ p)).
Proof.
  intros H1 H2 Hseed. rewrite !build_jwt_run, H1, H2, Hseed. split.
  - reflexivity.
  - intros token w'. unfold SigningKey.
    destruct (String.length (Bytes.take 32 decoded2) =? 32)%nat;
      [| discriminate].
    intros H. injection H as Htok _. subst token.
    eexists _, _. reflexivity.
Qed.

Lemma C9_witness :
  build_jwt (Some "abc") (Some Fixtures.demo_key) Fixtures.demo_sign
    "GET" "/x" default_host Fixtures.demo_world
  = build_jwt (Some "abc") (Some Fixtures.demo_key') Fixtures.demo_sign
      "GET" "/x" default_host Fixtures.demo_world.
Proof.
  refine (proj1
    (C9_seed_is_first_32_bytes (Some "abc")
       Fixtures.demo_key Fixtures.demo_key'
       "0123456789abcdef0123456789abcdefEXTRAEXTRA"
       "0123456789abcdef0123456789abcdef-other-tail-"
       Fixtures.demo_sign "GET" "/x" default_host Fixtures.demo_world
       _ _ _)); vm_compute; reflexivity.
Defined.

(** *** Effects of minting *)

(** C10, as the code has it: a call of [build_jwt] leaves the clock, the
    network log and the sleep log alone and sends nothing, but it draws 16
    bytes of entropy and, when it succeeds, prints three messages: the
    banner, the header and the claim set. *)
Theorem C10_mint_effects
  (KEY_ID PRIVATE_KEY_BASE64 : option string)
  (ed25519_sign : string -> string -> string)
  (method path host : string) (w : World) :
  let run :=
    build_jwt KEY_ID PRIVATE_KEY_BASE64 ed25519_sign method path host w in
  clock (snd run) = clock w
  /\ urandom (snd run) = urandom w
  /\ upstream (snd run) = upstream w
  /\ sent (snd run) = sent w
  /\ slept (snd run) = slept w
  /\ entropy_used (snd run) = (entropy_used w + 16)%nat
  /\ match fst run with
     | Ok _ =>
         let nonce :=
           Bytes.hex (read_entropy (urandom w) (entropy_used w) 16) in
         let uri := Bytes.upper method ++ " " ++ host ++ path in
         stdout (snd run)
         = app (stdout w)
             [banner ++ Py.newline;
              "Header: " ++ Json.dumps_indent 2 (header_of KEY_ID nonce)
                ++ Py.newline;
              "Payload: "
                ++ Json.dumps_indent 2 (payload_of KEY_ID (clock w) uri)
                ++ Py.newline]
     | Raise _ => stdout (snd run) = stdout w
     end.
Proof.
  cbv zeta. rewrite build_jwt_run.
  destruct (b64decode PRIVATE_KEY_BASE64) as [decoded | e];
    [| repeat split].
  destruct (SigningKey (Bytes.take 32 decoded)) as [seed | e];
    [| repeat split].
  cbn [fst snd write_stdout consume_entropy clock urandom upstream sent slept
       entropy_used stdout].
  repeat split.
Qed.

(** A successful call has written to standard output. *)
Lemma C10_counterexample :
  stdout (snd (build_jwt (Some "abc") (Some Fixtures.demo_key)
                 Fixtures.demo_sign "GET" "/api/v3/brokerage/accounts"
                 default_host Fixtures.demo_world))
  <> stdout Fixtures.demo_world.
Proof. vm_compute. discriminate. Qed.

End JwtFacts.



(** ** The retry loop *)

Module RetryFacts.

Import Urllib3.
Local Open Scope Z_scope.

(** The world after one more attempt, and after one more sleep. *)
Definition log_attempt (rq : Request) (w : World) : World :=
  {| clock := clock w; urandom := urandom w;
     entropy_used := entropy_used w; stdout := stdout w;
     upstream := upstream w; sent := sent w ++ [rq]; slept := slept w |}.

Definition log_sleep (d : option Q) (w : World) : World :=
  match d with
  | None => w
  | Some q =>
      {| clock := clock w; urandom := urandom w;
         entropy_used := entropy_used w; stdout := stdout w;
         upstream := upstream w; sent := sent w; slept := slept w ++ [q] |}
  end.

(** The delay for which [Retry.sleep] calls [time.sleep], if it does. *)
Definition backoff_delay (r : Retry) : option Q :=
  if Qle_bool (get_backoff_time r) 0%Q then None
  else Some (get_backoff_time r).

(** The delay that the header asks for, when it is positive. *)
Definition header_delay (resp : Response) : option Q :=
  match get_retry_after resp with
  | Ok (Some q) => if Qle_bool q 0%Q then None else Some q
  | _ => None
  end.

Definition sleep_delay (r : Retry) (response : option Response) : option Q :=
  match response with
  | Some resp =>
      if respect_retry_after_header r then
        match header_delay resp with
        | Some q => Some q
        | None => backoff_delay r
        end
      else backoff_delay r
  | None => backoff_delay r
  end.

(** [Retry.sleep] raises on a header that it cannot read. *)
Definition sleep_fails (r : Retry) (response : option Response) : bool :=
  match response with
  | Some resp =>
      respect_retry_after_header r
      && match retry_after resp with
         | Some (Unparsable _) => true
         | _ => false
         end
  | None => false
  end.

Lemma sleep_run (r : Retry) (response : option Response) (w : World) :
  sleep r response w
  = if sleep_fails r response then (Raise InvalidHeader, w)
    else (Ok tt, log_sleep (sleep_delay r response) w).
Proof.
  assert (B : _sleep_backoff r w = (Ok tt, log_sleep (backoff_delay r) w)).
  { unfold _sleep_backoff, backoff_delay.
    destruct (Qle_bool (get_backoff_time r) 0); reflexivity. }
  unfold sleep, sleep_delay, sleep_fails, header_delay, get_retry_after.
  destruct response as [resp |]; [| exact B].
  destruct (respect_retry_after_header r); [| exact B].
  cbn [andb]. unfold bind, lift.
  destruct (retry_after resp) as [[n | ahead | b] |]; cbn [parse_retry_after];
    try exact B; try reflexivity;
    match goal with
    | |- context [Qle_bool ?q 0] => destruct (Qle_bool q 0)
    end; try exact B; reflexivity.
Qed.

Lemma sleep_fails_without_header (r : Retry) (resp : Response) :
  retry_after resp = None -> sleep_fails r (Some resp) = false.
Proof.
  intros H. unfold sleep_fails. rewrite H. apply andb_false_r.
Qed.

(** What the loop decides after one attempt. *)
Inductive decision :=
| Stop (res : result Response)
| Again (r' : Retry) (delay : option Q).

Definition next (r : Retry) (method : string) (a : Attempt) : decision :=
  match a with
  | ConnectFailed =>
      match increment r method ConnectError with
      | Raise e => Stop (Raise e)
      | Ok r' => Again r' (sleep_delay r' None)
      end
  | ReadFailed =>
      match increment r method ReadError with
      | Raise e => Stop (Raise e)
      | Ok r' => Again r' (sleep_delay r' None)
      end
  | Responded resp =>
      if is_retry r method (status_code resp) (has_retry_after resp) then
        match increment r method (BadStatus (status_code resp)) with
        | Raise e => if raise_on_status r then Stop (Raise e) else Stop (Ok resp)
        | Ok r' =>
            if sleep_fails r' (Some resp) then Stop (Raise InvalidHeader)
            else Again r' (sleep_delay r' (Some resp))
        end
      else Stop (Ok resp)
  end.

Lemma urlopen_step (depth : nat) (r : Retry) (rq : Request) (w : World) :
  urlopen (S depth) r rq w
  = match next r (req_method rq) (upstream w (List.length (sent w)) rq) with
    | Stop res => (res, log_attempt rq w)
    | Again r' delay => urlopen depth r' rq (log_sleep delay (log_attempt rq w))
    end.
Proof.
  cbn [urlopen]. unfold bind at 1. unfold send_once at 1.
  fold (log_attempt rq w).
  unfold next.
  destruct (upstream w (List.length (sent w)) rq) as [resp | |].
  - destruct (is_retry r (req_method rq) (status_code resp)
                (has_retry_after resp)); [| reflexivity].
    destruct (increment r (req_method rq) (BadStatus (status_code resp)))
      as [r' | e].
    + unfold bind. rewrite sleep_run.
      destruct (sleep_fails r' (Some resp)); reflexivity.
    + destruct (raise_on_status r); reflexivity.
  - unfold bind, lift.
    destruct (increment r (req_method rq) ConnectError) as [r' | e];
      [| reflexivity].
    rewrite sleep_run. reflexivity.
  - unfold bind, lift.
    destruct (increment r (req_method rq) ReadError) as [r' | e];
      [| reflexivity].
    rewrite sleep_run. reflexivity.
Qed.

(** The part of the retry condition that does not change from one attempt
    to the next. *)
Definition may_retry (r : Retry) (method : string) (a : Attempt) : bool :=
  match a with
  | ConnectFailed => true
  | ReadFailed => negb (read_is_False r) && _is_method_retryable r method
  | Responded resp =>
      _is_method_retryable r method
      && (mem_Z (status_code resp) (status_forcelist r)
          || (respect_retry_after_header r && has_retry_after resp
              && mem_Z (status_code resp) RETRY_AFTER_STATUS_CODES))
  end.

(** Two policies with the same configuration. *)
Definition same_config (r r' : Retry) : Prop :=
  read_is_False r' = read_is_False r
  /\ backoff_factor r' = backoff_factor r
  /\ backoff_max r' = backoff_max r
  /\ status_forcelist r' = status_forcelist r
  /\ allowed_methods r' = allowed_methods r
  /\ raise_on_status r' = raise_on_status r
  /\ respect_retry_after_header r' = respect_retry_after_header r.

Lemma increment_ok (r r' : Retry) (method : string) (f : failure) :
  increment r method f = Ok r' ->
  total r' = total r - 1 /\ 0 <= total r'
  /\ List.length (history r') = S (List.length (history r))
  /\ same_config r r'.
Proof.
  assert (E : forall entry,
             is_exhausted (with_attempt r entry) = false ->
             0 <= total (with_attempt r entry)).
  { intros entry. unfold is_exhausted.
    destruct (Z.eqb_spec (total (with_attempt r entry)) 0) as [-> | _];
      [lia |].
    intros H. apply Z.ltb_ge in H. exact H. }
  assert (G : forall entry,
             is_exhausted (with_attempt r entry) = false ->
             Ok (with_attempt r entry) = Ok r' ->
             total r' = total r - 1 /\ 0 <= total r'
             /\ List.length (history r') = S (List.length (history r))
             /\ same_config r r').
  { intros entry He H. injection H as <-. split; [reflexivity |].
    split; [now apply E |]. split.
    - cbn [history with_attempt]. rewrite length_app. cbn. lia.
    - repeat split. }
  destruct f; cbn [increment].
  - destruct (is_exhausted (with_attempt r None)) eqn:He;
      [discriminate | now apply G].
  - destruct (read_is_False r || negb (_is_method_retryable r method));
      [discriminate |].
    destruct (is_exhausted (with_attempt r None)) eqn:He;
      [discriminate | now apply G].
  - destruct (is_exhausted (with_attempt r (Some status))) eqn:He;
      [discriminate | now apply G].
Qed.

Lemma is_retry_may (r : Retry) (method : string) (resp : Response) :
  is_retry r method (status_code resp) (has_retry_after resp) = true ->
  may_retry r method (Responded resp) = true.
Proof.
  unfold is_retry, may_retry.
  destruct (_is_method_retryable r method); cbn [negb andb];
    [| discriminate].
  destruct (status_forcelist r) as [| x l] eqn:El.
  - cbn [andb mem_Z existsb orb]. intros H.
    apply andb_true_iff in H as [H H3]. apply andb_true_iff in H as [H H2].
    apply andb_true_iff in H as [_ H1]. now rewrite H1, H2, H3.
  - cbn [andb]. destruct (mem_Z (status_code resp) (x :: l));
      [reflexivity |].
    cbn [orb]. intros H.
    apply andb_true_iff in H as [H H3]. apply andb_true_iff in H as [H H2].
    apply andb_true_iff in H as [_ H1]. now rewrite H1, H2, H3.
Qed.

Lemma next_again (r r' : Retry) (method : string) (a : Attempt)
      (delay : option Q) :
  next r method a = Again r' delay ->
  total r' = total r - 1 /\ 0 <= total r'
  /\ List.length (history r') = S (List.length (history r))
  /\ same_config r r'
  /\ may_retry r method a = true
  /\ delay = sleep_delay r'
               (match a with Responded resp => Some resp | _ => None end).
Proof.
  unfold next. destruct a as [resp | |].
  - destruct (is_retry r method (status_code resp) (has_retry_after resp))
      eqn:Hr; [| discriminate].
    destruct (increment r method (BadStatus (status_code resp)))
      as [r0 | e] eqn:Hi.
    + destruct (sleep_fails r0 (Some resp)); [discriminate |].
      intros H. injection H as <- <-.
      destruct (increment_ok _ _ _ _ Hi) as (? & ? & ? & ?).
      do 4 (split; [assumption |]).
      split; [now apply is_retry_may | reflexivity].
    + destruct (raise_on_status r); discriminate.
  - destruct (increment r method ConnectError) as [r0 | e] eqn:Hi;
      [| discriminate].
    intros H. injection H as <- <-.
    destruct (increment_ok _ _ _ _ Hi) as (? & ? & ? & ?).
    do 4 (split; [assumption |]). split; reflexivity.
  - destruct (increment r method ReadError) as [r0 | e] eqn:Hi;
      [| discriminate].
    intros H. injection H as <- <-.
    destruct (increment_ok _ _ _ _ Hi) as (? & ? & ? & ?).
    do 4 (split; [assumption |]). split; [| reflexivity].
    cbn [increment] in Hi. cbn [may_retry].
    destruct (read_is_False r); [discriminate |].
    destruct (_is_method_retryable r method); [reflexivity | discriminate].
Qed.

(** The loop stops with the response of its last attempt, with one of
    the pool's two errors, or on a header that cannot be read. *)
Definition stops_with (a : Attempt) (res : result Response) : Prop :=
  match res with
  | Ok resp => a = Responded resp
  | Raise e =>
      e = ProtocolError \/ e = MaxRetryError false
      \/ (e = MaxRetryError true /\ exists resp, a = Responded resp)
      \/ (e = InvalidHeader
          /\ exists resp b, a = Responded resp
                            /\ retry_after resp = Some (Unparsable b))
  end.

Lemma next_stop (r : Retry) (method : string) (a : Attempt)
      (res : result Response) :
  next r method a = Stop res -> stops_with a res.
Proof.
  unfold next, stops_with. destruct a as [resp | |].
  - destruct (is_retry r method (status_code resp) (has_retry_after resp)).
    + cbn [increment].
      destruct (is_exhausted (with_attempt r (Some (status_code resp)))).
      * destruct (raise_on_status r); intros H; injection H as <-;
          [right; right; left; eauto | reflexivity].
      * destruct (sleep_fails _ (Some resp)) eqn:Hf; [| discriminate].
        intros H. injection H as <-.
        unfold sleep_fails in Hf. apply andb_true_iff in Hf as [_ Hf].
        destruct (retry_after resp) as [[n | ahead | b] |] eqn:Hra;
          try discriminate.
        do 3 right. eauto.
    + intros H. injection H as <-. reflexivity.
  - cbn [increment]. destruct (is_exhausted (with_attempt r None));
      [| discriminate].
    intros H. injection H as <-. auto.
  - cbn [increment].
    destruct (read_is_False r || negb (_is_method_retryable r method)).
    + intros H. injection H as <-. auto.
    + destruct (is_exhausted (with_attempt r None)); [| discriminate].
      intros H. injection H as <-. auto.
Qed.

(** *** A whole run of the loop *)

(** The outcomes of [n] consecutive attempts to send [rq], the first of
    which is attempt number [n0]. *)
Fixpoint outcomes (up : nat -> Request -> Attempt) (rq : Request)
         (n0 n : nat) : list Attempt :=
  match n with
  | O => []
  | S n' => up n0 rq :: outcomes up rq (S n0) n'
  end.

(** [get_backoff_time] of a policy with configuration [r] and [n] recorded
    failures. *)
Definition backoff_after (r : Retry) (n : nat) : Q :=
  if (n <=? 1)%nat then 0%Q
  else Qmax 0%Q (Qmin (backoff_max r) (backoff_factor r * pow2 (n - 1))%Q).

Definition sleep_delay_after (r : Retry) (n : nat) (a : Attempt) : option Q :=
  let backoff :=
    if Qle_bool (backoff_after r n) 0%Q then None
    else Some (backoff_after r n) in
  match a with
  | Responded resp =>
      if respect_retry_after_header r then
        match header_delay resp with
        | Some q => Some q
        | None => backoff
        end
      else backoff
  | _ => backoff
  end.

Definition opt_list {A} (o : option A) : list A :=
  match o with Some a => [a] | None => [] end.

(** The sleeps between the attempts: after the [i]-th failure of the run,
    when [n] failures were recorded before it. *)
Fixpoint delays_list (r : Retry) (n : nat) (outs : list Attempt) : list Q :=
  match outs with
  | [] => []
  | a :: outs' =>
      opt_list (sleep_delay_after r (S n) a) ++ delays_list r (S n) outs'
  end.

Definition after_run (rq : Request) (k : nat) (delays : list Q) (w : World)
  : World :=
  {| clock := clock w; urandom := urandom w;
     entropy_used := entropy_used w; stdout := stdout w;
     upstream := upstream w; sent := sent w ++ repeat rq k;
     slept := slept w ++ delays |}.

Lemma same_config_refl (r : Retry) : same_config r r.
Proof. repeat split. Qed.

Lemma same_config_trans (r1 r2 r3 : Retry) :
  same_config r1 r2 -> same_config r2 r3 -> same_config r1 r3.
Proof.
  unfold same_config.
  intros (A1 & A2 & A3 & A4 & A5 & A6 & A7) (B1 & B2 & B3 & B4 & B5 & B6 & B7).
  repeat split; congruence.
Qed.

Lemma may_retry_config (r0 r : Retry) (method : string) (a : Attempt) :
  same_config r0 r -> may_retry r method a = may_retry r0 method a.
Proof.
  intros (A1 & A2 & A3 & A4 & A5 & A6 & A7).
  unfold may_retry, _is_method_retryable. now rewrite A1, A4, A5, A7.
Qed.

Lemma sleep_delay_config (r0 r : Retry) (a : Attempt) :
  same_config r0 r ->
  sleep_delay r (match a with Responded resp => Some resp | _ => None end)
  = sleep_delay_after r0 (List.length (history r)) a.
Proof.
  intros (A1 & A2 & A3 & A4 & A5 & A6 & A7).
  assert (B : backoff_delay r
              = if Qle_bool (backoff_after r0 (List.length (history r))) 0%Q
                then None
                else Some (backoff_after r0 (List.length (history r)))).
  { unfold backoff_delay, get_backoff_time, backoff_after.
    now rewrite A2, A3. }
  unfold sleep_delay, sleep_delay_after.
  destruct a as [resp | |]; rewrite ?A7, B; reflexivity.
Qed.

Lemma after_run_step (rq : Request) (m : nat) (d : option Q)
      (delays : list Q) (w : World) :
  after_run rq (S m) delays (log_sleep d (log_attempt rq w))
  = after_run rq (S (S m)) (opt_list d ++ delays) w.
Proof.
  unfold after_run.
  destruct d as [q |];
    cbn [log_sleep log_attempt clock urandom entropy_used stdout upstream
         sent slept opt_list];
    rewrite <- !app_assoc; reflexivity.
Qed.

Lemma log_sleep_frame (d : option Q) (w : World) :
  upstream (log_sleep d w) = upstream w /\ sent (log_sleep d w) = sent w.
Proof. destruct d; split; reflexivity. Qed.

(** A run of the loop under a policy with configuration [r0]: it makes
    [S m] attempts with [m] at most [total], every attempt but the last met
    the retry condition, the sleeps are those of the policy, and the result
    comes from the last attempt. *)
Lemma urlopen_run (r0 : Retry) (depth : nat) :
  forall (r : Retry) (rq : Request) (w : World),
    same_config r0 r ->
    (Z.to_nat (total r) < depth)%nat ->
    exists m : nat,
      (m <= Z.to_nat (total r))%nat
      /\ snd (urlopen depth r rq w)
         = after_run rq (S m)
             (delays_list r0 (List.length (history r))
                (outcomes (upstream w) rq (List.length (sent w)) m)) w
      /\ stops_with (upstream w (List.length (sent w) + m) rq)
           (fst (urlopen depth r rq w))
      /\ Forall (fun a => may_retry r0 (req_method rq) a = true)
           (outcomes (upstream w) rq (List.length (sent w)) m).
Proof.
  induction depth as [| depth IH]; intros r rq w Hcfg Hdepth; [lia |].
  rewrite urlopen_step.
  destruct (next r (req_method rq) (upstream w (List.length (sent w)) rq))
    as [res | r' d] eqn:N.
  - exists 0%nat. split; [lia |]. split; [| split].
    + unfold after_run, log_attempt. cbn [snd delays_list outcomes repeat].
      now rewrite app_nil_r.
    + rewrite Nat.add_0_r. cbn [fst]. eapply next_stop, N.
    + constructor.
  - destruct (next_again _ _ _ _ _ N) as (Ht & Hpos & Hh & Hc & Hm & Hd).
    pose proof (same_config_trans _ _ _ Hcfg Hc) as Hcfg'.
    destruct (IH r' rq (log_sleep d (log_attempt rq w)) Hcfg')
      as (m & Hm1 & Hw & Hs & Hf); [lia |].
    destruct (log_sleep_frame d (log_attempt rq w)) as [Eu Es].
    rewrite Eu, Es in Hw, Hs, Hf.
    cbn [log_attempt upstream sent] in Hw, Hs, Hf.
    rewrite length_app in Hw, Hs, Hf. cbn [List.length] in Hw, Hs, Hf.
    rewrite Nat.add_1_r in Hw, Hs, Hf.
    exists (S m). split; [lia |]. split; [| split].
    + rewrite Hw, after_run_step. cbn [delays_list outcomes].
      rewrite Hh, Hd.
      now rewrite (sleep_delay_config r0 r' _ Hcfg'), Hh.
    + rewrite Nat.add_succ_r. exact Hs.
    + cbn [outcomes]. constructor; [| exact Hf].
      now rewrite <- (may_retry_config r0 r _ _ Hcfg).
Qed.

End RetryFacts.


(** ** The request layer *)

Module ClientFacts.

Import Urllib3 Requests Client RetryFacts.
Local Open Scope Z_scope.

(** The four entry points of the request layer with their arguments. *)
Inductive call :=
| Get (url path : string) (params : option dict) (is_public : bool)
| Post (url path : string) (data : option value)
| Put (url path : string) (data : option value)
| Delete (url path : string) (data : option value).

Definition verb (c : call) : string :=
  match c with
  | Get _ _ _ _ => "GET"
  | Post _ _ _ => "POST"
  | Put _ _ _ => "PUT"
  | Delete _ _ _ => "DELETE"
  end.

Definition call_url (c : call) : string :=
  match c with
  | Get u _ _ _ | Post u _ _ | Put u _ _ | Delete u _ _ => u
  end.

Definition call_path (c : call) : string :=
  match c with
  | Get _ p _ _ | Post _ p _ | Put _ p _ | Delete _ p _ => p
  end.

Definition call_params (c : call) : option dict :=
  match c with
  | Get _ _ q _ => q
  | _ => None
  end.

Definition call_json (c : call) : option value :=
  match c with
  | Get _ _ _ _ => None
  | Post _ _ d | Put _ _ d | Delete _ _ d => d
  end.

Definition call_public (c : call) : bool :=
  match c with
  | Get _ _ _ b => b
  | _ => false
  end.

Definition request_of (c : call) (headers : list (string * string))
  : Request :=
  {| req_method := verb c; req_url := call_url c; req_headers := headers;
     req_params := call_params c; req_json := call_json c |}.

(** A private call and a world whose service answers 200 with an empty
    JSON object, for the examples. *)
Definition accounts_call : call :=
  Get (BASE_URL ++ "/accounts") "/api/v3/brokerage/accounts" None false.

Definition ok_world : World :=
  Fixtures.world_with (Fixtures.always 200 "{}" (Some (VDict []))).

(** The message of the [HTTPError] that [raise_for_status] raises. *)
Definition http_error_message (resp : Response) : string :=
  (Bytes.of_Z (status_code resp)
     ++ (if (status_code resp <? 500)%Z then " Client Error: "
         else " Server Error: ")
     ++ reason resp ++ " for url: " ++ url resp)%string.

Definition is_error_status (st : Z) : bool := (400 <=? st) && (st <? 600).

(** What the [try] block after the send makes of a response. *)
Definition normalise (resp : Response) : result value :=
  if is_error_status (status_code resp) then
    Ok (VDict [("error", VStr (http_error_message resp));
               ("status_code", VInt (status_code resp));
               ("body", VStr (text resp))])
  else
    match json_body resp with
    | Some v => Ok v
    | None => Raise JSONDecodeError
    end.

Lemma try_block_run (resp : Response) (w : World) :
  try_except
    (bind (raise_for_status resp) (fun _ => Response_json resp))
    as_HTTPError (fun e => ret (error_record e resp)) w
  = (normalise resp, w).
Proof.
  unfold try_except, bind, raise_for_status, Response_json, normalise,
    is_error_status, http_error_message, error_record, raise, ret.
  destruct (Z.leb_spec 400 (status_code resp));
    destruct (Z.ltb_spec (status_code resp) 500);
    destruct (Z.leb_spec 500 (status_code resp));
    destruct (Z.ltb_spec (status_code resp) 600);
    try lia; cbn [andb as_HTTPError];
    try reflexivity; destruct (json_body resp); reflexivity.
Qed.

Section WithKey.

Variables KEY_ID PRIVATE_KEY_BASE64 : option string.
Variable ed25519_sign : string -> string -> string.

Definition exec (c : call) : M value :=
  match c with
  | Get u p q b => _get KEY_ID PRIVATE_KEY_BASE64 ed25519_sign u p q b
  | Post u p d => _post KEY_ID PRIVATE_KEY_BASE64 ed25519_sign u p d
  | Put u p d => _put KEY_ID PRIVATE_KEY_BASE64 ed25519_sign u p d
  | Delete u p d => _delete KEY_ID PRIVATE_KEY_BASE64 ed25519_sign u p d
  end.

Definition headers_for (c : call) : M (list (string * string)) :=
  if call_public c then ret _public_headers
  else _headers KEY_ID PRIVATE_KEY_BASE64 ed25519_sign (verb c) (call_path c).

Definition transport (c : call) (headers : list (string * string))
  : M Response :=
  Session_request session (verb c) (call_url c) headers
    (call_params c) (call_json c).

(** A call is: make the headers, send, then the [try] block. *)
Lemma exec_run (c : call) (w : World) :
  exec c w
  = match headers_for c w with
    | (Raise e, w1) => (Raise e, w1)
    | (Ok h, w1) =>
        match transport c h w1 with
        | (Raise e, w2) => (Raise e, w2)
        | (Ok resp, w2) => (normalise resp, w2)
        end
    end.
Proof.
  destruct c as [u p q b | u p d | u p d | u p d];
    unfold exec, _get, _post, _put, _delete, headers_for, transport;
    cbn [verb call_url call_path call_params call_json call_public];
    unfold bind at 1;
    match goal with
    | |- context [match ?m w with _ => _ end] =>
        destruct (m w) as [[h | e] w1]; [| reflexivity]
    end;
    unfold bind at 1;
    match goal with
    | |- context [Session_request ?x1 ?x2 ?x3 ?x4 ?x5 ?x6 ?x7] =>
        destruct (Session_request x1 x2 x3 x4 x5 x6 x7) as [[resp | e] w2];
          [apply try_block_run | reflexivity]
    end.
Qed.

(** *** The transport *)

Lemma session_eq :
  session = [("https://", retries); ("http://", Retry_default)].
Proof. reflexivity. Qed.

Lemma get_adapter_session (u : string) :
  get_adapter session u
  = if prefix "https://" (Bytes.lower u) then Ok retries
    else if prefix "http://" (Bytes.lower u) then Ok Retry_default
    else Raise InvalidSchema.
Proof. rewrite session_eq. reflexivity. Qed.

Lemma prefix_lower (p u : string) :
  prefix p u = true -> prefix (Bytes.lower p) (Bytes.lower u) = true.
Proof.
  revert u. induction p as [| a p IH]; intros u;
    [intros _; destruct u; reflexivity |].
  destruct u as [| b u]; [discriminate |].
  cbn [prefix Bytes.lower Bytes.map].
  destruct (ascii_dec a b) as [-> | _]; [| discriminate].
  intros H.
  destruct (ascii_dec (Bytes.lower_char b) (Bytes.lower_char b));
    [now apply IH | congruence].
Qed.

Lemma get_adapter_https (u : string) :
  prefix "https://" u = true -> get_adapter session u = Ok retries.
Proof.
  intros H. rewrite get_adapter_session.
  apply prefix_lower in H.
  change (Bytes.lower "https://") with "https://" in H.
  now rewrite H.
Qed.

(** What a send under policy [r] leaves behind and returns. *)
Definition send_summary (r : Retry) (rq : Request) (w : World)
           (run : result Response * World) (m : nat) : Prop :=
  (m <= Z.to_nat (total r))%nat
  /\ snd run
     = after_run rq (S m)
         (delays_list r 0 (outcomes (upstream w) rq (List.length (sent w)) m))
         w
  /\ Forall (fun a => may_retry r (req_method rq) a = true)
       (outcomes (upstream w) rq (List.length (sent w)) m)
  /\ match fst run with
     | Ok resp => upstream w (List.length (sent w) + m) rq = Responded resp
     | Raise e =>
         e = ConnectionError
         \/ (e = RetryError
             /\ exists resp,
                  upstream w (List.length (sent w) + m) rq = Responded resp)
         \/ (e = InvalidHeader
             /\ exists resp b,
                  upstream w (List.length (sent w) + m) rq = Responded resp
                  /\ retry_after resp = Some (Unparsable b))
     end.

Lemma send_run (r : Retry) (rq : Request) (w : World) :
  history r = [] ->
  (Z.to_nat (total r) < recursion_limit)%nat ->
  exists m, send_summary r rq w (HTTPAdapter_send r rq w) m.
Proof.
  intros Hh Hlim.
  destruct (urlopen_run r recursion_limit r rq w (same_config_refl r) Hlim)
    as (m & Hm & Hw & Hs & Hf).
  rewrite Hh in Hw. cbn [List.length] in Hw.
  exists m. unfold send_summary, HTTPAdapter_send, try_except.
  destruct (urlopen recursion_limit r rq w) as [[resp | e] w'].
  - cbn [fst snd] in *. auto.
  - cbn [fst snd stops_with] in *.
    destruct Hs as [-> | [-> | [[-> Hs] | [-> Hs]]]];
      cbn [fst snd raise];
      (do 3 (split; [assumption |])); tauto.
Qed.

Lemma transport_run (c : call) (h : list (string * string)) (w : World) :
  (prefix "https://" (Bytes.lower (call_url c)) = false
   /\ prefix "http://" (Bytes.lower (call_url c)) = false
   /\ transport c h w = (Raise InvalidSchema, w))
  \/ exists r m,
       get_adapter session (call_url c) = Ok r
       /\ (r = retries \/ r = Retry_default)
       /\ send_summary r (request_of c h) w (transport c h w) m.
Proof.
  unfold transport, Session_request, bind, lift.
  rewrite get_adapter_session.
  destruct (prefix "https://" (Bytes.lower (call_url c))).
  - right. destruct (send_run retries (request_of c h) w eq_refl) as [m Hm].
    + apply Nat.ltb_lt. reflexivity.
    + exists retries, m. auto.
  - destruct (prefix "http://" (Bytes.lower (call_url c))).
    + right.
      destruct (send_run Retry_default (request_of c h) w eq_refl) as [m Hm].
      * apply Nat.ltb_lt. reflexivity.
      * exists Retry_default, m. auto.
    + left. auto.
Qed.

(** Making the headers does not touch the network. *)
Lemma headers_frame (c : call) (w : World) :
  let run := headers_for c w in
  upstream (snd run) = upstream w
  /\ sent (snd run) = sent w
  /\ slept (snd run) = slept w.
Proof.
  unfold headers_for. destruct (call_public c); [repeat split |].
  unfold _headers, bind. rewrite JwtFacts.build_jwt_run.
  destruct (JwtGenerator.b64decode PRIVATE_KEY_BASE64) as [decoded | e];
    [| repeat split].
  destruct (JwtGenerator.SigningKey (Bytes.take 32 decoded)) as [seed | e];
    repeat split.
Qed.

End WithKey.

(** *** Redirects *)

(** No answer of the service redirects. *)
Definition no_redirect (w : World) : Prop :=
  forall n rq resp,
    upstream w n rq = Responded resp ->
    mem_Z (status_code resp) REDIRECT_STATI = false.

Lemma always_no_redirect (st : Z) (body : string) (v : option value) :
  mem_Z st REDIRECT_STATI = false ->
  no_redirect (Fixtures.world_with (Fixtures.always st body v)).
Proof.
  intros H n rq resp E. injection E as <-. exact H.
Qed.

Lemma flaky_no_redirect :
  no_redirect (Fixtures.world_with Fixtures.flaky_then_ok).
Proof.
  intros n rq resp E. cbn in E. unfold Fixtures.flaky_then_ok in E.
  destruct (n <? 2)%nat; injection E as <-; reflexivity.
Qed.

(** *** Outcome of a call *)

(** C1, as the code has it: whatever final response the session hands
    back, a call returns the record with error, status_code and body when
    its status is in 400..599, and the decoded body when its status is
    outside that range (2xx in particular) and the body is JSON.  Only
    [HTTPError] is caught: a body that is not JSON raises
    [JSONDecodeError] to the caller, an exception of the session is raised
    to the caller unchanged, and a failure to mint the credential is
    raised before anything is sent. *)
Theorem C1_request_outcome
  (KEY_ID PRIVATE_KEY_BASE64 : option string)
  (ed25519_sign : string -> string -> string) (c : call) (w : World) :
  let run := exec KEY_ID PRIVATE_KEY_BASE64 ed25519_sign c w in
  match headers_for KEY_ID PRIVATE_KEY_BASE64 ed25519_sign c w with
  | (Raise e, w1) => run = (Raise e, w1) /\ sent w1 = sent w
  | (Ok h, w1) =>
      match transport c h w1 with
      | (Raise e, w2) => run = (Raise e, w2)
      | (Ok resp, w2) =>
          let st := status_code resp in
          snd run = w2
          /\ (400 <= st < 600 ->
              fst run = Ok (VDict [("error", VStr (http_error_message resp));
                                   ("status_code", VInt st);
                                   ("body", VStr (text resp))]))
          /\ (forall v, ~ 400 <= st < 600 -> json_body resp = Some v ->
              fst run = Ok v)
          /\ (~ 400 <= st < 600 -> json_body resp = None ->
              fst run = Raise JSONDecodeError)
      end
  end.
Proof.
  cbv zeta. rewrite exec_run.
  pose proof (headers_frame KEY_ID PRIVATE_KEY_BASE64 ed25519_sign c w)
    as (_ & Hs & _).
  cbv zeta in Hs.
  destruct (headers_for KEY_ID PRIVATE_KEY_BASE64 ed25519_sign c w)
    as [[h | e] w1]; cbn [fst snd] in Hs; [| auto].
  destruct (transport c h w1) as [[resp | e] w2]; cbn [fst snd];
    [| reflexivity].
  unfold normalise, is_error_status.
  split; [reflexivity |].
  destruct (Z.leb_spec 400 (status_code resp));
    destruct (Z.ltb_spec (status_code resp) 600); cbn [andb];
    repeat split; try lia; try tauto;
    try (intros v Hn Hv; rewrite Hv; reflexivity);
    try (intros Hn Hv; rewrite Hv; reflexivity).
Qed.

(** A 404 answer to a public request comes back as the error record. *)
Lemma C1_witness :
  fst (exec None None Fixtures.demo_sign
         (Get Fixtures.time_url "/api/v3/brokerage/time" None true)
         (Fixtures.world_with (Fixtures.always 404 "not found" None)))
  = Ok (VDict [("error",
                VStr "404 Client Error:  for url: https://api.coinbase.com/api/v3/brokerage/time");
               ("status_code", VInt 404); ("body", VStr "not found")]).
Proof.
  pose proof (C1_request_outcome None None Fixtures.demo_sign
                (Get Fixtures.time_url "/api/v3/brokerage/time" None true)
                (Fixtures.world_with (Fixtures.always 404 "not found" None)))
    as H.
  vm_compute in H. destruct H as (_ & H & _).
  apply H. split; [discriminate | reflexivity].
Defined.

(** A 200 answer whose body is not JSON makes [_get] raise. *)
Lemma C1_counterexample :
  fst (_get None None Fixtures.demo_sign Fixtures.time_url
         "/api/v3/brokerage/time" None true
         (Fixtures.world_with (Fixtures.always 200 "<html>" None)))
  = Raise JSONDecodeError.
Proof. vm_compute. reflexivity. Qed.

(** *** What a call sends *)

(** The requests that a call adds to the log and the sleeps it makes. *)
Lemma exec_trace
  (KEY_ID PRIVATE_KEY_BASE64 : option string)
  (ed25519_sign : string -> string -> string) (c : call) (w : World) :
  let run := exec KEY_ID PRIVATE_KEY_BASE64 ed25519_sign c w in
  match headers_for KEY_ID PRIVATE_KEY_BASE64 ed25519_sign c w with
  | (Raise e, w1) => sent (snd run) = sent w /\ slept (snd run) = slept w
  | (Ok h, w1) =>
      (sent (snd run) = sent w /\ slept (snd run) = slept w)
      \/ exists r m,
           (r = retries \/ r = Retry_default)
           /\ (m <= Z.to_nat (total r))%nat
           /\ sent (snd run) = app (sent w) (repeat (request_of c h) (S m))
           /\ slept (snd run)
              = app (slept w)
                  (delays_list r 0
                     (outcomes (upstream w) (request_of c h)
                        (List.length (sent w)) m))
           /\ Forall (fun a => may_retry r (verb c) a = true)
                (outcomes (upstream w) (request_of c h)
                   (List.length (sent w)) m)
  end.
Proof.
  cbv zeta. rewrite exec_run.
  pose proof (headers_frame KEY_ID PRIVATE_KEY_BASE64 ed25519_sign c w)
    as (Hu & Hs & Hl).
  cbv zeta in Hu, Hs, Hl.
  destruct (headers_for KEY_ID PRIVATE_KEY_BASE64 ed25519_sign c w)
    as [[h | e] w1]; cbn [fst snd] in Hu, Hs, Hl; [| auto].
  destruct (transport_run c h w1) as [(_ & _ & E) | (r & m & _ & Hr & S)].
  - rewrite E. left. auto.
  - right. exists r, m. destruct S as (Hm & Hw & Hf & _).
    rewrite Hu, Hs in Hw, Hf.
    assert (E : snd match transport c h w1 with
                    | (Ok resp, w2) => (normalise resp, w2)
                    | (Raise e, w2) => (Raise e, w2)
                    end = snd (transport c h w1)).
    { destruct (transport c h w1) as [[resp | e] w2]; reflexivity. }
    rewrite E, Hw. unfold after_run. cbn [sent slept].
    rewrite Hs, Hl. auto.
Qed.

Lemma headers_shape
  (KEY_ID PRIVATE_KEY_BASE64 : option string)
  (ed25519_sign : string -> string -> string) (c : call) (w w1 : World)
  (h : list (string * string)) :
  headers_for KEY_ID PRIVATE_KEY_BASE64 ed25519_sign c w = (Ok h, w1) ->
  if call_public c then h = _public_headers
  else exists token,
         JwtGenerator.build_jwt KEY_ID PRIVATE_KEY_BASE64 ed25519_sign
           (verb c) (call_path c) JwtGenerator.default_host w
           = (Ok token, w1)
         /\ h = [("Authorization", "Bearer " ++ token);
                 ("Content-Type", "application/json")]%string.
Proof.
  unfold headers_for. destruct (call_public c).
  - intros H. now injection H as <- _.
  - unfold _headers, bind, ret.
    destruct (JwtGenerator.build_jwt KEY_ID PRIVATE_KEY_BASE64 ed25519_sign
                (verb c) (call_path c) JwtGenerator.default_host w)
      as [[token | e] w']; [| discriminate].
    intros H. injection H as <- <-. eauto.
Qed.

(** [headers.get(name)] *)
Fixpoint header (name : string) (hs : list (string * string))
  : option string :=
  match hs with
  | [] => None
  | (k, v) :: hs' => if String.eqb name k then Some v else header name hs'
  end.

(** C6: every request that a call to a private endpoint sends carries
    [Authorization: Bearer t], with [t] three period-separated base64url
    segments, and [Content-Type: application/json]; every request that a
    call to a public endpoint sends carries [Content-Type:
    application/json] and [Cache-Control: no-cache] and no [Authorization]
    header. *)
Theorem C6_request_headers
  (KEY_ID PRIVATE_KEY_BASE64 : option string)
  (ed25519_sign : string -> string -> string) (c : call) (w : World)
  (rq : Request) :
  In rq (skipn (List.length (sent w))
           (sent (snd (exec KEY_ID PRIVATE_KEY_BASE64 ed25519_sign c w)))) ->
  if call_public c then
    req_headers rq = [("Content-Type", "application/json");
                      ("Cache-Control", "no-cache")]
    /\ header "Authorization" (req_headers rq) = None
  else
    exists token h p s,
      req_headers rq = [("Authorization", "Bearer " ++ token);
                        ("Content-Type", "application/json")]%string
      /\ header "Authorization" (req_headers rq) = Some ("Bearer " ++ token)%string
      /\ header "Content-Type" (req_headers rq) = Some "application/json"
      /\ Bytes.split_on "." token = [h; p; s]
      /\ Bytes.all_chars Base64Facts.is_digit h = true
      /\ Bytes.all_chars Base64Facts.is_digit p = true
      /\ Bytes.all_chars Base64Facts.is_digit s = true.
Proof.
  pose proof (exec_trace KEY_ID PRIVATE_KEY_BASE64 ed25519_sign c w) as T.
  pose proof (headers_shape KEY_ID PRIVATE_KEY_BASE64 ed25519_sign c w) as S.
  cbv zeta in T.
  destruct (headers_for KEY_ID PRIVATE_KEY_BASE64 ed25519_sign c w)
    as [[hs | e] w1].
  - specialize (S w1 hs eq_refl).
    destruct T as [[E _] | (r & m & _ & _ & E & _)]; rewrite E.
    + rewrite skipn_all. intros [].
    + rewrite skipn_app, skipn_all, Nat.sub_diag. cbn [skipn app].
      intros Hin. apply repeat_spec in Hin. subst rq.
      cbn [request_of req_headers].
      destruct (call_public c).
      * subst hs. split; reflexivity.
      * destruct S as (token & Hb & ->).
        destruct (JwtFacts.build_jwt_segments _ _ _ _ _ _ _ _ _ Hb)
          as (h & p & s & Hsplit & Hh & Hp & Hs).
        exists token, h, p, s. repeat split; assumption.
  - destruct T as [E _]. rewrite E, skipn_all. intros [].
Qed.

Lemma C6_witness :
  exists rq token h p s,
    In rq (sent (snd (exec (Some "abc") (Some Fixtures.demo_key)
                        Fixtures.demo_sign accounts_call ok_world)))
    /\ header "Authorization" (req_headers rq) = Some ("Bearer " ++ token)%string
    /\ Bytes.split_on "." token = [h; p; s].
Proof.
  eassert (Hin : In _ (skipn (List.length (sent ok_world))
                         (sent (snd (exec (Some "abc") (Some Fixtures.demo_key)
                                       Fixtures.demo_sign accounts_call
                                       ok_world))))).
  { vm_compute. left. reflexivity. }
  pose proof (C6_request_headers _ _ _ _ _ _ Hin) as H.
  cbn [call_public accounts_call] in H.
  destruct H as (token & h & p & s & _ & H1 & _ & H2 & _).
  eexists _, token, h, p, s.
  split; [| split; [exact H1 | exact H2]].
  vm_compute. left. reflexivity.
Defined.

(** *** Retries *)

Lemma outcomes_nth (P : Attempt -> Prop) (up : nat -> Request -> Attempt)
      (rq : Request) (m : nat) :
  forall n0,
    Forall P (outcomes up rq n0 m) ->
    forall j, (j < m)%nat -> P (up (n0 + j)%nat rq).
Proof.
  induction m as [| m IH]; intros n0 HF j Hj; [lia |].
  cbn [outcomes] in HF. inversion HF as [| a l Ha Hl]; subst.
  destruct j as [| j].
  - now rewrite Nat.add_0_r.
  - rewrite Nat.add_succ_r. apply (IH (S n0) Hl j). lia.
Qed.

Lemma outcomes_Forall (P : Attempt -> Prop) (up : nat -> Request -> Attempt)
      (rq : Request) (m : nat) :
  forall n0,
    (forall j, P (up (n0 + j)%nat rq)) -> Forall P (outcomes up rq n0 m).
Proof.
  induction m as [| m IH]; intros n0 H; cbn [outcomes]; constructor.
  - specialize (H 0%nat). now rewrite Nat.add_0_r in H.
  - apply IH. intros j. specialize (H (S j)).
    now rewrite Nat.add_succ_r in H.
Qed.

Lemma outcomes_length (up : nat -> Request -> Attempt) (rq : Request)
      (m n0 : nat) : List.length (outcomes up rq n0 m) = m.
Proof.
  revert n0. induction m as [| m IH]; intros n0; cbn; [reflexivity |].
  now rewrite IH.
Qed.

(** The retry condition of the session's policy, spelled out. *)
Definition retry_condition (method : string) (a : Attempt) : Prop :=
  match a with
  | ConnectFailed => True
  | ReadFailed => method <> "POST"
  | Responded resp =>
      method <> "POST"
      /\ (In (status_code resp) [429; 500; 502; 503; 504]
          \/ (retry_after resp <> None
              /\ In (status_code resp) [413; 429; 503]))
  end.

Lemma mem_Z_In (x : Z) (l : list Z) : mem_Z x l = true -> In x l.
Proof.
  unfold mem_Z. intros H. apply existsb_exists in H as (y & Hy & E).
  apply Z.eqb_eq in E. now subst.
Qed.

Lemma may_retry_condition (c : call) (a : Attempt) :
  may_retry retries (verb c) a = true -> retry_condition (verb c) a.
Proof.
  assert (M : _is_method_retryable retries (verb c) = true ->
              verb c <> "POST").
  { destruct c; cbn [verb]; intros H; try discriminate H;
      intros E; discriminate E. }
  destruct a as [resp | |]; cbn [may_retry retry_condition].
  - intros H. apply andb_true_iff in H as [Hm H]. split; [auto |].
    apply orb_true_iff in H as [H | H].
    + left. now apply mem_Z_In in H.
    + right. apply andb_true_iff in H as [H H2].
      apply andb_true_iff in H as [_ H1]. split.
      * unfold has_retry_after in H1.
        destruct (retry_after resp); [discriminate | discriminate].
      * now apply mem_Z_In in H2.
  - trivial.
  - intros H. apply andb_true_iff in H as [_ H]. auto.
Qed.

(** The delay that the claim's formula gives for the [n]-th failure. *)
Definition claimed_backoff (n : Z) : Q := ((3 # 10) * 2 ^ (n - 1))%Q.

Definition no_retry_after (a : Attempt) : Prop :=
  match a with
  | Responded resp => retry_after resp = None
  | _ => True
  end.

Lemma delays_without_retry_after (outs : list Attempt) :
  (List.length outs <= 3)%nat ->
  Forall no_retry_after outs ->
  delays_list retries 0 outs
  = firstn (List.length outs - 1) [(6 # 10)%Q; (12 # 10)%Q].
Proof.
  assert (D : forall n a, no_retry_after a ->
                sleep_delay_after retries n a
                = if Qle_bool (backoff_after retries n) 0%Q then None
                  else Some (backoff_after retries n)).
  { intros n a Ha. unfold sleep_delay_after, header_delay, get_retry_after.
    destruct a as [resp | |]; try reflexivity.
    cbn [no_retry_after] in Ha. rewrite Ha. reflexivity. }
  intros Hlen HF.
  destruct outs as [| a1 [| a2 [| a3 [| a4 outs]]]]; cbn in Hlen; try lia;
    repeat match goal with
           | H : Forall _ (_ :: _) |- _ => inversion H; clear H; subst
           end;
    cbn [delays_list]; rewrite ?D by assumption; reflexivity.
Qed.

Lemma transport_https (c : call) (h : list (string * string)) (w : World) :
  prefix "https://" (call_url c) = true ->
  transport c h w = HTTPAdapter_send retries (request_of c h) w.
Proof.
  intros H. unfold transport, Session_request, bind, lift.
  now rewrite get_adapter_https.
Qed.

(** A status of the force list is retried while attempts are left. *)
Lemma next_forced (r : Retry) (method : string) (resp : Response) :
  _is_method_retryable r method = true ->
  mem_Z (status_code resp) (status_forcelist r) = true ->
  1 <= total r ->
  retry_after resp = None ->
  next r method (Responded resp)
  = Again (with_attempt r (Some (status_code resp)))
      (sleep_delay (with_attempt r (Some (status_code resp))) (Some resp)).
Proof.
  intros Hm Hf Ht Hra. unfold next, is_retry. rewrite Hm, Hf. cbn [negb].
  destruct (status_forcelist r) as [| x l]; [discriminate Hf |].
  cbn [andb increment]. unfold is_exhausted. cbn [with_attempt total].
  destruct (Z.eqb_spec (total r - 1) 0);
    [now rewrite (sleep_fails_without_header _ resp Hra) |].
  destruct (Z.ltb_spec (total r - 1) 0); [lia |].
  now rewrite (sleep_fails_without_header _ resp Hra).
Qed.

Lemma next_final (r : Retry) (method : string) (resp : Response) :
  is_retry r method (status_code resp) (has_retry_after resp) = false ->
  next r method (Responded resp) = Stop (Ok resp).
Proof. intros H. unfold next. now rewrite H. Qed.

Lemma method_retryable (c : call) :
  verb c <> "POST" -> _is_method_retryable retries (verb c) = true.
Proof. destruct c; cbn [verb]; intros H; try reflexivity. now elim H. Qed.

(** The session's policy after [n] failures with status 503. *)
Definition retries_after_503 (n : nat) : Retry :=
  Nat.iter n (fun r => with_attempt r (Some 503)) retries.

(** 503, 503, 200: three attempts, and the last response is returned. *)
Lemma transport_flaky (c : call) (h : list (string * string)) (w : World)
      (r1 r2 r3 : Response) :
  let rq := request_of c h in
  let n0 := List.length (sent w) in
  prefix "https://" (call_url c) = true ->
  verb c <> "POST" ->
  upstream w n0 rq = Responded r1 -> status_code r1 = 503 ->
  retry_after r1 = None ->
  upstream w (n0 + 1)%nat rq = Responded r2 -> status_code r2 = 503 ->
  retry_after r2 = None ->
  upstream w (n0 + 2)%nat rq = Responded r3 -> status_code r3 = 200 ->
  transport c h w
  = (Ok r3,
     log_attempt rq
       (log_sleep (sleep_delay (retries_after_503 2) (Some r2))
          (log_attempt rq
             (log_sleep (sleep_delay (retries_after_503 1) (Some r1))
                (log_attempt rq w))))).
Proof.
  intros rq n0 Hurl Hverb U1 S1 A1 U2 S2 A2 U3 S3.
  pose proof (method_retryable c Hverb) as Hm.
  rewrite transport_https by exact Hurl.
  unfold HTTPAdapter_send, try_except.
  change recursion_limit with (S (S (S 997))).
  fold rq.
  rewrite urlopen_step. fold n0. rewrite U1.
  rewrite next_forced;
    [| exact Hm | rewrite S1; reflexivity | cbn; lia | exact A1].
  rewrite S1.
  rewrite urlopen_step.
  destruct (log_sleep_frame (sleep_delay (with_attempt retries (Some 503))
                               (Some r1)) (log_attempt rq w)) as [Eu Es].
  rewrite Eu, Es. cbn [log_attempt upstream sent].
  rewrite length_app. cbn [List.length]. fold n0. rewrite U2.
  rewrite next_forced;
    [| exact Hm | rewrite S2; reflexivity | cbn; lia | exact A2].
  rewrite S2.
  rewrite urlopen_step.
  match goal with
  | |- context [log_sleep ?d (log_attempt rq (log_sleep ?d' (log_attempt rq w)))] =>
      destruct (log_sleep_frame d
                  (log_attempt rq (log_sleep d' (log_attempt rq w))))
        as [Eu2 Es2]
  end.
  rewrite Eu2, Es2. cbn [log_attempt upstream sent]. rewrite Eu, Es.
  cbn [log_attempt upstream sent].
  rewrite !length_app. cbn [List.length]. fold n0.
  replace (n0 + 1 + 1)%nat with (n0 + 2)%nat by lia.
  rewrite U3.
  rewrite next_final.
  - reflexivity.
  - rewrite S3. clear - Hverb. subst rq.
    destruct c; try (now elim Hverb);
      unfold is_retry; cbn; destruct (has_retry_after r3); reflexivity.
Qed.

Lemma claimed_delays (m : nat) :
  (m <= 3)%nat ->
  Forall2 Qeq (firstn (m - 1) [(6 # 10)%Q; (12 # 10)%Q])
    (firstn (S m - 2) [claimed_backoff 2; claimed_backoff 3]).
Proof.
  intros H. destruct m as [| [| [| [| m]]]]; try lia; cbn [Nat.sub firstn];
    repeat constructor; reflexivity.
Qed.

(** C2, as the code has it: when no response redirects, a call makes at
    most four attempts, the first and up to three retries.  An attempt is followed by another one only
    if the connection failed, or the method is not POST and either the
    read failed, or the status is one of 429, 500, 502, 503, 504, or the
    status is one of 413, 429, 503 and the response has a Retry-After
    header.  When no response has that header, nothing is slept after the
    first failure and [0.3 * 2^(n-1)] seconds after the [n]-th one for [n]
    = 2, 3.  Against 503, 503, 200 a call other than POST returns the
    decoded body of the third response after exactly three attempts and
    one sleep of 0.6 seconds. *)
Theorem C2_retry_policy
  (KEY_ID PRIVATE_KEY_BASE64 : option string)
  (ed25519_sign : string -> string -> string) (c : call) (w : World) :
  let run := exec KEY_ID PRIVATE_KEY_BASE64 ed25519_sign c w in
  let n0 := List.length (sent w) in
  no_redirect w ->
  (exists (k : nat) (rq : Request),
     (k <= 4)%nat
     /\ req_method rq = verb c
     /\ sent (snd run) = app (sent w) (repeat rq k)
     /\ (forall j, (S j < k)%nat ->
           retry_condition (verb c) (upstream w (n0 + j)%nat rq))
     /\ ((forall j, no_retry_after (upstream w (n0 + j)%nat rq)) ->
         exists delays,
           slept (snd run) = app (slept w) delays
           /\ Forall2 Qeq delays
                (firstn (k - 2) [claimed_backoff 2; claimed_backoff 3])))
  /\ (forall h w1 r1 r2 r3 v,
        headers_for KEY_ID PRIVATE_KEY_BASE64 ed25519_sign c w = (Ok h, w1) ->
        prefix "https://" (call_url c) = true ->
        verb c <> "POST" ->
        upstream w n0 (request_of c h) = Responded r1 ->
        status_code r1 = 503 -> retry_after r1 = None ->
        upstream w (n0 + 1)%nat (request_of c h) = Responded r2 ->
        status_code r2 = 503 -> retry_after r2 = None ->
        upstream w (n0 + 2)%nat (request_of c h) = Responded r3 ->
        status_code r3 = 200 -> json_body r3 = Some v ->
        fst run = Ok v
        /\ sent (snd run) = app (sent w) (repeat (request_of c h) 3)
        /\ exists d, slept (snd run) = app (slept w) [d]
                     /\ Qeq d (claimed_backoff 2)).
Proof.
  cbv zeta. intros _. split.
  - pose proof (exec_trace KEY_ID PRIVATE_KEY_BASE64 ed25519_sign c w) as T.
    cbv zeta in T.
    destruct (headers_for KEY_ID PRIVATE_KEY_BASE64 ed25519_sign c w)
      as [[h | e] w1].
    + destruct T as [[Es El] | (r & m & Hr & Hm & Es & El & Hf)].
      * exists 0%nat, (request_of c h). rewrite Es, El.
        split; [lia |]. split; [reflexivity |].
        split; [now rewrite app_nil_r |]. split; [intros; lia |].
        intros _. exists []. split; [now rewrite app_nil_r | constructor].
      * exists (S m), (request_of c h).
        destruct Hr as [-> | ->].
        -- change (Z.to_nat (total retries)) with 3%nat in Hm.
           split; [lia |]. split; [reflexivity |]. split; [exact Es |].
           split.
           ++ intros j Hj. apply may_retry_condition.
              apply (outcomes_nth _ _ _ _ _ Hf j). lia.
           ++ intros Hn. eexists. split; [exact El |].
              rewrite delays_without_retry_after.
              ** rewrite outcomes_length. now apply claimed_delays.
              ** rewrite outcomes_length. exact Hm.
              ** now apply outcomes_Forall.
        -- change (Z.to_nat (total Retry_default)) with 0%nat in Hm.
           assert (m = 0)%nat by lia. subst m.
           split; [lia |]. split; [reflexivity |]. split; [exact Es |].
           split; [intros; lia |].
           intros _. exists []. split; [exact El | constructor].
    + destruct T as [Es El].
      exists 0%nat, (request_of c []). rewrite Es, El.
      split; [lia |]. split; [reflexivity |].
      split; [now rewrite app_nil_r |]. split; [intros; lia |].
      intros _. exists []. split; [now rewrite app_nil_r | constructor].
  - intros h w1 r1 r2 r3 v Hh Hurl Hverb U1 S1 A1 U2 S2 A2 U3 S3 Hv.
    rewrite exec_run, Hh.
    pose proof (headers_frame KEY_ID PRIVATE_KEY_BASE64 ed25519_sign c w)
      as (Hu & Hs & Hl).
    cbv zeta in Hu, Hs, Hl. rewrite Hh in Hu, Hs, Hl.
    cbn [fst snd] in Hu, Hs, Hl.
    rewrite (transport_flaky c h w1 r1 r2 r3); rewrite ?Hu, ?Hs; auto.
    cbn [fst snd]. split; [| split].
    + unfold normalise, is_error_status. now rewrite S3, Hv.
    + match goal with
      | |- context [log_sleep ?d2 (log_attempt ?rq (log_sleep ?d1 ?x))] =>
          destruct (log_sleep_frame d2 (log_attempt rq (log_sleep d1 x)))
            as [_ E2];
          destruct (log_sleep_frame d1 x) as [_ E1]
      end.
      cbn [log_attempt sent]. rewrite E2. cbn [log_attempt sent].
      rewrite E1. cbn [log_attempt sent repeat].
      rewrite Hs, <- !app_assoc. reflexivity.
    + unfold sleep_delay, header_delay, get_retry_after. rewrite A1, A2.
      exists (6 # 10)%Q. split; [| reflexivity].
      cbn. now rewrite Hl.
Qed.

Lemma C2_witness :
  fst (exec None None Fixtures.demo_sign
         (Get Fixtures.time_url "/api/v3/brokerage/time" None true)
         (Fixtures.world_with Fixtures.flaky_then_ok))
  = Ok (VDict []).
Proof.
  refine (proj1 (proj2
    (C2_retry_policy None None Fixtures.demo_sign
       (Get Fixtures.time_url "/api/v3/brokerage/time" None true)
       (Fixtures.world_with Fixtures.flaky_then_ok) flaky_no_redirect)
    _public_headers (Fixtures.world_with Fixtures.flaky_then_ok)
    _ _ _ (VDict [])
    eq_refl eq_refl _ eq_refl eq_refl eq_refl eq_refl eq_refl eq_refl
    eq_refl eq_refl eq_refl)).
  discriminate.
Defined.

(** Against a service that always answers 503, a GET makes a fourth
    attempt. *)
Lemma C2_counterexample :
  List.length
    (sent (snd (_get None None Fixtures.demo_sign Fixtures.time_url
                  "/api/v3/brokerage/time" None true
                  (Fixtures.world_with
                     (Fixtures.always 503 "unavailable" None)))))
  = 4%nat.
Proof. vm_compute. reflexivity. Qed.

(** *** Statuses that are not retried *)

Lemma client_error_not_retried (c : call) (resp : Response) :
  400 <= status_code resp < 500 ->
  status_code resp <> 429 ->
  (status_code resp = 413 -> retry_after resp = None \/ verb c = "POST") ->
  is_retry retries (verb c) (status_code resp) (has_retry_after resp) = false.
Proof.
  intros Hst H429 H413. unfold is_retry.
  destruct (_is_method_retryable retries (verb c)) eqn:Hm; [| reflexivity].
  cbn [negb].
  assert (F : mem_Z (status_code resp) (status_forcelist retries) = false).
  { unfold mem_Z. cbn [status_forcelist retries Retry_new existsb].
    repeat match goal with
           | |- context [Z.eqb ?a ?b] => destruct (Z.eqb_spec a b); [lia |]
           end.
    reflexivity. }
  rewrite F. cbn [status_forcelist retries Retry_new andb].
  destruct (Z.eq_dec (status_code resp) 413) as [E | E].
  - destruct (H413 E) as [Hra | Hp].
    + unfold has_retry_after. rewrite Hra.
      now rewrite andb_false_r.
    + rewrite Hp in Hm. discriminate Hm.
  - assert (G : mem_Z (status_code resp) RETRY_AFTER_STATUS_CODES = false).
    { unfold mem_Z. cbn [RETRY_AFTER_STATUS_CODES existsb].
      repeat match goal with
             | |- context [Z.eqb ?a ?b] => destruct (Z.eqb_spec a b); [lia |]
             end.
      reflexivity. }
    rewrite G. now rewrite andb_false_r.
Qed.

(** C3, as the code has it: when the first response to a call has a 4xx
    status other than 429, and is not a 413 with a Retry-After header
    answering a GET, PUT or DELETE, the call makes exactly one attempt,
    sleeps for nothing and returns the error record of that response. *)
Theorem C3_client_error_single_attempt
  (KEY_ID PRIVATE_KEY_BASE64 : option string)
  (ed25519_sign : string -> string -> string) (c : call) (w w1 : World)
  (h : list (string * string)) (resp : Response) :
  let run := exec KEY_ID PRIVATE_KEY_BASE64 ed25519_sign c w in
  headers_for KEY_ID PRIVATE_KEY_BASE64 ed25519_sign c w = (Ok h, w1) ->
  prefix "https://" (call_url c) = true ->
  upstream w (List.length (sent w)) (request_of c h) = Responded resp ->
  400 <= status_code resp < 500 ->
  status_code resp <> 429 ->
  (status_code resp = 413 -> retry_after resp = None \/ verb c = "POST") ->
  sent (snd run) = app (sent w) [request_of c h]
  /\ slept (snd run) = slept w
  /\ fst run = Ok (VDict [("error", VStr (http_error_message resp));
                          ("status_code", VInt (status_code resp));
                          ("body", VStr (text resp))]).
Proof.
  cbv zeta. intros Hh Hurl U Hst H429 H413.
  rewrite exec_run, Hh.
  pose proof (headers_frame KEY_ID PRIVATE_KEY_BASE64 ed25519_sign c w)
    as (Hu & Hs & Hl).
  cbv zeta in Hu, Hs, Hl. rewrite Hh in Hu, Hs, Hl.
  cbn [fst snd] in Hu, Hs, Hl.
  rewrite transport_https by exact Hurl.
  unfold HTTPAdapter_send, try_except.
  change recursion_limit with (S 999).
  rewrite urlopen_step, Hu, Hs, U.
  change (req_method (request_of c h)) with (verb c).
  rewrite next_final by now apply client_error_not_retried.
  cbn [fst snd log_attempt sent slept].
  rewrite Hs, Hl. split; [reflexivity |]. split; [reflexivity |].
  unfold normalise, is_error_status.
  destruct (Z.leb_spec 400 (status_code resp)); [| lia].
  destruct (Z.ltb_spec (status_code resp) 600); [| lia].
  reflexivity.
Qed.

Lemma C3_witness :
  fst (exec None None Fixtures.demo_sign
         (Get Fixtures.time_url "/api/v3/brokerage/time" None true)
         (Fixtures.world_with (Fixtures.always 404 "not found" None)))
  = Ok (VDict [("error",
                VStr "404 Client Error:  for url: https://api.coinbase.com/api/v3/brokerage/time");
               ("status_code", VInt 404); ("body", VStr "not found")])
  /\ List.length
       (sent (snd (exec None None Fixtures.demo_sign
                     (Get Fixtures.time_url "/api/v3/brokerage/time" None true)
                     (Fixtures.world_with
                        (Fixtures.always 404 "not found" None)))))
     = 1%nat.
Proof.
  destruct (C3_client_error_single_attempt None None Fixtures.demo_sign
              (Get Fixtures.time_url "/api/v3/brokerage/time" None true)
              (Fixtures.world_with (Fixtures.always 404 "not found" None))
              (Fixtures.world_with (Fixtures.always 404 "not found" None))
              _public_headers
              {| status_code := 404; reason := "";
                 url := "https://api.coinbase.com/api/v3/brokerage/time";
                 text := "not found"; json_body := None;
                 retry_after := None |}
              eq_refl eq_refl eq_refl)
    as (Hs & _ & Hr).
  - cbn [status_code]. lia.
  - cbn [status_code]. lia.
  - cbn [status_code]. lia.
  - split; [exact Hr |]. rewrite Hs. reflexivity.
Defined.

(** A 413 with a Retry-After header in answer to a GET is retried while
    the policy has attempts left: the error record comes back after four
    attempts and three sleeps of one second. *)
Lemma C3_counterexample :
  List.length
    (sent (snd (_get None None Fixtures.demo_sign Fixtures.time_url
                  "/api/v3/brokerage/time" None true
                  (Fixtures.world_with Fixtures.too_large_retry_after))))
  = 4%nat
  /\ slept (snd (_get None None Fixtures.demo_sign Fixtures.time_url
                   "/api/v3/brokerage/time" None true
                   (Fixtures.world_with Fixtures.too_large_retry_after)))
     = [1%Q; 1%Q; 1%Q].
Proof. vm_compute. split; reflexivity. Qed.

End ClientFacts.


(** ** Pagination *)

Module PaginationFacts.

Import Urllib3 Requests Client RetryFacts ClientFacts.
Local Open Scope Z_scope.

(** The private key decodes to at least 32 bytes, so that minting works. *)
Definition key_ok (private_key : option string) : Prop :=
  exists decoded,
    JwtGenerator.b64decode private_key = Ok decoded
    /\ (32 <= String.length decoded)%nat.

(** How the loop reads a page. *)
Definition items_of (d : dict) : list value :=
  match dict_get "accounts" d with
  | Some (VList l) => l
  | _ => []
  end.

Definition is_page (d : dict) : Prop :=
  dict_get "accounts" d = Some (VList (items_of d)).

Definition field (k : string) (d : dict) : value :=
  match dict_get k d with
  | Some v => v
  | None => VNone
  end.

Definition has_more (d : dict) : bool := truthy (field "has_next" d).

(** The results on which the loop stops: a page that announces no next
    one, or a result without the accounts key. *)
Definition ends (d : dict) : Prop :=
  (is_page d /\ has_more d = false) \/ dict_has "accounts" d = false.

(** The query of a fetch made with the cursor variable holding [cursor]. *)
Definition page_params (limit : Z) (cursor : value) : dict :=
  ("limit", VInt limit)
    :: (if truthy cursor then [("cursor", cursor)] else []).

Fixpoint params_seq (limit : Z) (cursor : value) (pages : list dict)
  : list (option dict) :=
  match pages with
  | [] => []
  | d :: pages' =>
      Some (page_params limit cursor)
        :: params_seq limit (field "cursor" d) pages'
  end.

Definition all_items (pages : list dict) : list value :=
  flat_map items_of pages.

(** Attempt number [n] is answered with status 200 and the page [d],
    whatever is sent. *)
Definition serves (up : nat -> Request -> Attempt) (n : nat) (d : dict)
  : Prop :=
  forall rq, exists resp,
    up n rq = Responded resp
    /\ status_code resp = 200
    /\ json_body resp = Some (VDict d).

Definition accounts_url : string := (BASE_URL ++ "/accounts")%string.
Definition accounts_path : string := "/api/v3/brokerage/accounts".

Section WithKey.

Variables KEY_ID PRIVATE_KEY_BASE64 : option string.
Variable ed25519_sign : string -> string -> string.
Hypothesis Hkey : key_ok PRIVATE_KEY_BASE64.

Lemma private_headers_ok (c : call) (w : World) :
  call_public c = false ->
  exists h w1,
    headers_for KEY_ID PRIVATE_KEY_BASE64 ed25519_sign c w = (Ok h, w1).
Proof.
  intros Hc. unfold headers_for, _headers, bind, ret. rewrite Hc.
  rewrite JwtFacts.build_jwt_run.
  destruct Hkey as (decoded & -> & Hlen).
  unfold JwtGenerator.SigningKey.
  rewrite JwtFacts.take_length by exact Hlen. rewrite Nat.eqb_refl.
  eauto.
Qed.

(** One fetch of a page. *)
Lemma page_fetch (params : option dict) (d : dict) (w : World) :
  serves (upstream w) (List.length (sent w)) d ->
  exists w' rq,
    _get KEY_ID PRIVATE_KEY_BASE64 ed25519_sign accounts_url accounts_path
      params false w = (Ok (VDict d), w')
    /\ upstream w' = upstream w
    /\ sent w' = app (sent w) [rq]
    /\ req_params rq = params.
Proof.
  intros Hserve.
  set (c := Get accounts_url accounts_path params false).
  change (_get KEY_ID PRIVATE_KEY_BASE64 ed25519_sign accounts_url
            accounts_path params false)
    with (exec KEY_ID PRIVATE_KEY_BASE64 ed25519_sign c).
  destruct (private_headers_ok c w eq_refl) as (h & w1 & Hh).
  pose proof (headers_frame KEY_ID PRIVATE_KEY_BASE64 ed25519_sign c w)
    as (Hu & Hs & _).
  cbv zeta in Hu, Hs. rewrite Hh in Hu, Hs. cbn [fst snd] in Hu, Hs.
  destruct (Hserve (request_of c h)) as (resp & U & Hst & Hv).
  rewrite exec_run, Hh.
  rewrite transport_https by reflexivity.
  unfold HTTPAdapter_send, try_except.
  change recursion_limit with (S 999).
  rewrite urlopen_step, Hu, Hs, U.
  rewrite next_final.
  - exists (log_attempt (request_of c h) w1), (request_of c h).
    cbn [fst snd log_attempt upstream sent].
    unfold normalise, is_error_status. rewrite Hst, Hv, Hs.
    repeat split. exact Hu.
  - rewrite Hst. unfold is_retry. cbn.
    destruct (has_retry_after resp); reflexivity.
Qed.

(** One turn of the loop on a page. *)
Lemma loop_turn (fuel : nat) (limit : Z) (acc : list value) (cursor : value)
      (d : dict) (w : World) :
  serves (upstream w) (List.length (sent w)) d ->
  is_page d ->
  exists w' rq,
    upstream w' = upstream w
    /\ sent w' = app (sent w) [rq]
    /\ req_params rq = Some (page_params limit cursor)
    /\ list_accounts_loop KEY_ID PRIVATE_KEY_BASE64 ed25519_sign (S fuel)
         limit accounts_url accounts_path acc cursor w
       = if has_more d
         then list_accounts_loop KEY_ID PRIVATE_KEY_BASE64 ed25519_sign fuel
                limit accounts_url accounts_path (acc ++ items_of d)%list
                (field "cursor" d) w'
         else (Ok (Some (VDict [("accounts",
                                 VList (acc ++ items_of d)%list)])), w').
Proof.
  intros Hserve Hpage.
  destruct (page_fetch (Some (page_params limit cursor)) d w Hserve)
    as (w' & rq & Hget & Hu & Hs & Hp).
  exists w', rq. do 3 (split; [assumption |]).
  cbn [list_accounts_loop]. unfold bind at 1.
  match goal with
  | |- context [_get ?x1 ?x2 ?x3 ?x4 ?x5 ?x6 ?x7 ?x8] =>
      replace (_get x1 x2 x3 x4 x5 x6 x7 x8) with (Ok (VDict d), w')
        by (symmetry; exact Hget)
  end.
  unfold bind, lift, py_in, py_getitem, py_get, dict_has.
  unfold is_page in Hpage. rewrite Hpage. cbn [py_iter].
  unfold has_more, field.
  destruct (dict_get "cursor" d); destruct (dict_get "has_next" d) as [hn |];
    cbn [truthy negb]; try reflexivity;
    destruct (truthy hn); reflexivity.
Qed.

(** One turn of the loop on a result without the accounts key. *)
Lemma loop_turn_bare (fuel : nat) (limit : Z) (acc : list value)
      (cursor : value) (d : dict) (w : World) :
  serves (upstream w) (List.length (sent w)) d ->
  dict_has "accounts" d = false ->
  exists w' rq,
    upstream w' = upstream w
    /\ sent w' = app (sent w) [rq]
    /\ req_params rq = Some (page_params limit cursor)
    /\ list_accounts_loop KEY_ID PRIVATE_KEY_BASE64 ed25519_sign (S fuel)
         limit accounts_url accounts_path acc cursor w
       = (Ok (Some (VDict [("accounts", VList acc)])), w').
Proof.
  intros Hserve Hbare.
  destruct (page_fetch (Some (page_params limit cursor)) d w Hserve)
    as (w' & rq & Hget & Hu & Hs & Hp).
  exists w', rq. do 3 (split; [assumption |]).
  cbn [list_accounts_loop]. unfold bind at 1.
  match goal with
  | |- context [_get ?x1 ?x2 ?x3 ?x4 ?x5 ?x6 ?x7 ?x8] =>
      replace (_get x1 x2 x3 x4 x5 x6 x7 x8) with (Ok (VDict d), w')
        by (symmetry; exact Hget)
  end.
  unfold bind, lift, py_in. rewrite Hbare. reflexivity.
Qed.

Lemma items_of_bare (d : dict) :
  dict_has "accounts" d = false -> items_of d = [].
Proof.
  unfold dict_has, items_of.
  destruct (dict_get "accounts" d); [discriminate | reflexivity].
Qed.

(** One turn of the loop on a result on which it stops. *)
Lemma loop_last (fuel : nat) (limit : Z) (acc : list value) (cursor : value)
      (d : dict) (w : World) :
  serves (upstream w) (List.length (sent w)) d ->
  ends d ->
  exists w' rq,
    upstream w' = upstream w
    /\ sent w' = app (sent w) [rq]
    /\ req_params rq = Some (page_params limit cursor)
    /\ list_accounts_loop KEY_ID PRIVATE_KEY_BASE64 ed25519_sign (S fuel)
         limit accounts_url accounts_path acc cursor w
       = (Ok (Some (VDict [("accounts", VList (acc ++ items_of d)%list)])),
          w').
Proof.
  intros Hserve [[Hpage Hstop] | Hbare].
  - destruct (loop_turn fuel limit acc cursor d w Hserve Hpage)
      as (w' & rq & Hu & Hs & Hp & Hrun).
    rewrite Hstop in Hrun. exists w', rq. auto.
  - destruct (loop_turn_bare fuel limit acc cursor d w Hserve Hbare)
      as (w' & rq & Hu & Hs & Hp & Hrun).
    rewrite (items_of_bare d Hbare), app_nil_r.
    exists w', rq. auto.
Qed.

(** The loop over a finite run of results of which only the last one
    makes it stop. *)
Lemma loop_pages (limit : Z) (pages : list dict) (last : dict) :
  forall (fuel : nat) (acc : list value) (cursor : value) (w : World),
    (List.length pages < fuel)%nat ->
    Forall (fun d => is_page d /\ has_more d = true) pages ->
    ends last ->
    (forall i d, nth_error (pages ++ [last]) i = Some d ->
                 serves (upstream w) (List.length (sent w) + i) d) ->
    exists w' rqs,
      list_accounts_loop KEY_ID PRIVATE_KEY_BASE64 ed25519_sign fuel limit
        accounts_url accounts_path acc cursor w
      = (Ok (Some (VDict [("accounts",
                           VList (acc ++ all_items (pages ++ [last]))%list)])),
         w')
      /\ upstream w' = upstream w
      /\ sent w' = app (sent w) rqs
      /\ List.map req_params rqs = params_seq limit cursor (pages ++ [last]).
Proof.
  induction pages as [| d pages IH];
    intros fuel acc cursor w Hfuel Hpages Hlast Hserve;
    (destruct fuel as [| fuel]; [cbn in Hfuel; lia |]).
  - specialize (Hserve 0%nat last eq_refl). rewrite Nat.add_0_r in Hserve.
    destruct (loop_last fuel limit acc cursor last w Hserve Hlast)
      as (w' & rq & Hu & Hs & Hp & Hrun).
    exists w', [rq]. cbn [app all_items flat_map params_seq List.map].
    rewrite app_nil_r, Hp. auto.
  - inversion Hpages as [| ? ? [Hd Hmore] Hrest]; subst.
    pose proof (Hserve 0%nat d eq_refl) as Hserve0.
    rewrite Nat.add_0_r in Hserve0.
    destruct (loop_turn fuel limit acc cursor d w Hserve0 Hd)
      as (w1 & rq & Hu & Hs & Hp & Hrun).
    rewrite Hmore in Hrun.
    destruct (IH fuel (acc ++ items_of d)%list (field "cursor" d) w1)
      as (w' & rqs & Hloop & Hu' & Hs' & Hp'); try assumption.
    + cbn in Hfuel. lia.
    + intros i d' Hi. rewrite Hu, Hs, length_app. cbn [List.length].
      replace (List.length (sent w) + 1 + i)%nat
        with (List.length (sent w) + S i)%nat by lia.
      apply Hserve. exact Hi.
    + exists w', (rq :: rqs). rewrite Hrun, Hloop.
      cbn [app all_items flat_map params_seq List.map].
      rewrite <- app_assoc, Hp, Hp', Hu', Hu, Hs', Hs, <- app_assoc.
      auto.
Qed.

(** The loop against a service whose pages all announce a next one: after
    [fuel] turns it has fetched [fuel] pages and has not returned. *)
Lemma loop_endless (limit : Z) (page : nat -> dict) :
  forall (fuel : nat) (acc : list value) (cursor : value) (w : World),
    (forall n, serves (upstream w) n (page n)
               /\ is_page (page n) /\ has_more (page n) = true) ->
    exists w',
      list_accounts_loop KEY_ID PRIVATE_KEY_BASE64 ed25519_sign fuel limit
        accounts_url accounts_path acc cursor w = (Ok None, w')
      /\ List.length (sent w') = (List.length (sent w) + fuel)%nat.
Proof.
  induction fuel as [| fuel IH]; intros acc cursor w Hup.
  - exists w. split; [reflexivity | lia].
  - destruct (Hup (List.length (sent w))) as (Hserve & Hpage & Hmore).
    destruct (loop_turn fuel limit acc cursor _ w Hserve Hpage)
      as (w1 & rq & Hu & Hs & _ & Hrun).
    rewrite Hmore in Hrun.
    destruct (IH (acc ++ items_of (page (List.length (sent w))))%list
                (field "cursor" (page (List.length (sent w)))) w1)
      as (w' & Hloop & Hlen).
    + now rewrite Hu.
    + exists w'. rewrite Hrun, Hloop. split; [reflexivity |].
      rewrite Hlen, Hs, length_app. cbn [List.length]. lia.
Qed.

End WithKey.

Lemma list_accounts_eq
  (KEY_ID PRIVATE_KEY_BASE64 : option string)
  (ed25519_sign : string -> string -> string) (fuel : nat) (limit : Z) :
  list_accounts KEY_ID PRIVATE_KEY_BASE64 ed25519_sign fuel limit
  = list_accounts_loop KEY_ID PRIVATE_KEY_BASE64 ed25519_sign fuel limit
      accounts_url accounts_path [] VNone.
Proof. reflexivity. Qed.

(** C7, as the code has it: the pages are JSON objects with the keys
    accounts, cursor and has_next.  Against results that are served in
    order, of which every one but the last is a page that announces a next
    one, [list_accounts] makes one fetch per result, the first without a
    cursor and each later one with the cursor of the page before it, and
    returns the accounts of all pages in the order of arrival.  It stops at
    the first page whose has_next is false, null or absent, and also at
    the first result without the accounts key, whatever its has_next. *)
Theorem C7_pagination
  (KEY_ID PRIVATE_KEY_BASE64 : option string)
  (ed25519_sign : string -> string -> string)
  (limit : Z) (pages : list dict) (last : dict) (fuel : nat) (w : World) :
  key_ok PRIVATE_KEY_BASE64 ->
  (List.length pages < fuel)%nat ->
  Forall (fun d => is_page d /\ has_more d = true) pages ->
  ends last ->
  (forall i d, nth_error (pages ++ [last]) i = Some d ->
               serves (upstream w) (List.length (sent w) + i) d) ->
  exists w' rqs,
    list_accounts KEY_ID PRIVATE_KEY_BASE64 ed25519_sign fuel limit w
    = (Ok (Some (VDict [("accounts", VList (all_items (pages ++ [last])))])),
       w')
    /\ sent w' = app (sent w) rqs
    /\ List.length rqs = S (List.length pages)
    /\ List.map req_params rqs = params_seq limit VNone (pages ++ [last])
    /\ hd_error (List.map req_params rqs) = Some (Some [("limit", VInt limit)]).
Proof.
  intros Hkey Hfuel Hpages Hlast Hserve.
  destruct (loop_pages KEY_ID PRIVATE_KEY_BASE64 ed25519_sign Hkey limit
              pages last fuel [] VNone w Hfuel Hpages Hlast Hserve)
    as (w' & rqs & Hrun & _ & Hs & Hp).
  exists w', rqs. rewrite list_accounts_eq.
  split; [exact Hrun |]. split; [exact Hs |].
  split; [| split; [exact Hp |]].
  - rewrite <- (length_map req_params), Hp.
    clear. generalize VNone.
    induction pages as [| d pages IH]; intros cursor; cbn; [reflexivity |].
    now rewrite IH.
  - rewrite Hp. destruct pages; reflexivity.
Qed.

Lemma demo_key_ok : key_ok (Some Fixtures.demo_key).
Proof.
  exists "0123456789abcdef0123456789abcdefEXTRAEXTRA"%string.
  split; [vm_compute; reflexivity | apply Nat.leb_le; vm_compute; reflexivity].
Qed.

(** The two-page example: [1, 2] then [3] gives [1, 2, 3] after two
    fetches. *)
Lemma C7_witness :
  exists w',
    list_accounts (Some "abc") (Some Fixtures.demo_key) Fixtures.demo_sign
      2 100 (Fixtures.world_with Fixtures.two_pages)
    = (Ok (Some (VDict [("accounts", VList [VInt 1; VInt 2; VInt 3])])), w')
    /\ List.length (sent w') = 2%nat.
Proof.
  destruct (C7_pagination (Some "abc") (Some Fixtures.demo_key)
              Fixtures.demo_sign 100 [Fixtures.page1] Fixtures.page2 2
              (Fixtures.world_with Fixtures.two_pages))
    as (w' & rqs & Hrun & Hs & Hl & _).
  - exact demo_key_ok.
  - cbn. lia.
  - constructor; [split; reflexivity | constructor].
  - left. split; reflexivity.
  - intros i d Hi rq.
    destruct i as [| [| i]]; cbn in Hi;
      [injection Hi as <- | injection Hi as <- | destruct i; discriminate];
      eexists; repeat split.
  - exists w'. split; [exact Hrun |].
    rewrite Hs, length_app, Hl. reflexivity.
Defined.

(** Under the keys items and next_cursor the two pages give no account
    after one fetch; and a result without accounts stops the loop although
    its has_next is true, so that [1, 2], such a result and [3] give
    [1, 2] after two fetches. *)
Lemma C7_counterexample :
  (let run :=
     list_accounts (Some "abc") (Some Fixtures.demo_key) Fixtures.demo_sign
       5 100 (Fixtures.world_with Fixtures.two_items_pages) in
   fst run = Ok (Some (VDict [("accounts", VList [])]))
   /\ List.length (sent (snd run)) = 1%nat)
  /\ (let run :=
        list_accounts (Some "abc") (Some Fixtures.demo_key) Fixtures.demo_sign
          5 100 (Fixtures.world_with Fixtures.interrupted_pages) in
      has_more Fixtures.bare_page = true
      /\ fst run = Ok (Some (VDict [("accounts", VList [VInt 1; VInt 2])]))
      /\ List.length (sent (snd run)) = 2%nat).
Proof. vm_compute. repeat split. Qed.

(** C8, as the code has it: the loop has no page limit.  While every page
    announces a next one the loop keeps fetching: for every [n], after [n]
    turns it has made [n] fetches and has not returned. *)
Theorem C8_no_page_limit
  (KEY_ID PRIVATE_KEY_BASE64 : option string)
  (ed25519_sign : string -> string -> string)
  (limit : Z) (page : nat -> dict) (w : World) :
  key_ok PRIVATE_KEY_BASE64 ->
  (forall n, serves (upstream w) n (page n)
             /\ is_page (page n) /\ has_more (page n) = true) ->
  forall fuel : nat,
  exists w',
    list_accounts KEY_ID PRIVATE_KEY_BASE64 ed25519_sign fuel limit w
    = (Ok None, w')
    /\ List.length (sent w') = (List.length (sent w) + fuel)%nat.
Proof.
  intros Hkey Hup fuel. rewrite list_accounts_eq.
  apply (loop_endless KEY_ID PRIVATE_KEY_BASE64 ed25519_sign Hkey limit page
           fuel [] VNone w Hup).
Qed.

Lemma endless_serves (n : nat) :
  serves (upstream (Fixtures.world_with Fixtures.endless)) n
    (Fixtures.endless_page n)
  /\ is_page (Fixtures.endless_page n)
  /\ has_more (Fixtures.endless_page n) = true.
Proof.
  split; [| split; reflexivity].
  intros rq. eexists. repeat split.
Qed.

Lemma C8_witness :
  exists w',
    list_accounts (Some "abc") (Some Fixtures.demo_key) Fixtures.demo_sign
      101 100 (Fixtures.world_with Fixtures.endless) = (Ok None, w')
    /\ List.length (sent w') = 101%nat.
Proof.
  apply (C8_no_page_limit (Some "abc") (Some Fixtures.demo_key)
           Fixtures.demo_sign 100 Fixtures.endless_page
           (Fixtures.world_with Fixtures.endless) demo_key_ok endless_serves
           101%nat).
Defined.

(** No number of pages bounds the fetches of [list_accounts] against a
    service whose every page announces a next one. *)
Lemma C8_counterexample :
  ~ exists max_pages : nat,
      forall fuel : nat,
        (List.length
           (sent (snd (list_accounts (Some "abc") (Some Fixtures.demo_key)
                         Fixtures.demo_sign fuel 100
                         (Fixtures.world_with Fixtures.endless))))
         <= max_pages)%nat.
Proof.
  intros [max_pages H]. specialize (H (S max_pages)).
  destruct (loop_endless (Some "abc") (Some Fixtures.demo_key)
              Fixtures.demo_sign demo_key_ok 100 Fixtures.endless_page
              (S max_pages) [] VNone (Fixtures.world_with Fixtures.endless)
              endless_serves) as (w' & Hrun & Hlen).
  rewrite list_accounts_eq, Hrun in H. cbn [snd] in H.
  assert (Hlen' : List.length (sent w') = S max_pages)
    by (rewrite Hlen; reflexivity).
  lia.
Qed.

End PaginationFacts.


(** * Further properties of the token minter *)

Module MintExtras.

Import JwtGenerator Base64Facts JwtFacts.

Lemma upper_char_idempotent (c : ascii) :
  Bytes.upper_char (Bytes.upper_char c) = Bytes.upper_char c.
Proof. destruct c as [[] [] [] [] [] [] [] []]; reflexivity. Qed.

Lemma upper_idempotent (s : string) : Bytes.upper (Bytes.upper s) = Bytes.upper s.
Proof.
  induction s as [| c s IH]; [reflexivity |].
  cbn [Bytes.upper Bytes.map]. unfold Bytes.upper in IH.
  now rewrite upper_char_idempotent, IH.
Qed.

(** The method is case-insensitive: a call with a method and a call with
    the same method in upper case mint the same token and have the same
    effects. *)
Theorem build_jwt_method_case
  (KEY_ID PRIVATE_KEY_BASE64 : option string)
  (ed25519_sign : string -> string -> string)
  (method path host : string) (w : World) :
  build_jwt KEY_ID PRIVATE_KEY_BASE64 ed25519_sign (Bytes.upper method)
    path host w
  = build_jwt KEY_ID PRIVATE_KEY_BASE64 ed25519_sign method path host w.
Proof. rewrite !build_jwt_run, upper_idempotent. reflexivity. Qed.

Definition is_hex_char (c : ascii) : bool :=
  let n := nat_of_ascii c in
  ((48 <=? n) && (n <=? 57) || (97 <=? n) && (n <=? 102))%nat.

Lemma hex_digit_is_hex (n : N) : (n < 16)%N ->
  is_hex_char (Bytes.hex_digit n) = true.
Proof.
  intros H.
  destruct n as [| [[[[| |] | [| |] |] | [[| |] | [| |] |] |]
                   | [[[| |] | [| |] |] | [[| |] | [| |] |] |] |]];
    try reflexivity; lia.
Qed.

Lemma hex_shape (s : string) :
  String.length (Bytes.hex s) = (2 * String.length s)%nat
  /\ Bytes.all_chars is_hex_char (Bytes.hex s) = true.
Proof.
  induction s as [| c s [IHl IHc]]; [split; reflexivity |].
  cbn [Bytes.hex String.length Bytes.all_chars].
  pose proof (byte_bound c).
  rewrite !hex_digit_is_hex, IHc, IHl by (zify; lia).
  split; [lia | reflexivity].
Qed.

(** The nonce of a token is 32 lower-case hexadecimal characters, drawn
    from the 16 bytes of entropy that follow those already used; two mints
    in a row therefore read disjoint bytes. *)
Theorem build_jwt_nonce
  (KEY_ID PRIVATE_KEY_BASE64 : option string)
  (ed25519_sign : string -> string -> string)
  (method path host : string) (w w' : World) (token : string) :
  build_jwt KEY_ID PRIVATE_KEY_BASE64 ed25519_sign method path host w
    = (Ok token, w') ->
  exists nonce rest,
    nonce = Bytes.hex (read_entropy (urandom w) (entropy_used w) 16)
    /\ String.length nonce = 32%nat
    /\ Bytes.all_chars is_hex_char nonce = true
    /\ Base64.urlsafe_decode_nopad (hd EmptyString (Bytes.split_on "." token))
       = Some (Json.dumps (header_of KEY_ID nonce))
    /\ token = (base64url_encode (Json.dumps (header_of KEY_ID nonce))
                  ++ "." ++ rest)%string
    /\ entropy_used w' = (entropy_used w + 16)%nat
    /\ urandom w' = urandom w.
Proof.
  rewrite build_jwt_run.
  destruct (b64decode PRIVATE_KEY_BASE64) as [decoded | e]; [| discriminate].
  destruct (SigningKey (Bytes.take 32 decoded)) as [seed | e];
    [| discriminate].
  intros H. injection H as <- <-.
  destruct (hex_shape (read_entropy (urandom w) (entropy_used w) 16))
    as [Hl Hc].
  rewrite read_entropy_length in Hl.
  eexists _, _. split; [reflexivity |]. split; [exact Hl |].
  split; [exact Hc |]. split; [| split; [reflexivity | split; reflexivity]].
  match goal with
  | |- context [Bytes.split_on "." ?t] =>
      replace (Bytes.split_on "." t)
        with [base64url_encode
                (Json.dumps
                   (header_of KEY_ID
                      (Bytes.hex
                         (read_entropy (urandom w) (entropy_used w) 16))));
              base64url_encode
                (Json.dumps
                   (payload_of KEY_ID (clock w)
                      (Bytes.upper method ++ " " ++ host ++ path)%string));
              base64url_encode
                (ed25519_sign seed
                   (base64url_encode
                      (Json.dumps
                         (header_of KEY_ID
                            (Bytes.hex
                               (read_entropy (urandom w) (entropy_used w) 16))))
                    ++ "."
                    ++ base64url_encode
                         (Json.dumps
                            (payload_of KEY_ID (clock w)
                               (Bytes.upper method ++ " " ++ host ++ path))))%string)]
        by (symmetry; apply split_token; apply base64url_digits)
  end.
  cbn [hd]. apply base64url_roundtrip.
Qed.

Lemma build_jwt_nonce_witness :
  exists token w' nonce rest,
    build_jwt (Some "abc") (Some Fixtures.demo_key) Fixtures.demo_sign
      "GET" "/x" default_host Fixtures.demo_world = (Ok token, w')
    /\ String.length nonce = 32%nat
    /\ token = (base64url_encode (Json.dumps (header_of (Some "abc") nonce))
                  ++ "." ++ rest)%string.
Proof.
  eassert (H : build_jwt (Some "abc") (Some Fixtures.demo_key)
                 Fixtures.demo_sign "GET" "/x" default_host
                 Fixtures.demo_world = (Ok _, _))
    by (vm_compute; reflexivity).
  destruct (build_jwt_nonce _ _ _ _ _ _ _ _ _ H)
    as (nonce & rest & _ & Hl & _ & _ & Ht & _).
  eexists _, _, nonce, rest. split; [exact H |]. split; [exact Hl | exact Ht].
Defined.

(** A key provisioned as the standard base64 text of a blob of at least 32
    bytes always mints, and the signature is made with the first 32 bytes
    of that blob over the first two segments joined by a period. *)
Theorem build_jwt_with_encoded_key
  (KEY_ID : option string) (blob : string)
  (ed25519_sign : string -> string -> string)
  (method path host : string) (w : World) :
  (32 <= String.length blob)%nat ->
  exists h p w',
    build_jwt KEY_ID (Some (Base64.b64encode blob)) ed25519_sign
      method path host w
    = (Ok (h ++ "." ++ p ++ "."
             ++ base64url_encode
                  (ed25519_sign (Bytes.take 32 blob) (h ++ "." ++ p)))%string,
       w')
    /\ Base64.urlsafe_decode_nopad h
       = Some (Json.dumps
                 (header_of KEY_ID
                    (Bytes.hex (read_entropy (urandom w) (entropy_used w) 16))))
    /\ Base64.urlsafe_decode_nopad p
       = Some (Json.dumps
                 (payload_of KEY_ID (clock w)
                    (Bytes.upper method ++ " " ++ host ++ path)%string)).
Proof.
  intros Hlen. rewrite build_jwt_run, b64decode_b64encode.
  unfold SigningKey. rewrite take_length by exact Hlen.
  rewrite Nat.eqb_refl.
  eexists _, _, _. split; [reflexivity |].
  split; apply base64url_roundtrip.
Qed.

Lemma build_jwt_with_encoded_key_witness :
  exists h p w',
    build_jwt (Some "abc") (Some Fixtures.demo_key) Fixtures.demo_sign
      "GET" "/x" default_host Fixtures.demo_world
    = (Ok (h ++ "." ++ p ++ "."
             ++ base64url_encode
                  (Fixtures.demo_sign "0123456789abcdef0123456789abcdef"
                     (h ++ "." ++ p)))%string, w').
Proof.
  destruct (build_jwt_with_encoded_key (Some "abc")
              "0123456789abcdef0123456789abcdefEXTRAEXTRA"
              Fixtures.demo_sign "GET" "/x" default_host Fixtures.demo_world)
    as (h & p & w' & H & _).
  - apply Nat.leb_le. vm_compute. reflexivity.
  - exists h, p, w'. exact H.
Defined.

End MintExtras.


(** * Further properties of the request layer *)

Module ClientExtras.

Import Urllib3 Requests Client RetryFacts ClientFacts.
Local Open Scope Z_scope.

(** A send leaves standard output, the entropy and the clock alone. *)
Lemma transport_frame (c : call) (h : list (string * string)) (w : World) :
  stdout (snd (transport c h w)) = stdout w
  /\ entropy_used (snd (transport c h w)) = entropy_used w
  /\ clock (snd (transport c h w)) = clock w.
Proof.
  destruct (transport_run c h w) as [(_ & _ & E) | (r & m & _ & _ & S)].
  - rewrite E. repeat split.
  - destruct S as (_ & -> & _). repeat split.
Qed.

(** Public requests need no credentials: the key-id, the private key, the
    signature function and the [path] argument have no influence on a
    public [_get], which mints nothing, prints nothing and draws no
    entropy. *)
Theorem public_get_needs_no_key
  (KEY_ID PRIVATE_KEY_BASE64 KEY_ID' PRIVATE_KEY_BASE64' : option string)
  (ed25519_sign ed25519_sign' : string -> string -> string)
  (url path path' : string) (params : option dict) (w : World) :
  let run := _get KEY_ID PRIVATE_KEY_BASE64 ed25519_sign url path params
               true w in
  run = _get KEY_ID' PRIVATE_KEY_BASE64' ed25519_sign' url path' params true w
  /\ stdout (snd run) = stdout w
  /\ entropy_used (snd run) = entropy_used w.
Proof.
  cbv zeta. split; [reflexivity |].
  change (_get KEY_ID PRIVATE_KEY_BASE64 ed25519_sign url path params true)
    with (exec KEY_ID PRIVATE_KEY_BASE64 ed25519_sign
            (Get url path params true)).
  rewrite exec_run. unfold headers_for. cbn [call_public ret].
  destruct (transport_frame (Get url path params true) _public_headers w)
    as (Ho & He & _).
  destruct (transport (Get url path params true) _public_headers w)
    as [[resp | e] w2]; cbn [fst snd] in *; auto.
Qed.

(** A private call whose key cannot be used raises the error of the key
    before anything is sent: the world changes only by the 16 bytes of
    entropy drawn for the nonce. *)
Theorem private_call_without_key_sends_nothing
  (KEY_ID PRIVATE_KEY_BASE64 : option string)
  (ed25519_sign : string -> string -> string) (c : call) (w : World) :
  call_public c = false ->
  (forall e, JwtGenerator.b64decode PRIVATE_KEY_BASE64 = Raise e ->
     exec KEY_ID PRIVATE_KEY_BASE64 ed25519_sign c w
     = (Raise e, JwtFacts.consume_entropy 16 w))
  /\ (forall decoded,
        JwtGenerator.b64decode PRIVATE_KEY_BASE64 = Ok decoded ->
        (String.length decoded < 32)%nat ->
        exec KEY_ID PRIVATE_KEY_BASE64 ed25519_sign c w
        = (Raise NaclValueError, JwtFacts.consume_entropy 16 w)).
Proof.
  intros Hc. split.
  - intros e He. rewrite exec_run. unfold headers_for, _headers, bind.
    rewrite Hc, JwtFacts.build_jwt_run, He. reflexivity.
  - intros decoded Hd Hlen. rewrite exec_run.
    unfold headers_for, _headers, bind.
    rewrite Hc, JwtFacts.build_jwt_run, Hd.
    unfold JwtGenerator.SigningKey.
    apply JwtFacts.take_short in Hlen. apply Nat.eqb_neq in Hlen.
    now rewrite Hlen.
Qed.

Lemma private_call_without_key_witness :
  exec (Some "abc") None Fixtures.demo_sign
    (Post (BASE_URL ++ "/orders") "/api/v3/brokerage/orders" None)
    (Fixtures.world_with (Fixtures.always 200 "{}" (Some (VDict []))))
  = (Raise TypeError,
     JwtFacts.consume_entropy 16
       (Fixtures.world_with (Fixtures.always 200 "{}" (Some (VDict []))))).
Proof.
  apply (proj1 (private_call_without_key_sends_nothing (Some "abc") None
                  Fixtures.demo_sign
                  (Post (BASE_URL ++ "/orders") "/api/v3/brokerage/orders" None)
                  (Fixtures.world_with
                     (Fixtures.always 200 "{}" (Some (VDict []))))
                  eq_refl)).
  reflexivity.
Defined.



End ClientExtras.


(** * Endpoint functions of core/coinbase_requests_client.py *)

Module Endpoints.

Import Client.

(** Text arguments that may be [None]; [if x:] holds for a non-empty
    string. *)
Definition given (x : option string) : bool :=
  match x with
  | Some s => negb (String.eqb s "")
  | None => false
  end.

Definition text_of (x : option string) : string :=
  match x with Some s => s | None => EmptyString end.

(** [d[k] = v] *)
Fixpoint dict_set (k : string) (v : value) (d : dict) : dict :=
  match d with
  | [] => [(k, v)]
  | (k', v') :: d' =>
      if String.eqb k k' then (k, v) :: d' else (k', v') :: dict_set k v d'
  end.

(** [d.update(other)] *)
Definition dict_update (d other : dict) : dict :=
  fold_left (fun acc kv => dict_set (fst kv) (snd kv) acc) other d.

(** [d[k] = v] when [cond] holds, as in [if x: params[k] = x]. *)
Definition set_if (cond : bool) (k : string) (v : value) (d : dict) : dict :=
  if cond then dict_set k v d else d.

Section WithKey.

Variables KEY_ID PRIVATE_KEY_BASE64 : option string.
Variable ed25519_sign : string -> string -> string.

Let get := _get KEY_ID PRIVATE_KEY_BASE64 ed25519_sign.
Let post := _post KEY_ID PRIVATE_KEY_BASE64 ed25519_sign.
Let put := _put KEY_ID PRIVATE_KEY_BASE64 ed25519_sign.
Let delete := _delete KEY_ID PRIVATE_KEY_BASE64 ed25519_sign.

Definition get_account (account_id : string) : M value :=
  let path := "/api/v3/brokerage/accounts/" ++ account_id in
  let url := BASE_URL ++ "/accounts/" ++ account_id in
  get url path None false.

Definition create_order (client_order_id product_id side : string)
           (order_configuration : value)
           (retail_portfolio_id : option string) (kwargs : dict) : M value :=
  let path := "/api/v3/brokerage/orders" in
  let url := BASE_URL ++ "/orders" in
  let payload :=
    [("client_order_id", VStr client_order_id);
     ("product_id", VStr product_id);
     ("side", VStr (Bytes.upper side));
     ("order_configuration", order_configuration)] in
  let payload :=
    set_if (given retail_portfolio_id) "retail_portfolio_id"
      (VStr (text_of retail_portfolio_id)) payload in
  let payload := dict_update payload kwargs in
  post url path (Some (VDict payload)).

Definition cancel_orders (order_ids : list string) : M value :=
  let path := "/api/v3/brokerage/orders/batch_cancel" in
  let url := BASE_URL ++ "/orders/batch_cancel" in
  let payload := [("order_ids", VList (List.map VStr order_ids))] in
  post url path (Some (VDict payload)).

Definition list_orders (product_id order_status : option string) (limit : Z)
           (start_date end_date : option string) : M value :=
  let path := "/api/v3/brokerage/orders/historical/batch" in
  let url := BASE_URL ++ "/orders/historical/batch" in
  let params := [("limit", VInt limit)] in
  let params :=
    set_if (given product_id) "product_id" (VStr (text_of product_id)) params in
  let params :=
    set_if (given order_status) "order_status" (VStr (text_of order_status))
      params in
  let params :=
    set_if (given start_date) "start_date" (VStr (text_of start_date)) params in
  let params :=
    set_if (given end_date) "end_date" (VStr (text_of end_date)) params in
  get url path (Some params) false.

Definition get_historical_fills (product_id : option string) (limit : Z)
  : M value :=
  let path := "/api/v3/brokerage/orders/historical/fills" in
  let url := BASE_URL ++ "/orders/historical/fills" in
  let params := [] in
  let params :=
    set_if (given product_id) "product_id" (VStr (text_of product_id)) params in
  let params := set_if (negb (limit =? 0)%Z) "limit" (VInt limit) params in
  get url path (Some params) false.

Definition get_order (order_id : string) : M value :=
  let path := "/api/v3/brokerage/orders/historical/" ++ order_id in
  let url := BASE_URL ++ "/orders/historical/" ++ order_id in
  get url path None false.

Definition get_best_bid_ask (product_ids : list string) : M value :=
  let path := "/api/v3/brokerage/best_bid_ask" in
  let url := BASE_URL ++ "/best_bid_ask" in
  let params := [("product_ids", VStr (Bytes.join "," product_ids))] in
  get url path (Some params) false.

(** [limit is not None and isinstance(limit, int) and limit > 0]; a [bool]
    is an [int] in Python, [True > 0] holds and [False > 0] does not. *)
Definition positive_int (limit : value) : bool :=
  match limit with
  | VInt z => (0 <? z)%Z
  | VBool b => b
  | _ => false
  end.

Definition get_product_book (product_id : string) (limit : value) : M value :=
  let path := "/api/v3/brokerage/product_book" in
  let url := BASE_URL ++ "/product_book" in
  let params := [("product_id", VStr product_id)] in
  let params := set_if (positive_int limit) "limit" limit params in
  get url path (Some params) false.

Definition get_product (product_id : string) : M value :=
  let path := "/api/v3/brokerage/products/" ++ product_id in
  let url := BASE_URL ++ "/products/" ++ product_id in
  get url path None false.

Definition get_market_trades (product_id : string) (limit : Z) : M value :=
  let path := "/api/v3/brokerage/products/" ++ product_id ++ "/ticker" in
  let url := BASE_URL ++ "/products/" ++ product_id ++ "/ticker" in
  get url path (Some [("limit", VInt limit)]) false.

Definition get_server_time : M value :=
  let path := "/api/v3/brokerage/time" in
  let url := BASE_URL ++ "/time" in
  get url path None true.

Definition get_public_product_book (product_id : string) (limit : value)
  : M value :=
  let url := PUBLIC_BASE_URL ++ "/product_book" in
  let params := [("product_id", VStr product_id)] in
  let params := set_if (truthy limit) "limit" limit params in
  get url "" (Some params) true.

Definition get_public_product (product_id : string) : M value :=
  let url := PUBLIC_BASE_URL ++ "/products/" ++ product_id in
  get url "" None true.

Definition create_portfolio (name : string) : M value :=
  let path := "/api/v3/brokerage/portfolios" in
  let url := BASE_URL ++ "/portfolios" in
  post url path (Some (VDict [("name", VStr name)])).

Definition edit_portfolio (portfolio_uuid name : string) : M value :=
  let path := "/api/v3/brokerage/portfolios/" ++ portfolio_uuid in
  let url := BASE_URL ++ "/portfolios/" ++ portfolio_uuid in
  put url path (Some (VDict [("name", VStr name)])).

Definition delete_portfolio (portfolio_uuid : string) : M value :=
  let path := "/api/v3/brokerage/portfolios/" ++ portfolio_uuid in
  let url := BASE_URL ++ "/portfolios/" ++ portfolio_uuid in
  delete url path None.

End WithKey.

End Endpoints.


(** * Properties of the endpoint functions *)

Module EndpointFacts.

Import Urllib3 Requests Client RetryFacts ClientFacts Endpoints.

(** The requests that a call sends are copies of its one request. *)
Lemma exec_requests
  (KEY_ID PRIVATE_KEY_BASE64 : option string)
  (ed25519_sign : string -> string -> string) (c : call) (w : World)
  (rq : Request) :
  In rq (skipn (List.length (sent w))
           (sent (snd (exec KEY_ID PRIVATE_KEY_BASE64 ed25519_sign c w)))) ->
  exists h w1,
    headers_for KEY_ID PRIVATE_KEY_BASE64 ed25519_sign c w = (Ok h, w1)
    /\ rq = request_of c h.
Proof.
  pose proof (exec_trace KEY_ID PRIVATE_KEY_BASE64 ed25519_sign c w) as T.
  cbv zeta in T.
  destruct (headers_for KEY_ID PRIVATE_KEY_BASE64 ed25519_sign c w)
    as [[h | e] w1].
  - destruct T as [[E _] | (r & m & _ & _ & E & _)]; rewrite E.
    + rewrite skipn_all. intros [].
    + rewrite skipn_app, skipn_all, Nat.sub_diag. cbn [skipn app].
      intros Hin. apply repeat_spec in Hin. eauto.
  - destruct T as [E _]. rewrite E, skipn_all. intros [].
Qed.

Lemma verb_upper (c : call) : Bytes.upper (verb c) = verb c.
Proof. destruct c; reflexivity. Qed.

(** Every request of a private call carries a token that was minted for
    that very request: the uri claim of the token is the method of the
    request, a space, the host and the [path] argument of the call, and
    its nbf claim is the time at which the call started. *)
Theorem signed_uri_matches_request
  (KEY_ID PRIVATE_KEY_BASE64 : option string)
  (ed25519_sign : string -> string -> string) (c : call) (w : World)
  (rq : Request) :
  call_public c = false ->
  In rq (skipn (List.length (sent w))
           (sent (snd (exec KEY_ID PRIVATE_KEY_BASE64 ed25519_sign c w)))) ->
  req_method rq = verb c
  /\ req_url rq = call_url c
  /\ exists token h p sig,
       header "Authorization" (req_headers rq) = Some ("Bearer " ++ token)%string
       /\ Bytes.split_on "." token = [h; p; sig]
       /\ Base64.urlsafe_decode_nopad p
          = Some (Json.dumps
                    (JwtGenerator.payload_of KEY_ID (clock w)
                       (req_method rq ++ " " ++ JwtGenerator.default_host
                          ++ call_path c)%string)).
Proof.
  intros Hc Hin.
  destruct (exec_requests _ _ _ _ _ _ Hin) as (hs & w1 & Hh & ->).
  split; [reflexivity |]. split; [reflexivity |].
  pose proof (headers_shape _ _ _ _ _ _ _ Hh) as S. rewrite Hc in S.
  destruct S as (token & Hb & ->).
  rewrite JwtFacts.build_jwt_run in Hb.
  destruct (JwtGenerator.b64decode PRIVATE_KEY_BASE64) as [decoded | e];
    [| discriminate].
  destruct (JwtGenerator.SigningKey (Bytes.take 32 decoded)) as [seed | e];
    [| discriminate].
  injection Hb as <- _.
  eexists _, _, _, _. split; [reflexivity |].
  split; [apply JwtFacts.split_token; apply Base64Facts.base64url_digits |].
  cbn [request_of req_method]. rewrite verb_upper.
  apply Base64Facts.base64url_roundtrip.
Qed.

Lemma signed_uri_witness :
  exists rq token h p sig,
    In rq (sent (snd (exec (Some "abc") (Some Fixtures.demo_key)
                        Fixtures.demo_sign accounts_call ok_world)))
    /\ header "Authorization" (req_headers rq) = Some ("Bearer " ++ token)%string
    /\ Bytes.split_on "." token = [h; p; sig]
    /\ Base64.urlsafe_decode_nopad p
       = Some (Json.dumps
                 (JwtGenerator.payload_of (Some "abc") 1700000000
                    "GET api.coinbase.com/api/v3/brokerage/accounts")).
Proof.
  eassert (Hin : In _ (skipn (List.length (sent ok_world))
                         (sent (snd (exec (Some "abc") (Some Fixtures.demo_key)
                                       Fixtures.demo_sign accounts_call
                                       ok_world))))).
  { vm_compute. left. reflexivity. }
  destruct (signed_uri_matches_request (Some "abc") (Some Fixtures.demo_key)
              Fixtures.demo_sign accounts_call ok_world _ eq_refl Hin)
    as (_ & _ & token & h & p & sig & H1 & H2 & H3).
  eexists _, token, h, p, sig.
  split; [| split; [exact H1 | split; [exact H2 | exact H3]]].
  vm_compute. left. reflexivity.
Defined.

(** *** The private endpoint functions *)

Inductive invocation :=
| GetAccount (account_id : string)
| CreateOrder (client_order_id product_id side : string)
    (order_configuration : value) (retail_portfolio_id : option string)
    (kwargs : dict)
| CancelOrders (order_ids : list string)
| ListOrders (product_id order_status : option string) (limit : Z)
    (start_date end_date : option string)
| GetHistoricalFills (product_id : option string) (limit : Z)
| GetOrder (order_id : string)
| GetBestBidAsk (product_ids : list string)
| GetProductBook (product_id : string) (limit : value)
| GetProduct (product_id : string)
| GetMarketTrades (product_id : string) (limit : Z)
| CreatePortfolio (name : string)
| EditPortfolio (portfolio_uuid name : string)
| DeletePortfolio (portfolio_uuid : string).

Section WithKey.

Variables KEY_ID PRIVATE_KEY_BASE64 : option string.
Variable ed25519_sign : string -> string -> string.

Definition invoke (i : invocation) : M value :=
  match i with
  | GetAccount a => get_account KEY_ID PRIVATE_KEY_BASE64 ed25519_sign a
  | CreateOrder a b c d e f =>
      create_order KEY_ID PRIVATE_KEY_BASE64 ed25519_sign a b c d e f
  | CancelOrders a => cancel_orders KEY_ID PRIVATE_KEY_BASE64 ed25519_sign a
  | ListOrders a b c d e =>
      list_orders KEY_ID PRIVATE_KEY_BASE64 ed25519_sign a b c d e
  | GetHistoricalFills a b =>
      get_historical_fills KEY_ID PRIVATE_KEY_BASE64 ed25519_sign a b
  | GetOrder a => get_order KEY_ID PRIVATE_KEY_BASE64 ed25519_sign a
  | GetBestBidAsk a =>
      get_best_bid_ask KEY_ID PRIVATE_KEY_BASE64 ed25519_sign a
  | GetProductBook a b =>
      get_product_book KEY_ID PRIVATE_KEY_BASE64 ed25519_sign a b
  | GetProduct a => get_product KEY_ID PRIVATE_KEY_BASE64 ed25519_sign a
  | GetMarketTrades a b =>
      get_market_trades KEY_ID PRIVATE_KEY_BASE64 ed25519_sign a b
  | CreatePortfolio a =>
      create_portfolio KEY_ID PRIVATE_KEY_BASE64 ed25519_sign a
  | EditPortfolio a b =>
      edit_portfolio KEY_ID PRIVATE_KEY_BASE64 ed25519_sign a b
  | DeletePortfolio a =>
      delete_portfolio KEY_ID PRIVATE_KEY_BASE64 ed25519_sign a
  end.

(** Each endpoint function is one call of the request layer. *)
Lemma invoke_is_call (i : invocation) :
  exists c,
    invoke i = exec KEY_ID PRIVATE_KEY_BASE64 ed25519_sign c
    /\ call_public c = false
    /\ call_url c = ("https://" ++ JwtGenerator.default_host ++ call_path c)%string.
Proof.
  destruct i; cbn [invoke];
    unfold get_account, create_order, cancel_orders, list_orders,
      get_historical_fills, get_order, get_best_bid_ask, get_product_book,
      get_product, get_market_trades, create_portfolio, edit_portfolio,
      delete_portfolio; cbv zeta;
    match goal with
    | |- exists c, _get _ _ _ ?u ?p ?q false = _ /\ _ =>
        exists (Get u p q false)
    | |- exists c, _post _ _ _ ?u ?p ?d = _ /\ _ => exists (Post u p d)
    | |- exists c, _put _ _ _ ?u ?p ?d = _ /\ _ => exists (Put u p d)
    | |- exists c, _delete _ _ _ ?u ?p ?d = _ /\ _ => exists (Delete u p d)
    end; repeat split.
Qed.

End WithKey.

(** The token that a private endpoint function sends is signed for the
    URL it is sent to: the request goes to [https://api.coinbase.com]
    followed by some path, and the uri claim of the token is the method,
    a space, [api.coinbase.com] and that same path. *)
Theorem endpoint_token_signs_its_url
  (KEY_ID PRIVATE_KEY_BASE64 : option string)
  (ed25519_sign : string -> string -> string) (i : invocation) (w : World)
  (rq : Request) :
  In rq (skipn (List.length (sent w))
           (sent (snd (invoke KEY_ID PRIVATE_KEY_BASE64 ed25519_sign i w)))) ->
  exists path token h p sig,
    req_url rq = ("https://api.coinbase.com" ++ path)%string
    /\ header "Authorization" (req_headers rq) = Some ("Bearer " ++ token)%string
    /\ Bytes.split_on "." token = [h; p; sig]
    /\ Base64.urlsafe_decode_nopad p
       = Some (Json.dumps
                 (JwtGenerator.payload_of KEY_ID (clock w)
                    (req_method rq ++ " api.coinbase.com" ++ path)%string)).
Proof.
  destruct (invoke_is_call KEY_ID PRIVATE_KEY_BASE64 ed25519_sign i)
    as (c & -> & Hc & Hu).
  intros Hin.
  destruct (signed_uri_matches_request _ _ _ _ _ _ Hc Hin)
    as (_ & Hurl & token & h & p & sig & H1 & H2 & H3).
  exists (call_path c), token, h, p, sig.
  split; [now rewrite Hurl, Hu |]. auto.
Qed.

Lemma endpoint_token_witness :
  exists rq path token h p sig,
    In rq (sent (snd (invoke (Some "abc") (Some Fixtures.demo_key)
                        Fixtures.demo_sign (GetOrder "o-1") ok_world)))
    /\ req_url rq = ("https://api.coinbase.com" ++ path)%string
    /\ header "Authorization" (req_headers rq) = Some ("Bearer " ++ token)%string
    /\ Bytes.split_on "." token = [h; p; sig]
    /\ Base64.urlsafe_decode_nopad p
       = Some (Json.dumps
                 (JwtGenerator.payload_of (Some "abc") 1700000000
                    ("GET api.coinbase.com" ++ path)%string)).
Proof.
  eassert (Hin : In _ (skipn (List.length (sent ok_world))
                         (sent (snd (invoke (Some "abc")
                                       (Some Fixtures.demo_key)
                                       Fixtures.demo_sign (GetOrder "o-1")
                                       ok_world))))).
  { vm_compute. left. reflexivity. }
  destruct (endpoint_token_signs_its_url _ _ _ _ _ _ Hin)
    as (path & token & h & p & sig & H0 & H1 & H2 & H3).
  eexists _, path, token, h, p, sig.
  split; [| split; [exact H0 | split; [exact H1 | split; [exact H2 | exact H3]]]].
  vm_compute. left. reflexivity.
Defined.

(** *** Query parameters *)

Lemma exec_request_payload
  (KEY_ID PRIVATE_KEY_BASE64 : option string)
  (ed25519_sign : string -> string -> string) (c : call) (w : World)
  (rq : Request) :
  In rq (skipn (List.length (sent w))
           (sent (snd (exec KEY_ID PRIVATE_KEY_BASE64 ed25519_sign c w)))) ->
  req_params rq = call_params c /\ req_json rq = call_json c.
Proof.
  intros Hin. destruct (exec_requests _ _ _ _ _ _ Hin) as (h & w1 & _ & ->).
  split; reflexivity.
Qed.

Definition filter_value (x : option string) : option value :=
  if given x then Some (VStr (text_of x)) else None.

(** The query of [list_orders] holds the limit and exactly those of the
    four filters that were given as non-empty strings; a filter that is
    [None] or empty is left out, and nothing else is sent. *)
Theorem list_orders_query
  (KEY_ID PRIVATE_KEY_BASE64 : option string)
  (ed25519_sign : string -> string -> string)
  (product_id order_status : option string) (limit : Z)
  (start_date end_date : option string) (w : World) (rq : Request) :
  In rq (skipn (List.length (sent w))
           (sent (snd (list_orders KEY_ID PRIVATE_KEY_BASE64 ed25519_sign
                         product_id order_status limit start_date end_date
                         w)))) ->
  exists params,
    req_params rq = Some params
    /\ dict_get "limit" params = Some (VInt limit)
    /\ dict_get "product_id" params = filter_value product_id
    /\ dict_get "order_status" params = filter_value order_status
    /\ dict_get "start_date" params = filter_value start_date
    /\ dict_get "end_date" params = filter_value end_date
    /\ forall k, dict_has k params = true ->
         In k ["limit"; "product_id"; "order_status"; "start_date";
               "end_date"]%string.
Proof.
  unfold list_orders. cbv zeta. intros Hin.
  apply (exec_request_payload _ _ _ (Get _ _ _ false)) in Hin.
  destruct Hin as [Hp _]. cbn [call_params] in Hp.
  eexists. split; [exact Hp |].
  unfold filter_value, set_if.
  destruct (given product_id), (given order_status), (given start_date),
    (given end_date); cbn [dict_set String.eqb Ascii.eqb Bool.eqb];
    (repeat split; [..| intros k]); try reflexivity;
    unfold dict_has; cbn [dict_get];
    repeat match goal with
           | |- context [String.eqb ?x ?lit] =>
               destruct (String.eqb_spec x lit) as [-> | _];
                 [intros _; cbn; tauto |]
           end; discriminate.
Qed.

Lemma list_orders_query_witness :
  exists rq params,
    In rq (sent (snd (list_orders (Some "abc") (Some Fixtures.demo_key)
                        Fixtures.demo_sign (Some "BTC-USD") (Some "") 50
                        None None ok_world)))
    /\ req_params rq = Some params
    /\ dict_get "product_id" params = Some (VStr "BTC-USD")
    /\ dict_get "order_status" params = None.
Proof.
  eassert (Hin : In _ (skipn (List.length (sent ok_world))
                         (sent (snd (list_orders (Some "abc")
                                       (Some Fixtures.demo_key)
                                       Fixtures.demo_sign (Some "BTC-USD")
                                       (Some "") 50 None None ok_world))))).
  { vm_compute. left. reflexivity. }
  destruct (list_orders_query _ _ _ _ _ _ _ _ _ _ Hin)
    as (params & Hp & _ & H1 & H2 & _).
  eexists _, params.
  split; [| split; [exact Hp | split; [exact H1 | exact H2]]].
  vm_compute. left. reflexivity.
Defined.

(** How an integer limit reaches the query: [get_product_book] forwards
    it only when it is positive, while [get_public_product_book] and
    [get_historical_fills] forward every limit but zero, a negative one
    included. *)
Theorem limit_forwarding
  (KEY_ID PRIVATE_KEY_BASE64 : option string)
  (ed25519_sign : string -> string -> string)
  (product_id : string) (limit : Z) (w : World) (rq : Request) :
  (In rq (skipn (List.length (sent w))
            (sent (snd (get_product_book KEY_ID PRIVATE_KEY_BASE64
                          ed25519_sign product_id (VInt limit) w)))) ->
   req_params rq
   = Some (("product_id", VStr product_id)
             :: (if (0 <? limit)%Z then [("limit", VInt limit)] else [])))
  /\ (In rq (skipn (List.length (sent w))
               (sent (snd (get_public_product_book KEY_ID PRIVATE_KEY_BASE64
                             ed25519_sign product_id (VInt limit) w)))) ->
      req_params rq
      = Some (("product_id", VStr product_id)
                :: (if (limit =? 0)%Z then [] else [("limit", VInt limit)])))
  /\ (In rq (skipn (List.length (sent w))
               (sent (snd (get_historical_fills KEY_ID PRIVATE_KEY_BASE64
                             ed25519_sign (Some product_id) limit w)))) ->
      req_params rq
      = Some ((if String.eqb product_id "" then []
               else [("product_id", VStr product_id)])
                ++ (if (limit =? 0)%Z then [] else [("limit", VInt limit)]))%list).
Proof.
  unfold get_product_book, get_public_product_book, get_historical_fills.
  cbv zeta. repeat split; intros Hin;
    apply (exec_request_payload _ _ _ (Get _ _ _ _)) in Hin;
    destruct Hin as [Hp _]; cbn [call_params] in Hp; rewrite Hp;
    unfold set_if, given, text_of; cbn [positive_int truthy].
  - destruct (0 <? limit)%Z; reflexivity.
  - destruct (limit =? 0)%Z; reflexivity.
  - destruct (String.eqb product_id ""), (limit =? 0)%Z; reflexivity.
Qed.

Lemma limit_forwarding_witness :
  exists rq,
    In rq (sent (snd (get_public_product_book None None Fixtures.demo_sign
                        "BTC-USD" (VInt (-5)) ok_world)))
    /\ req_params rq
       = Some [("product_id", VStr "BTC-USD"); ("limit", VInt (-5))].
Proof.
  eassert (Hin : In _ (skipn (List.length (sent ok_world))
                         (sent (snd (get_public_product_book None None
                                       Fixtures.demo_sign "BTC-USD"
                                       (VInt (-5)) ok_world))))).
  { vm_compute. left. reflexivity. }
  pose proof (proj1 (proj2 (limit_forwarding None None Fixtures.demo_sign
                              "BTC-USD" (-5) ok_world _)) Hin) as H.
  eexists. split; [| exact H].
  vm_compute. left. reflexivity.
Defined.

(** *** Joining the product ids *)

Definition no_comma (s : string) : bool :=
  Bytes.all_chars (fun c => negb (Ascii.eqb c ",")) s.

Lemma split_comma_plain (s : string) :
  no_comma s = true -> Bytes.split_on "," s = [s].
Proof.
  unfold no_comma.
  induction s as [| c s IH]; cbn [Bytes.all_chars Bytes.split_on];
    [reflexivity |].
  intros H. apply andb_true_iff in H as [Hc Hs].
  apply negb_true_iff in Hc. now rewrite Hc, (IH Hs).
Qed.

Lemma split_comma_app (x y : string) :
  no_comma x = true ->
  Bytes.split_on "," (x ++ "," ++ y) = x :: Bytes.split_on "," y.
Proof.
  unfold no_comma.
  induction x as [| c x IH]; cbn [Bytes.all_chars append].
  - intros _. reflexivity.
  - intros H. apply andb_true_iff in H as [Hc Hx].
    apply negb_true_iff in Hc.
    cbn [Bytes.split_on]. rewrite Hc.
    change (x ++ String "," y)%string with (x ++ "," ++ y)%string.
    now rewrite (IH Hx).
Qed.

Lemma split_join (ids : list string) :
  ids <> [] -> forallb no_comma ids = true ->
  Bytes.split_on "," (Bytes.join "," ids) = ids.
Proof.
  induction ids as [| a ids IH]; [congruence |].
  intros _ H. cbn [forallb] in H. apply andb_true_iff in H as [Ha Hids].
  destruct ids as [| b ids].
  - cbn [Bytes.join]. now apply split_comma_plain.
  - change (Bytes.join "," (a :: b :: ids))
      with (a ++ "," ++ Bytes.join "," (b :: ids))%string.
    rewrite split_comma_app by exact Ha.
    rewrite IH; [reflexivity | discriminate | exact Hids].
Qed.

(** [get_best_bid_ask] sends the product ids as one comma-separated
    parameter from which the list can be read back, provided the list is
    not empty and no id contains a comma. *)
Theorem best_bid_ask_ids_round_trip
  (KEY_ID PRIVATE_KEY_BASE64 : option string)
  (ed25519_sign : string -> string -> string)
  (product_ids : list string) (w : World) (rq : Request) :
  product_ids <> [] ->
  forallb no_comma product_ids = true ->
  In rq (skipn (List.length (sent w))
           (sent (snd (get_best_bid_ask KEY_ID PRIVATE_KEY_BASE64 ed25519_sign
                         product_ids w)))) ->
  exists joined,
    req_params rq = Some [("product_ids", VStr joined)]
    /\ Bytes.split_on "," joined = product_ids.
Proof.
  intros Hne Hc. unfold get_best_bid_ask. cbv zeta. intros Hin.
  apply (exec_request_payload _ _ _ (Get _ _ _ _)) in Hin.
  destruct Hin as [Hp _]. cbn [call_params] in Hp.
  eexists. split; [exact Hp |]. now apply split_join.
Qed.

Lemma best_bid_ask_witness :
  exists rq joined,
    In rq (sent (snd (get_best_bid_ask (Some "abc") (Some Fixtures.demo_key)
                        Fixtures.demo_sign ["BTC-USD"; "ETH-USD"] ok_world)))
    /\ req_params rq = Some [("product_ids", VStr joined)]
    /\ Bytes.split_on "," joined = ["BTC-USD"; "ETH-USD"]%string.
Proof.
  eassert (Hin : In _ (skipn (List.length (sent ok_world))
                         (sent (snd (get_best_bid_ask (Some "abc")
                                       (Some Fixtures.demo_key)
                                       Fixtures.demo_sign
                                       ["BTC-USD"; "ETH-USD"] ok_world))))).
  { vm_compute. left. reflexivity. }
  destruct (best_bid_ask_ids_round_trip _ _ _ ["BTC-USD"; "ETH-USD"]%string
              _ _ ltac:(discriminate) eq_refl Hin) as (joined & Hp & Hs).
  eexists _, joined. split; [| split; [exact Hp | exact Hs]].
  vm_compute. left. reflexivity.
Defined.

End EndpointFacts.


(** * Further properties of [list_accounts] *)

Module PaginationExtras.

Import Urllib3 Requests Client RetryFacts ClientFacts PaginationFacts.
Local Open Scope Z_scope.

(** Whatever the service answers, a result of the loop is a dictionary
    with the single key accounts, whose list starts with what had been
    accumulated. *)
Lemma loop_result_shape
  (KEY_ID PRIVATE_KEY_BASE64 : option string)
  (ed25519_sign : string -> string -> string)
  (limit : Z) (url path : string) (fuel : nat) :
  forall (acc : list value) (cursor : value) (w w' : World) (v : value),
    list_accounts_loop KEY_ID PRIVATE_KEY_BASE64 ed25519_sign fuel limit
      url path acc cursor w = (Ok (Some v), w') ->
    exists l, v = VDict [("accounts", VList (acc ++ l))].
Proof.
  induction fuel as [| fuel IH]; intros acc cursor w w' v; [discriminate |].
  cbn [list_accounts_loop]. unfold bind at 1.
  destruct (_get KEY_ID PRIVATE_KEY_BASE64 ed25519_sign url path _ false w)
    as [[result | e] w1]; [| discriminate].
  unfold bind at 1. unfold lift at 1.
  destruct (py_in "accounts" result) as [[|] | e]; [| | discriminate].
  - unfold bind at 1. unfold lift at 1.
    destruct (py_getitem result "accounts") as [accounts | e];
      [| discriminate].
    unfold bind at 1. unfold lift at 1.
    destruct (py_iter accounts) as [items | e]; [| discriminate].
    unfold bind at 1. unfold lift at 1.
    destruct (py_get result "cursor") as [cursor' | e]; [| discriminate].
    unfold bind at 1. unfold lift at 1.
    destruct (py_get result "has_next") as [has_next | e]; [| discriminate].
    destruct (negb (truthy has_next)).
    + intros H. injection H as <- _. eauto.
    + intros H. destruct (IH _ _ _ _ _ H) as [l ->].
      exists (items ++ l)%list. now rewrite app_assoc.
  - intros H. injection H as <- _. exists []. now rewrite app_nil_r.
Qed.

(** [list_accounts] never hands an error record to its caller: whenever
    it returns, the result is a dictionary whose only key is accounts and
    whose value is a list, so a test for the key error on it fails. *)
Theorem list_accounts_result_has_no_error
  (KEY_ID PRIVATE_KEY_BASE64 : option string)
  (ed25519_sign : string -> string -> string)
  (fuel : nat) (limit : Z) (w w' : World) (v : value) :
  list_accounts KEY_ID PRIVATE_KEY_BASE64 ed25519_sign fuel limit w
    = (Ok (Some v), w') ->
  (exists l, v = VDict [("accounts", VList l)])
  /\ py_in "error" v = Ok false
  /\ py_in "accounts" v = Ok true.
Proof.
  intros H. unfold list_accounts in H.
  destruct (loop_result_shape _ _ _ _ _ _ _ _ _ _ _ _ H) as [l ->].
  split; [eauto |]. split; reflexivity.
Qed.

Lemma list_accounts_result_witness :
  exists v,
    fst (list_accounts (Some "abc") (Some Fixtures.demo_key)
           Fixtures.demo_sign 2 100 (Fixtures.world_with Fixtures.two_pages))
    = Ok (Some v)
    /\ py_in "error" v = Ok false.
Proof.
  eassert (Hrun : list_accounts (Some "abc") (Some Fixtures.demo_key)
                    Fixtures.demo_sign 2 100
                    (Fixtures.world_with Fixtures.two_pages)
                  = (Ok (Some _), _)) by (vm_compute; reflexivity).
  eexists. split; [rewrite Hrun; reflexivity |].
  exact (proj1 (proj2
    (list_accounts_result_has_no_error _ _ _ _ _ _ _ _ Hrun))).
Defined.

(** Attempt number [n] is answered with a 4xx status that is not retried,
    whatever is sent. *)
Definition fails (up : nat -> Request -> Attempt) (n : nat) : Prop :=
  forall rq, exists resp,
    up n rq = Responded resp
    /\ 400 <= status_code resp < 500
    /\ status_code resp <> 429
    /\ (status_code resp = 413 -> retry_after resp = None).

Section WithKey.

Variables KEY_ID PRIVATE_KEY_BASE64 : option string.
Variable ed25519_sign : string -> string -> string.
Hypothesis Hkey : key_ok PRIVATE_KEY_BASE64.

(** A turn of the loop whose fetch is refused ends the loop with what
    had been accumulated. *)
Lemma loop_turn_refused (fuel : nat) (limit : Z) (acc : list value)
      (cursor : value) (w : World) :
  fails (upstream w) (List.length (sent w)) ->
  exists w',
    list_accounts_loop KEY_ID PRIVATE_KEY_BASE64 ed25519_sign (S fuel) limit
      accounts_url accounts_path acc cursor w
    = (Ok (Some (VDict [("accounts", VList acc)])), w')
    /\ List.length (sent w') = S (List.length (sent w)).
Proof.
  intros Hfail.
  set (c := Get accounts_url accounts_path
              (Some (("limit", VInt limit)
                       :: (if truthy cursor then [("cursor", cursor)] else [])))
              false).
  destruct (private_headers_ok KEY_ID PRIVATE_KEY_BASE64 ed25519_sign Hkey
              c w eq_refl) as (h & w1 & Hh).
  pose proof (headers_frame KEY_ID PRIVATE_KEY_BASE64 ed25519_sign c w)
    as (Hu & Hs & _).
  cbv zeta in Hu, Hs. rewrite Hh in Hu, Hs. cbn [fst snd] in Hu, Hs.
  destruct (Hfail (request_of c h)) as (resp & U & Hst & H429 & H413).
  assert (Hget : exec KEY_ID PRIVATE_KEY_BASE64 ed25519_sign c w
                 = (normalise resp, log_attempt (request_of c h) w1)).
  { rewrite exec_run, Hh.
    rewrite transport_https by reflexivity.
    unfold HTTPAdapter_send, try_except.
    change recursion_limit with (S 999).
    rewrite urlopen_step, Hu, Hs, U.
    rewrite next_final; [reflexivity |].
    apply (client_error_not_retried c resp Hst H429).
    intros E. left. auto. }
  exists (log_attempt (request_of c h) w1). split.
  - cbn [list_accounts_loop]. unfold bind at 1.
    match goal with
    | |- context [_get ?x1 ?x2 ?x3 ?x4 ?x5 ?x6 ?x7 ?x8] =>
        replace (_get x1 x2 x3 x4 x5 x6 x7 x8)
          with (normalise resp, log_attempt (request_of c h) w1)
          by (symmetry; exact Hget)
    end.
    unfold normalise, is_error_status.
    destruct (Z.leb_spec 400 (status_code resp)); [| lia].
    destruct (Z.ltb_spec (status_code resp) 600); [| lia].
    reflexivity.
  - cbn [log_attempt sent]. rewrite Hs, length_app. cbn [List.length]. lia.
Qed.

Lemma loop_pages_refused (limit : Z) (pages : list dict) :
  forall (fuel : nat) (acc : list value) (cursor : value) (w : World),
    (List.length pages < fuel)%nat ->
    Forall (fun d => is_page d /\ has_more d = true) pages ->
    (forall i d, nth_error pages i = Some d ->
                 serves (upstream w) (List.length (sent w) + i) d) ->
    fails (upstream w) (List.length (sent w) + List.length pages) ->
    exists w',
      list_accounts_loop KEY_ID PRIVATE_KEY_BASE64 ed25519_sign fuel limit
        accounts_url accounts_path acc cursor w
      = (Ok (Some (VDict [("accounts", VList (acc ++ all_items pages))])), w')
      /\ List.length (sent w')
         = (List.length (sent w) + S (List.length pages))%nat.
Proof.
  induction pages as [| d pages IH];
    intros fuel acc cursor w Hfuel Hpages Hserve Hfail;
    (destruct fuel as [| fuel]; [cbn in Hfuel; lia |]).
  - rewrite Nat.add_0_r in Hfail.
    destruct (loop_turn_refused fuel limit acc cursor w Hfail)
      as (w' & Hrun & Hlen).
    exists w'. cbn [all_items flat_map List.length].
    rewrite app_nil_r. split; [exact Hrun | lia].
  - inversion Hpages as [| ? ? [Hd Hmore] Hrest]; subst.
    pose proof (Hserve 0%nat d eq_refl) as Hserve0.
    rewrite Nat.add_0_r in Hserve0.
    destruct (loop_turn KEY_ID PRIVATE_KEY_BASE64 ed25519_sign Hkey fuel
                limit acc cursor d w Hserve0 Hd)
      as (w1 & rq & Hu & Hs & _ & Hrun).
    rewrite Hmore in Hrun.
    destruct (IH fuel (acc ++ items_of d)%list (field "cursor" d) w1)
      as (w' & Hloop & Hlen); try assumption.
    + cbn in Hfuel. lia.
    + intros i d' Hi. rewrite Hu, Hs, length_app. cbn [List.length].
      replace (List.length (sent w) + 1 + i)%nat
        with (List.length (sent w) + S i)%nat by lia.
      apply Hserve. exact Hi.
    + rewrite Hu, Hs, length_app. cbn [List.length] in *.
      replace (List.length (sent w) + 1 + List.length pages)%nat
        with (List.length (sent w) + S (List.length pages))%nat by lia.
      exact Hfail.
    + exists w'. rewrite Hrun, Hloop.
      cbn [all_items flat_map List.length].
      rewrite <- app_assoc. split; [reflexivity |].
      rewrite Hlen, Hs, length_app. cbn [List.length]. lia.
Qed.

End WithKey.

(** When a fetch is refused with a 4xx status, [list_accounts] returns the
    accounts of the pages before it as if the listing were complete: the
    error record is dropped and, when the first fetch is the one refused,
    the result is an empty list. *)
Theorem list_accounts_hides_refused_page
  (KEY_ID PRIVATE_KEY_BASE64 : option string)
  (ed25519_sign : string -> string -> string)
  (limit : Z) (pages : list dict) (fuel : nat) (w : World) :
  key_ok PRIVATE_KEY_BASE64 ->
  (List.length pages < fuel)%nat ->
  Forall (fun d => is_page d /\ has_more d = true) pages ->
  (forall i d, nth_error pages i = Some d ->
               serves (upstream w) (List.length (sent w) + i) d) ->
  fails (upstream w) (List.length (sent w) + List.length pages) ->
  exists w',
    list_accounts KEY_ID PRIVATE_KEY_BASE64 ed25519_sign fuel limit w
    = (Ok (Some (VDict [("accounts", VList (all_items pages))])), w')
    /\ List.length (sent w')
       = (List.length (sent w) + S (List.length pages))%nat.
Proof.
  intros Hkey Hfuel Hpages Hserve Hfail. rewrite list_accounts_eq.
  apply (loop_pages_refused KEY_ID PRIVATE_KEY_BASE64 ed25519_sign Hkey
           limit pages fuel [] VNone w Hfuel Hpages Hserve Hfail).
Qed.

Lemma list_accounts_hides_refused_page_witness :
  exists w',
    list_accounts (Some "abc") (Some Fixtures.demo_key) Fixtures.demo_sign
      1 100 (Fixtures.world_with (Fixtures.always 401 "unauthorized" None))
    = (Ok (Some (VDict [("accounts", VList [])])), w').
Proof.
  destruct (list_accounts_hides_refused_page (Some "abc")
              (Some Fixtures.demo_key) Fixtures.demo_sign 100 [] 1
              (Fixtures.world_with
                 (Fixtures.always 401 "unauthorized" None)))
    as (w' & Hrun & _).
  - exact demo_key_ok.
  - cbn. lia.
  - constructor.
  - intros i d Hi. destruct i; discriminate Hi.
  - intros rq. eexists. split; [reflexivity |].
    cbn [status_code]. repeat split; lia.
  - exists w'. exact Hrun.
Defined.

End PaginationExtras.


(** * Further properties of key decoding and of the backoff *)

Module KeyExtras.

Import Base64 JwtGenerator.

Lemma a2b_loop_skips (ch : ascii) (x y : string) :
  value false ch = None -> Ascii.eqb ch "=" = false ->
  forall st, a2b_loop st (x ++ String ch y) = a2b_loop st (x ++ y).
Proof.
  intros Hv Hp. induction x as [| c x IH]; intros st.
  - cbn [append a2b_loop]. unfold a2b_step. now rewrite Hp, Hv.
  - cbn [append a2b_loop].
    destruct (a2b_step st c) as [st' | st']; [apply IH | reflexivity].
Qed.

Lemma all_chars_app (f : ascii -> bool) (x y : string) :
  Bytes.all_chars f (x ++ y)
  = Bytes.all_chars f x && Bytes.all_chars f y.
Proof.
  induction x as [| c x IH]; cbn [append Bytes.all_chars]; [reflexivity |].
  now rewrite IH, andb_assoc.
Qed.

(** Decoding the key ignores ASCII characters that are neither base64
    digits nor [=]: a line break or a blank anywhere in the configured
    key, a trailing newline in particular, does not change the key. *)
Theorem b64decode_ignores_other_characters (ch : ascii) (x y : string) :
  is_ascii ch = true ->
  value false ch = None ->
  Ascii.eqb ch "=" = false ->
  b64decode (Some (x ++ String ch y)) = b64decode (Some (x ++ y)).
Proof.
  intros Ha Hv Hp. unfold b64decode.
  rewrite !all_chars_app. cbn [Bytes.all_chars]. rewrite Ha. cbn [andb].
  destruct (Bytes.all_chars is_ascii x && Bytes.all_chars is_ascii y);
    [| reflexivity].
  unfold a2b_base64. now rewrite (a2b_loop_skips ch x y Hv Hp).
Qed.

Lemma b64decode_ignores_newline_witness :
  b64decode (Some (Fixtures.demo_key ++ String (ascii_of_nat 10) ""))
  = b64decode (Some (Fixtures.demo_key ++ "")).
Proof.
  apply (b64decode_ignores_other_characters (ascii_of_nat 10)
           Fixtures.demo_key ""); reflexivity.
Defined.

End KeyExtras.

Module BackoffExtras.

Import Urllib3 Requests Client RetryFacts ClientFacts.

Definition total_delay (delays : list Q) : Q := fold_right Qplus 0%Q delays.

(** When no response redirects or carries a Retry-After header, the
    sleeps of one call add up to at most 1.8 seconds. *)
Theorem backoff_total_bounded
  (KEY_ID PRIVATE_KEY_BASE64 : option string)
  (ed25519_sign : string -> string -> string) (c : call) (w : World) :
  no_redirect w ->
  (forall n rq, no_retry_after (upstream w n rq)) ->
  exists delays,
    slept (snd (exec KEY_ID PRIVATE_KEY_BASE64 ed25519_sign c w))
    = app (slept w) delays
    /\ Qle (total_delay delays) (18 # 10).
Proof.
  intros _ Hn.
  pose proof (exec_trace KEY_ID PRIVATE_KEY_BASE64 ed25519_sign c w) as T.
  cbv zeta in T.
  assert (Z0 : exists delays,
             slept w = app (slept w) delays
             /\ Qle (total_delay delays) (18 # 10)).
  { exists []. split; [now rewrite app_nil_r | discriminate]. }
  destruct (headers_for KEY_ID PRIVATE_KEY_BASE64 ed25519_sign c w)
    as [[h | e] w1].
  - destruct T as [[_ El] | (r & m & Hr & Hm & _ & El & _)].
    + rewrite El. exact Z0.
    + rewrite El. eexists. split; [reflexivity |].
      destruct Hr as [-> | ->].
      * change (Z.to_nat (total retries)) with 3%nat in Hm.
        rewrite delays_without_retry_after.
        -- rewrite outcomes_length.
           destruct m as [| [| [| [| m]]]]; try lia; discriminate.
        -- rewrite outcomes_length. exact Hm.
        -- apply outcomes_Forall. intros j. apply Hn.
      * change (Z.to_nat (total Retry_default)) with 0%nat in Hm.
        assert (m = 0)%nat by lia. subst m. discriminate.
  - destruct T as [_ El]. rewrite El. exact Z0.
Qed.

Lemma backoff_total_witness :
  exists delays,
    slept (snd (exec None None Fixtures.demo_sign
                  (Get Fixtures.time_url "/api/v3/brokerage/time" None true)
                  (Fixtures.world_with
                     (Fixtures.always 503 "unavailable" None))))
    = delays
    /\ Qle (total_delay delays) (18 # 10).
Proof.
  destruct (backoff_total_bounded None None Fixtures.demo_sign
              (Get Fixtures.time_url "/api/v3/brokerage/time" None true)
              (Fixtures.world_with (Fixtures.always 503 "unavailable" None)))
    as (delays & Hs & Hq).
  - apply always_no_redirect. reflexivity.
  - intros n rq. reflexivity.
  - exists delays. split; [exact Hs | exact Hq].
Defined.

End BackoffExtras.

